(** * AndroidSetup: verification and remediation of an Android SDK installation

    A shallow embedding of [src/commands/android/index.ts] (class
    [AndroidSetup]) together with the properties of it that have been
    checked.

    - JavaScript strings are [string]; the array and string methods the class
      uses ([includes], [split], [indexOf], [splice], [filter]) are written
      out below.
    - The instance field [binaryLocation], a JS object used as a dictionary,
      is a [gmap string string].
    - Everything that leaves the process (filesystem, PATH lookup, child
      processes, the interactive prompt, the SDK download and the package
      installer) is an operation of a [Host] over an abstract world [W].
      Calls that can throw return a [Completion]; a [try]/[catch] is a match
      on it.
    - The methods are written in a state monad over the instance fields, the
      world and a log of the host calls made so far.
    - Console output is not modelled. *)

From Stdlib Require Import Ascii ZArith Bool List Lia.
From stdpp Require Import base option gmap strings list.

(** ** JavaScript strings and arrays *)

Module JS.

(** Truthiness of a string: every string but the empty one. *)
Definition truthy (s : string) : bool := negb (String.eqb s "").

(** [s.includes(t)] on strings: [t] occurs in [s] at some position. *)
Fixpoint includes (s t : string) : bool :=
  String.prefix t s ||
  match s with
  | EmptyString => false
  | String _ s' => includes s' t
  end.

(** [s.split(sep)]: cut [s] at the leftmost occurrences of [sep], scanning
    from the left and resuming after each occurrence.  [split_from sep s k]
    scans [s] with [k] characters of a matched separator still to be dropped;
    the head of its result is the piece under construction. *)
Fixpoint split_from (sep s : string) (skip : nat) : list string :=
  match s with
  | EmptyString => [EmptyString]
  | String c s' =>
      match skip with
      | S k => split_from sep s' k
      | O =>
          if String.prefix sep s
          then EmptyString :: split_from sep s' (String.length sep - 1)
          else match split_from sep s' 0 with
               | r :: rs => String c r :: rs
               | [] => [String c EmptyString]
               end
      end
  end.

Definition split (s sep : string) : list string :=
  match sep with
  | EmptyString => map (fun c => String c EmptyString) (String.list_ascii_of_string s)
  | _ => split_from sep s 0
  end.

(** [xs.join(sep)]. *)
Fixpoint join (sep : string) (xs : list string) : string :=
  match xs with
  | [] => ""
  | [x] => x
  | x :: rest => x +:+ sep +:+ join sep rest
  end.

(** [xs.includes(x)] on arrays of strings. *)
Definition arr_includes (xs : list string) (x : string) : bool :=
  existsb (String.eqb x) xs.

(** [xs.indexOf(x)]: position of the first occurrence, or -1. *)
Fixpoint indexOf_from (xs : list string) (x : string) (i : Z) : Z :=
  match xs with
  | [] => (-1)%Z
  | y :: rest => if String.eqb y x then i else indexOf_from rest x (i + 1)%Z
  end.

Definition indexOf (xs : list string) (x : string) : Z := indexOf_from xs x 0%Z.

(** [xs.splice(i, 1)] for [i >= 0], as used by the class: the element at
    position [i] is removed (nothing happens past the end). *)
Definition splice1 (xs : list string) (i : Z) : list string :=
  delete (Z.to_nat i) xs.

End JS.

(** ** Data model *)

Inductive Platform := windows | mac | linux.

Inductive SdkBinary := adb | avdmanager | emulator | sdkmanager.

(** [SdkBinary] is a union of string literals: each value is its own name. *)
Definition binaryName (b : SdkBinary) : string :=
  match b with
  | adb => "adb"
  | avdmanager => "avdmanager"
  | emulator => "emulator"
  | sdkmanager => "sdkmanager"
  end.

Inductive SetupMode := mode_real | mode_emulator | mode_both.
Inductive Browsers := br_chrome | br_firefox | br_both | br_none.

Record SetupConfigs := {
  mode : option SetupMode;
  browsers : option Browsers
}.

(** A command-line option value: [string | string[] | boolean]. *)
Inductive OptionValue :=
| OptBool (b : bool)
| OptString (s : string)
| OptArray (xs : list string).

Record Options := {
  help : bool;
  setup : bool;
  opt_mode : option OptionValue;
  opt_browsers : option OptionValue
}.

(** Outcome of a call that may throw. *)
Inductive Completion (A : Type) :=
| Normal (a : A)
| Throw.
Arguments Normal {A} a.
Arguments Throw {A}.

(** [try { c } catch { handler }] *)
Definition try_catch {A} (c : Completion A) (handler : A) : A :=
  match c with
  | Normal a => a
  | Throw => handler
  end.

(** ** Collaborators *)

(** What the class imports from [./constants], [./utils] and Node's [path]:
    none of it is part of the class, so it is taken as given. *)
Record Imports := {
  NIGHTWATCH_AVD : string;
  SDK_BINARY_LOCATIONS : SdkBinary -> string;
  BINARY_TO_PACKAGE_NAME : gmap string string;
  getBinaryNameForOS : Platform -> string -> string;
  getAbiForOS : string;
  path_join : list string -> string;
  path_basename : string -> string;
  path_dirname : string -> string
}.

(** The world outside the process.  Reading never changes the world; running
    a program, creating a directory, downloading and installing may. *)
Record Host (W : Type) := {
  env_ANDROID_HOME : W -> option string;
  fs_existsSync : W -> string -> bool;
  which_sync : W -> string -> option string;
  execSync : W -> string -> option string -> Completion string * W;
  fs_mkdirSync : W -> string -> Completion unit * W;
  prompt : W -> SetupConfigs -> SetupConfigs * W;
  downloadAndSetupAndroidSdk : W -> string -> Platform -> W;
  installPackagesUsingSdkManager :
    W -> string -> Platform -> list string -> bool * W
}.
Arguments env_ANDROID_HOME {W} _ _.
Arguments fs_existsSync {W} _ _ _.
Arguments which_sync {W} _ _ _.
Arguments execSync {W} _ _ _ _.
Arguments fs_mkdirSync {W} _ _ _.
Arguments prompt {W} _ _ _.
Arguments downloadAndSetupAndroidSdk {W} _ _ _ _.
Arguments installPackagesUsingSdkManager {W} _ _ _ _ _.

(** The log of host calls, each with what it returned.  An [EvExec] also
    carries the binary name and the argument string [execBinary] was given. *)
Inductive Event :=
| EvExists (path : string) (found : bool)
| EvWhich (name : string) (found : option string)
| EvExec (name args cmd : string) (cwd : option string) (out : Completion string)
| EvMkdir (path : string) (res : Completion unit)
| EvPrompt (given answered : SetupConfigs)
| EvDownload (root : string) (p : Platform)
| EvInstall (location : string) (p : Platform) (packages : list string) (ok : bool).

(** The mutable fields of an [AndroidSetup] instance, the world it runs in
    and the log. *)
Record State (W : Type) := mkState {
  sdkRoot : string;
  binaryLocation : gmap string string;
  world : W;
  trace : list Event
}.
Arguments mkState {W} _ _ _ _.
Arguments sdkRoot {W} _.
Arguments binaryLocation {W} _.
Arguments world {W} _.
Arguments trace {W} _.

(** ** The class *)

Section AndroidSetup.

Context {W : Type}.

(** The collaborators, and the two instance fields that are set by the
    constructor and never assigned again. *)
Variable host : Host W.
Variable imp : Imports.
Variable options : Options.
Variable platform : Platform.

(** *** The monad of methods *)

Definition M (A : Type) : Type := State W -> A * State W.

Definition ret {A} (a : A) : M A := fun st => (a, st).

Definition bind {A B} (m : M A) (k : A -> M B) : M B :=
  fun st => let (a, st') := m st in k a st'.

Notation "x <- m ;; k" := (bind m (fun x => k))
  (at level 100, m at next level, right associativity).
Notation "m ;;; k" := (bind m (fun _ => k))
  (at level 100, right associativity).

Definition record (e : Event) (st : State W) : State W :=
  mkState (sdkRoot st) (binaryLocation st) (world st) (trace st ++ [e]).

Definition set_world (w : W) (st : State W) : State W :=
  mkState (sdkRoot st) (binaryLocation st) w (trace st).

(** [this.sdkRoot = root] *)
Definition assign_sdkRoot (root : string) : M unit :=
  fun st => (tt, mkState root (binaryLocation st) (world st) (trace st)).

(** [this.binaryLocation[name] = location] *)
Definition assign_binaryLocation (name location : string) : M unit :=
  fun st => (tt, mkState (sdkRoot st) (<[name := location]> (binaryLocation st))
                         (world st) (trace st)).

(** [this.binaryLocation[name]] *)
Definition read_binaryLocation (name : string) : M (option string) :=
  fun st => (binaryLocation st !! name, st).

Definition read_sdkRoot : M string := fun st => (sdkRoot st, st).

(** *** Host calls *)

Definition getenv_ANDROID_HOME : M (option string) :=
  fun st => (env_ANDROID_HOME host (world st), st).

Definition existsSync (path : string) : M bool :=
  fun st =>
    let found := fs_existsSync host (world st) path in
    (found, record (EvExists path found) st).

Definition which (name : string) : M (option string) :=
  fun st =>
    let found := which_sync host (world st) name in
    (found, record (EvWhich name found) st).

Definition exec (name args cmd : string) (cwd : option string) : M (Completion string) :=
  fun st =>
    let (out, w) := execSync host (world st) cmd cwd in
    (out, record (EvExec name args cmd cwd out) (set_world w st)).

Definition mkdirSync (path : string) : M (Completion unit) :=
  fun st =>
    let (res, w) := fs_mkdirSync host (world st) path in
    (res, record (EvMkdir path res) (set_world w st)).

Definition ask (configs : SetupConfigs) : M SetupConfigs :=
  fun st =>
    let (answered, w) := prompt host (world st) configs in
    (answered, record (EvPrompt configs answered) (set_world w st)).

Definition download (root : string) : M unit :=
  fun st =>
    let w := downloadAndSetupAndroidSdk host (world st) root platform in
    (tt, record (EvDownload root platform) (set_world w st)).

Definition install (location : string) (packages : list string) : M bool :=
  fun st =>
    let (ok, w) :=
      installPackagesUsingSdkManager host (world st) location platform packages in
    (ok, record (EvInstall location platform packages ok) (set_world w st)).

(** *** Methods *)

(** [getSdkRoot] (lines 59-84): a non-empty value of the variable is returned
    as it is; an unset or empty one gives the empty string. *)
Definition getSdkRoot : M string :=
  androidHome <- getenv_ANDROID_HOME ;;
  match androidHome with
  | Some value => if JS.truthy value then ret value else ret ""
  | None => ret ""
  end.

(** [v.includes(x)] for an option value that is a string or an array. *)
Definition value_includes (v : OptionValue) (x : string) : bool :=
  match v with
  | OptBool _ => false
  | OptString s => JS.includes s x
  | OptArray xs => JS.arr_includes xs x
  end.

(** [v && typeof v !== 'boolean'] *)
Definition given_value (v : option OptionValue) : option OptionValue :=
  match v with
  | Some (OptString s) => if JS.truthy s then v else None
  | Some (OptArray _) => v
  | _ => None
  end.

(** [getConfigFromOptions] (lines 86-118) *)
Definition getConfigFromOptions (opts : Options) : SetupConfigs :=
  let m :=
    match given_value (opt_mode opts) with
    | Some v =>
        let realMode := value_includes v "real" in
        let emulatorMode := value_includes v "emulator" in
        if realMode && emulatorMode then Some mode_both
        else if realMode then Some mode_real
        else if emulatorMode then Some mode_emulator
        else None
    | None => None
    end in
  let b :=
    match given_value (opt_browsers opts) with
    | Some v =>
        let chrome := value_includes v "chrome" in
        let firefox := value_includes v "firefox" in
        if value_includes v "none" then Some br_none
        else if chrome && firefox then Some br_both
        else if chrome then Some br_chrome
        else if firefox then Some br_firefox
        else None
    | None => None
    end in
  {| mode := m; browsers := b |}.

(** [getSetupConfigs] (lines 120-124) *)
Definition getSetupConfigs (opts : Options) : M SetupConfigs :=
  ask (getConfigFromOptions opts).

(** [getBinaryLocation] (lines 126-186).  [suppressOutput] only silences the
    console. *)
Definition getBinaryLocation (binary : SdkBinary) (suppressOutput : bool) : M string :=
  let binaryFullName := getBinaryNameForOS imp platform (binaryName binary) in
  root <- read_sdkRoot ;;
  let pathToBinary :=
    path_join imp [root; SDK_BINARY_LOCATIONS imp binary; binaryFullName] in
  found <- existsSync pathToBinary ;;
  if found then
    assign_binaryLocation (binaryName binary) pathToBinary ;;;
    ret pathToBinary
  else if String.eqb (binaryName binary) "adb" then
    let adbPath := path_join imp [root; binaryFullName] in
    foundAtRoot <- existsSync adbPath ;;
    if foundAtRoot then
      assign_binaryLocation (binaryName binary) adbPath ;;;
      ret adbPath
    else
      adbLocation <- which binaryFullName ;;
      if JS.truthy (default "" adbLocation) then
        assign_binaryLocation (binaryName binary) "PATH" ;;;
        ret "PATH"
      else ret ""
  else ret "".

(** [checkBinariesPresent] (lines 188-200): the loop, with the array it
    pushes to. *)
Fixpoint checkBinariesPresent_loop
    (binaries missingBinaries : list SdkBinary) : M (list SdkBinary) :=
  match binaries with
  | [] => ret missingBinaries
  | binary :: rest =>
      binaryPath <- getBinaryLocation binary false ;;
      checkBinariesPresent_loop rest
        (if JS.truthy binaryPath then missingBinaries
         else missingBinaries ++ [binary])
  end.

Definition checkBinariesPresent (binaries : list SdkBinary) : M (list SdkBinary) :=
  checkBinariesPresent_loop binaries [].

(** [execBinary] (lines 202-246) *)
Definition execBinary (location name args : string) : M string :=
  if String.eqb location "PATH" then
    let binaryFullName := getBinaryNameForOS imp platform name in
    let cmd := binaryFullName +:+ " " +:+ args in
    stdout <- exec name args cmd None ;;
    ret (try_catch stdout "")
  else
    let binaryFullName := path_basename imp location in
    let binaryDirPath := path_dirname imp location in
    let cmd :=
      match platform with
      | windows => binaryFullName +:+ " " +:+ args
      | _ => "./" +:+ binaryFullName +:+ " " +:+ args
      end in
    stdout <- exec name args cmd (Some binaryDirPath) ;;
    ret (try_catch stdout "").

(** The smoke-test argument of a binary (lines 256-261). *)
Definition smokeTest (binary : SdkBinary) : string :=
  if String.eqb (binaryName binary) "emulator" then "-version"
  else if String.eqb (binaryName binary) "avdmanager" then "list avd"
  else "--version".

(** [checkBinariesWorking] (lines 248-275) *)
Fixpoint checkBinariesWorking_loop
    (binaries nonWorkingBinaries : list SdkBinary) : M (list SdkBinary) :=
  match binaries with
  | [] => ret nonWorkingBinaries
  | binary :: rest =>
      cached <- read_binaryLocation (binaryName binary) ;;
      binaryPath <-
        (if JS.truthy (default "" cached) then ret (default "" cached)
         else getBinaryLocation binary false) ;;
      let cmd := smokeTest binary in
      if JS.truthy binaryPath then
        binaryWorking <- execBinary binaryPath (binaryName binary) cmd ;;
        checkBinariesWorking_loop rest
          (if JS.truthy binaryWorking then nonWorkingBinaries
           else nonWorkingBinaries ++ [binary])
      else
        checkBinariesWorking_loop rest (nonWorkingBinaries ++ [binary])
  end.

Definition checkBinariesWorking (binaries : list SdkBinary) : M (list SdkBinary) :=
  checkBinariesWorking_loop binaries [].

(** What [verifyAvdPresent] makes of the listing (lines 284-290). *)
Definition avdListed (stdout : string) : bool :=
  let workingAvds :=
    List.filter (fun avd => negb (JS.includes avd "Error: "))
                (JS.split stdout "---------") in
  match List.filter (fun avd => JS.includes avd (NIGHTWATCH_AVD imp)) workingAvds with
  | [] => false
  | _ :: _ => true
  end.

(** [verifyAvdPresent] (lines 277-291) *)
Definition verifyAvdPresent : M bool :=
  location <- getBinaryLocation avdmanager true ;;
  stdout <- execBinary location "avdmanager" "list avd" ;;
  ret (avdListed stdout).

(** [verifyAdbRunning] (lines 293-314) *)
Definition verifyAdbRunning : M unit :=
  adbLocation <- getBinaryLocation adb true ;;
  if JS.truthy adbLocation then
    execBinary adbLocation "adb" "devices" ;;; ret tt
  else ret tt.

(** [binaries.includes(binary)] on arrays of binaries. *)
Definition bin_includes (binaries : list SdkBinary) (binary : SdkBinary) : bool :=
  JS.arr_includes (map binaryName binaries) (binaryName binary).

(** The binaries a mode requires (lines 327-331). *)
Definition requiredBinariesFor (setupConfigs : SetupConfigs) : list SdkBinary :=
  match mode setupConfigs with
  | Some mode_real => [adb]
  | _ => [adb] ++ [avdmanager; emulator]
  end.

(** [verifySetup] (lines 316-385) *)
Definition verifySetup (setupConfigs : SetupConfigs) : M (list string) :=
  let requiredBinaries := requiredBinariesFor setupConfigs in
  missingBinaries <- checkBinariesPresent requiredBinaries ;;
  let missingRequirements := map binaryName missingBinaries in
  missingRequirements <-
    (if bin_includes requiredBinaries emulator then
       root <- read_sdkRoot ;;
       let platormsPath := path_join imp [root; "platforms"] in
       found <- existsSync platormsPath ;;
       if found then ret missingRequirements
       else ret (missingRequirements ++ ["platforms"])
     else ret missingRequirements) ;;
  avdPresent <- verifyAvdPresent ;;
  let missingRequirements :=
    if avdPresent then missingRequirements
    else missingRequirements ++ [NIGHTWATCH_AVD imp] in
  let binariesPresent :=
    List.filter (fun binary => negb (bin_includes missingBinaries binary))
                requiredBinaries in
  missingRequirements <-
    (match binariesPresent with
     | [] => ret missingRequirements
     | _ :: _ =>
         nonWorkingBinaries <- checkBinariesWorking binariesPresent ;;
         ret (missingRequirements ++ map binaryName nonWorkingBinaries)
     end) ;;
  (match missingRequirements with
   | [] => verifyAdbRunning
   | _ :: _ => ret tt
   end) ;;;
  ret missingRequirements.

(** [Object.keys(table).includes(key)] *)
Definition has_key (table : gmap string string) (key : string) : bool :=
  bool_decide (is_Some (table !! key)).

(** The packages to install for a list of requirements (lines 415-417). *)
Definition packagesFor (missingRequirements : list string) : list string :=
  map (fun binary => default "" (BINARY_TO_PACKAGE_NAME imp !! binary))
      (List.filter (has_key (BINARY_TO_PACKAGE_NAME imp)) missingRequirements).

Definition dquote : string := String "034"%char EmptyString.

(** The arguments of the call that creates the virtual device (line 445). *)
Definition createAvdArgs : string :=
  "create avd --force --name " +:+ dquote +:+ NIGHTWATCH_AVD imp +:+ dquote +:+
  " --package " +:+ dquote +:+ "system-images;android-30;google_apis;" +:+
  getAbiForOS imp +:+ dquote +:+ " --device " +:+ dquote +:+ "pixel_5" +:+ dquote.

(** [setupAndroid] (lines 387-473) *)
Definition setupAndroid (setupConfigs : SetupConfigs)
    (missingRequirements : list string) : M bool :=
  match missingRequirements with
  | [] => ret true
  | _ :: _ =>
      nonWorking <- checkBinariesWorking [sdkmanager] ;;
      let sdkManagerWorking := Nat.eqb (length nonWorking) 0 in
      missingRequirements <-
        (if negb sdkManagerWorking || JS.arr_includes missingRequirements "avdmanager"
         then
           let avdmanagerIndex := JS.indexOf missingRequirements "avdmanager" in
           let missingRequirements :=
             if (-1 <? avdmanagerIndex)%Z
             then JS.splice1 missingRequirements avdmanagerIndex
             else missingRequirements in
           root <- read_sdkRoot ;;
           download root ;;;
           ret missingRequirements
         else ret missingRequirements) ;;
      let packagesToInstall := packagesFor missingRequirements in
      sdkmanagerLocation <- getBinaryLocation sdkmanager true ;;
      result <- install sdkmanagerLocation packagesToInstall ;;
      (if JS.arr_includes missingRequirements "platforms" then
         root <- read_sdkRoot ;;
         let platformsPath := path_join imp [root; "platforms"] in
         created <- mkdirSync platformsPath ;;
         ret (try_catch created tt)
       else ret tt) ;;;
      avdPresent <- verifyAvdPresent ;;
      result <-
        (if avdPresent then ret result
         else
           location <- getBinaryLocation avdmanager true ;;
           avdCreated <- execBinary location "avdmanager" createAvdArgs ;;
           if JS.truthy avdCreated then ret result else ret false) ;;
      verifyAdbRunning ;;;
      ret result
  end.

(** [run] (lines 29-53) *)
Definition run : M bool :=
  if help options then ret true
  else
    root <- getSdkRoot ;;
    assign_sdkRoot root ;;;
    root <- read_sdkRoot ;;
    if String.eqb root "" then ret false
    else
      setupConfigs <- getSetupConfigs options ;;
      missingRequirements <- verifySetup setupConfigs ;;
      if setup options then setupAndroid setupConfigs missingRequirements
      else
        match missingRequirements with
        | [] => ret true
        | _ :: _ => ret false
        end.

End AndroidSetup.

Arguments ret {W A} a st.
Arguments bind {W A B} m k st.

(** ** Observations on states and logs *)

(** The state of a freshly constructed instance (lines 21-27). *)
Definition initial {W} (w : W) : State W := mkState "" ∅ w [].

(** The events logged between an earlier state and a later one. *)
Definition since {W} (st st' : State W) : list Event :=
  drop (length (trace st)) (trace st').

Definition isProbe (e : Event) : bool :=
  match e with
  | EvExists _ _ | EvWhich _ _ => true
  | _ => false
  end.

Definition isExec (e : Event) : bool :=
  match e with
  | EvExec _ _ _ _ _ => true
  | _ => false
  end.

(** An [execBinary] call for the binary [name] with the arguments [args]. *)
Definition isExecOf (name args : string) (e : Event) : bool :=
  match e with
  | EvExec n a _ _ _ => String.eqb n name && String.eqb a args
  | _ => false
  end.

(** Any [execBinary] call for the binary [name]. *)
Definition isExecOfBinary (name : string) (e : Event) : bool :=
  match e with
  | EvExec n _ _ _ _ => String.eqb n name
  | _ => false
  end.

Definition isMkdir (e : Event) : bool :=
  match e with
  | EvMkdir _ _ => true
  | _ => false
  end.

Definition isDownload (e : Event) : bool :=
  match e with
  | EvDownload _ _ => true
  | _ => false
  end.

Definition isInstall (e : Event) : bool :=
  match e with
  | EvInstall _ _ _ _ => true
  | _ => false
  end.

(** A step that the result of [setupAndroid] depends on went wrong: the
    installer reported failure, or creating the virtual device gave no
    output. *)
Definition stepFailed (imp : Imports) (e : Event) : bool :=
  match e with
  | EvInstall _ _ _ ok => negb ok
  | EvExec n a _ _ out =>
      String.eqb n "avdmanager" && String.eqb a (createAvdArgs imp) &&
      negb (JS.truthy (try_catch out ""))
  | _ => false
  end.

(** The places under [root] where a lookup accepts the file of [binary]
    (lines 131 and 147): its directory inside the SDK and, for adb only, the
    SDK root itself. *)
Definition placesOf (imp : Imports) (platform : Platform) (root : string)
    (binary : SdkBinary) : list string :=
  let binaryFullName := getBinaryNameForOS imp platform (binaryName binary) in
  path_join imp [root; SDK_BINARY_LOCATIONS imp binary; binaryFullName] ::
  (if String.eqb (binaryName binary) "adb"
   then [path_join imp [root; binaryFullName]] else []).

(** The world of [st] has [binary] at [location]: one of its places under
    the SDK root exists, or the binary is adb, the location is the PATH
    sentinel and adb is on the PATH. *)
Definition findable {W} (host : Host W) (imp : Imports) (platform : Platform)
    (st : State W) (binary : SdkBinary) (location : string) : Prop :=
  (In location (placesOf imp platform (sdkRoot st) binary) /\
   fs_existsSync host (world st) location = true) \/
  (location = "PATH" /\ binary = adb /\
   JS.truthy (default "" (which_sync host (world st)
                            (getBinaryNameForOS imp platform "adb"))) = true).

(** The log [evs] shows that the binary called [name] was located at
    [location]: the name is that of a binary, and either the location is one
    of the places of that binary under some SDK root and an existence check
    found it, or the binary is adb, the location is the PATH sentinel and a
    search of the PATH for adb found something. *)
Definition located (imp : Imports) (platform : Platform) (evs : list Event)
    (name location : string) : Prop :=
  exists binary,
    name = binaryName binary /\
    (((exists root, In location (placesOf imp platform root binary)) /\
      In (EvExists location true) evs) \/
     (location = "PATH" /\ binary = adb /\
      exists found,
        found <> "" /\
        In (EvWhich (getBinaryNameForOS imp platform "adb") (Some found)) evs)).

(** The cache invariant: a cached location is never empty, and the log of
    the run shows that the binary of that name was located there. *)
Definition cache_ok {W} (imp : Imports) (platform : Platform) (st : State W) : Prop :=
  forall name location,
    binaryLocation st !! name = Some location ->
    location <> "" /\ located imp platform (trace st) name location.

(** A method keeps the cache invariant. *)
Definition preserves_cache {W A} (imp : Imports) (platform : Platform)
    (m : State W -> A * State W) : Prop :=
  forall st, cache_ok imp platform st -> cache_ok imp platform (snd (m st)).

(** A piece of text that can stand between two separators of the listing: it
    contains no separator and does not end in a dash, so a separator written
    after it is found where it was written. *)
Definition record_text (r : string) : Prop :=
  JS.includes (r +:+ "--------") "---------" = false.

(** Two states in which a lookup sees the same: same SDK root, same world,
    and the same cached location for the binaries in [P]. *)
Definition agree {W} (P : SdkBinary -> Prop) (st1 st2 : State W) : Prop :=
  sdkRoot st1 = sdkRoot st2 /\
  world st1 = world st2 /\
  forall b, P b ->
    binaryLocation st1 !! binaryName b = binaryLocation st2 !! binaryName b.

(** From [st] to [st'] the SDK root has not changed and exactly the events
    [evs] have been logged. *)
Definition logs {W} (st st' : State W) (evs : list Event) : Prop :=
  sdkRoot st' = sdkRoot st /\ trace st' = trace st ++ evs.

(** An event of the functional pass over [binaries]: a probe of the
    filesystem or the PATH, or the smoke test of one of the binaries. *)
Definition smokeEvent (binaries : list SdkBinary) (e : Event) : Prop :=
  isProbe e = true \/
  exists b, In b binaries /\ isExecOf (binaryName b) (smokeTest b) e = true.

(** A remediation: a download, an installer call, a directory creation or
    the creation of the virtual device. *)
Definition isRemediation (imp : Imports) (e : Event) : bool :=
  isDownload e || isInstall e || isMkdir e ||
  isExecOf "avdmanager" (createAvdArgs imp) e.

(** ** A concrete instance of the collaborators *)

Module Sample.

(** A POSIX-flavoured [path.join]: the non-empty segments separated by a
    slash, and a dot when there is none (Node returns a dot for a join of
    zero length). *)
Fixpoint join_segments (segments : list string) : string :=
  match segments with
  | [] => ""
  | seg :: rest =>
      if String.eqb seg "" then join_segments rest
      else if String.eqb (join_segments rest) "" then seg
      else seg +:+ "/" +:+ join_segments rest
  end.

Definition join (segments : list string) : string :=
  if String.eqb (join_segments segments) "" then "." else join_segments segments.

(** The text after the last slash. *)
Fixpoint basename_from (s current : string) : string :=
  match s with
  | EmptyString => current
  | String c s' =>
      if Ascii.eqb c "/"%char then basename_from s' ""
      else basename_from s' (current +:+ String c EmptyString)
  end.

Definition basename (s : string) : string := basename_from s "".

(** The text before the last slash, if there is a slash. *)
Fixpoint before_last_slash (s : string) : option string :=
  match s with
  | EmptyString => None
  | String c s' =>
      match before_last_slash s' with
      | Some d => Some (String c d)
      | None => if Ascii.eqb c "/"%char then Some "" else None
      end
  end.

Definition dirname (s : string) : string :=
  match before_last_slash s with
  | Some d => if String.eqb d "" then "/" else d
  | None => "."
  end.

(** Modelled from the spec: the constants of [./constants] and the helpers of
    [./utils] are not in the class's file.  The virtual device has one fixed
    name; every binary has one install-relative directory and one
    platform-dependent file name; the identifier-to-package table is fixed
    and has an entry for each binary and for the virtual device, whose entry
    is its system image (the one line 445 names).  The values below are one
    such choice; the properties proved in this file hold for every choice. *)
Definition imports : Imports := {|
  NIGHTWATCH_AVD := "NIGHTWATCH_AVD";
  SDK_BINARY_LOCATIONS := fun b =>
    match b with
    | adb => "platform-tools"
    | emulator => "emulator"
    | avdmanager | sdkmanager => "cmdline-tools/latest/bin"
    end;
  BINARY_TO_PACKAGE_NAME :=
    list_to_map
      [("sdkmanager", "cmdline-tools;latest");
       ("avdmanager", "cmdline-tools;latest");
       ("adb", "platform-tools");
       ("emulator", "emulator");
       ("NIGHTWATCH_AVD", "system-images;android-30;google_apis;x86_64")];
  getBinaryNameForOS := fun p name =>
    match p with
    | windows => name +:+ ".exe"
    | _ => name
    end;
  getAbiForOS := "x86_64";
  path_join := join;
  path_basename := basename;
  path_dirname := dirname
|}.

(** A world that does not change: what the environment variable holds, which
    paths exist, which names are on the PATH, what each command line prints
    (or that it fails), whether creating a directory works, what the user
    answers, and whether the installer succeeds. *)
Record World := {
  android_home : option string;
  files : list string;
  on_path : list string;
  output : string -> Completion string;
  mkdir_result : Completion unit;
  answer : SetupConfigs;
  install_result : bool
}.

Definition host : Host World := {|
  env_ANDROID_HOME := android_home;
  fs_existsSync := fun w path => JS.arr_includes (files w) path;
  which_sync := fun w name =>
    if JS.arr_includes (on_path w) name then Some ("/usr/bin/" +:+ name) else None;
  execSync := fun w cmd _ => (output w cmd, w);
  fs_mkdirSync := fun w _ => (mkdir_result w, w);
  prompt := fun w _ => (answer w, w);
  downloadAndSetupAndroidSdk := fun w _ _ => w;
  installPackagesUsingSdkManager := fun w _ _ _ => (install_result w, w)
|}.

Definition emulatorMode : SetupConfigs :=
  {| mode := Some mode_emulator; browsers := Some br_chrome |}.

Definition realMode : SetupConfigs :=
  {| mode := Some mode_real; browsers := Some br_chrome |}.

Definition flags (help_flag setup_flag : bool) : Options :=
  {| help := help_flag; setup := setup_flag; opt_mode := None; opt_browsers := None |}.

(** An SDK root with nothing in it; every command fails. *)
Definition bare : World := {|
  android_home := Some "/sdk";
  files := [];
  on_path := [];
  output := fun _ => Throw;
  mkdir_result := Normal tt;
  answer := emulatorMode;
  install_result := true
|}.

(** The listing of the end-to-end example: three records, the second an
    error, the third the virtual device. *)
Definition listing : string :=
  "...---------...Error: ...---------...NIGHTWATCH_AVD...---------".

(** A complete SDK: every binary is in place and prints something, and the
    listing shows the virtual device. *)
Definition complete : World := {|
  android_home := Some "/sdk";
  files :=
    ["/sdk/platform-tools/adb"; "/sdk/cmdline-tools/latest/bin/avdmanager";
     "/sdk/cmdline-tools/latest/bin/sdkmanager"; "/sdk/emulator/emulator";
     "/sdk/platforms"];
  on_path := [];
  output := fun cmd =>
    if String.eqb cmd "./avdmanager list avd" then Normal listing else Normal "ok";
  mkdir_result := Normal tt;
  answer := emulatorMode;
  install_result := true
|}.

(** ANDROID_HOME names a directory that does not exist. *)
Definition nonexistentRoot : World := {|
  android_home := Some "/nonexistent";
  files := [];
  on_path := [];
  output := fun _ => Throw;
  mkdir_result := Normal tt;
  answer := emulatorMode;
  install_result := true
|}.

(** ANDROID_HOME is not set. *)
Definition unsetRoot : World := {|
  android_home := None;
  files := [];
  on_path := [];
  output := fun _ => Throw;
  mkdir_result := Normal tt;
  answer := emulatorMode;
  install_result := true
|}.

(** Every binary is in place and prints something, but there is no platforms
    directory and the listing shows no virtual device. *)
Definition noPlatformsNoAvd : World := {|
  android_home := Some "/sdk";
  files :=
    ["/sdk/platform-tools/adb"; "/sdk/cmdline-tools/latest/bin/avdmanager";
     "/sdk/cmdline-tools/latest/bin/sdkmanager"; "/sdk/emulator/emulator"];
  on_path := [];
  output := fun _ => Normal "ok";
  mkdir_result := Normal tt;
  answer := emulatorMode;
  install_result := true
|}.

(** The same, and the platforms directory cannot be created. *)
Definition mkdirFails : World := {|
  android_home := Some "/sdk";
  files := files noPlatformsNoAvd;
  on_path := [];
  output := fun _ => Normal "ok";
  mkdir_result := Throw;
  answer := emulatorMode;
  install_result := true
|}.

(** A state of an instance whose SDK root has been resolved. *)
Definition started (w : World) : State World :=
  mkState (default "" (android_home w)) ∅ w [].

End Sample.


(** ** Facts about the JavaScript operations *)

Lemma truthy_false_iff (s : string) : JS.truthy s = false <-> s = "".
Proof.
  unfold JS.truthy. rewrite negb_false_iff. apply String.eqb_eq.
Qed.

Lemma truthy_true_iff (s : string) : JS.truthy s = true <-> s <> "".
Proof.
  unfold JS.truthy. rewrite negb_true_iff. apply String.eqb_neq.
Qed.

Lemma arr_includes_In (xs : list string) (x : string) :
  JS.arr_includes xs x = true <-> In x xs.
Proof.
  unfold JS.arr_includes. rewrite existsb_exists. split.
  - intros (y & Hy & Heq). apply String.eqb_eq in Heq. now subst.
  - intros Hin. exists x. split; [assumption | apply String.eqb_refl].
Qed.

Lemma append_cons (c : ascii) (s t : string) :
  String c s +:+ t = String c (s +:+ t).
Proof. reflexivity. Qed.

Lemma append_assoc (a b c : string) : (a +:+ b) +:+ c = a +:+ b +:+ c.
Proof.
  induction a as [|x a IH]; [reflexivity|].
  rewrite !append_cons. now rewrite IH.
Qed.

Lemma append_length (a b : string) :
  String.length (a +:+ b) = String.length a + String.length b.
Proof.
  induction a as [|x a IH]; [reflexivity|].
  rewrite append_cons. simpl. now rewrite IH.
Qed.

Lemma prefix_append (t q : string) : String.prefix t (t +:+ q) = true.
Proof.
  induction t as [|c t IH]; [now destruct q|].
  rewrite append_cons. simpl. destruct (ascii_dec c c); [exact IH | congruence].
Qed.

(** Whether [p] is a prefix only depends on the first [length p] characters. *)
Lemma prefix_append_long (p x y : string) :
  String.length p <= String.length x ->
  String.prefix p (x +:+ y) = String.prefix p x.
Proof.
  revert x. induction p as [|c p IH]; intros x Hlen.
  - now destruct x, y.
  - destruct x as [|d x]; simpl in Hlen; [lia|].
    rewrite append_cons. simpl. destruct (ascii_dec c d); [|reflexivity].
    apply IH. lia.
Qed.

Lemma includes_prefix (s t : string) :
  String.prefix t s = true -> JS.includes s t = true.
Proof. intros H. destruct s; cbn [JS.includes]; rewrite H; reflexivity. Qed.

Lemma includes_append_r (p s t : string) :
  JS.includes s t = true -> JS.includes (p +:+ s) t = true.
Proof.
  intros H. induction p as [|c p IH]; [exact H|].
  rewrite append_cons. simpl. rewrite IH. apply orb_true_r.
Qed.

Lemma includes_middle (p t q : string) : JS.includes (p +:+ t +:+ q) t = true.
Proof. apply includes_append_r, includes_prefix, prefix_append. Qed.

Lemma prefix_split (t s : string) :
  String.prefix t s = true -> exists q, s = t +:+ q.
Proof.
  revert s. induction t as [|c t IH]; intros s H.
  - now exists s.
  - destruct s as [|d s]; simpl in H; [discriminate|].
    destruct (ascii_dec c d) as [->|]; [|discriminate].
    destruct (IH s H) as [q ->]. now exists q.
Qed.

(** [includes] finds exactly the occurrences. *)
Lemma includes_spec (s t : string) :
  JS.includes s t = true <-> exists p q, s = p +:+ t +:+ q.
Proof.
  split.
  - induction s as [|c s IH]; cbn [JS.includes]; intros H.
    + rewrite orb_false_r in H. apply prefix_split in H as [q Hq].
      now exists "", q.
    + apply orb_true_iff in H as [H|H].
      * apply prefix_split in H as [q Hq]. now exists "", q.
      * destruct (IH H) as (p & q & ->). now exists (String c p), q.
  - intros (p & q & ->). apply includes_middle.
Qed.

Lemma split_from_cons_no_match (sep : string) (c : ascii) (s : string) :
  String.prefix sep (String c s) = false ->
  JS.split_from sep (String c s) 0 =
  match JS.split_from sep s 0 with
  | r :: rs => String c r :: rs
  | [] => [String c EmptyString]
  end.
Proof. intros H. cbn [JS.split_from]. now rewrite H. Qed.

Lemma split_from_separator (rest : string) :
  JS.split_from "---------" ("---------" +:+ rest) 0 =
  "" :: JS.split_from "---------" rest 0.
Proof.
  pose proof (prefix_append "---------" rest) as Hsep.
  unfold String.append in *. cbn [JS.split_from].
  now rewrite Hsep.
Qed.

(** A separator written after a record text is found where it was written. *)
Lemma split_from_record (r rest : string) :
  record_text r ->
  JS.split_from "---------" (r +:+ "---------" +:+ rest) 0 =
  r :: JS.split_from "---------" rest 0.
Proof.
  unfold record_text. induction r as [|c r IH]; intros Hr.
  - apply split_from_separator.
  - rewrite append_cons in Hr. cbn [JS.includes] in Hr.
    apply orb_false_iff in Hr as [Hhere Hlater].
    rewrite append_cons, split_from_cons_no_match.
    + now rewrite (IH Hlater).
    + change (String c (r +:+ "---------" +:+ rest))
        with (String c r +:+ ("--------" +:+ "-") +:+ rest).
      rewrite (append_assoc "--------" "-" rest).
      rewrite <- (append_assoc (String c r) "--------").
      rewrite prefix_append_long; [exact Hhere|].
      rewrite append_length. simpl. lia.
Qed.

Lemma split_from_record_last (r : string) :
  record_text r ->
  JS.split_from "---------" (r +:+ "---------") 0 = [r; ""].
Proof.
  intros Hr. pose proof (split_from_record r "" Hr) as E.
  now change ("---------" +:+ "") with "---------" in E.
Qed.

(** Skipping what is left of a separator resumes the scan after it. *)
Lemma split_from_skip (sep pre s : string) :
  JS.split_from sep (pre +:+ s) (String.length pre) = JS.split_from sep s 0.
Proof.
  induction pre as [|c pre IH]; [reflexivity|].
  rewrite append_cons. cbn [JS.split_from String.length]. exact IH.
Qed.

Lemma split_from_nonempty (sep s : string) (k : nat) : JS.split_from sep s k <> [].
Proof.
  revert k. induction s as [|c s IH]; intros k; cbn [JS.split_from]; [discriminate|].
  destruct k as [|k]; [|apply IH].
  destruct (String.prefix sep (String c s)); [discriminate|].
  destruct (JS.split_from sep s 0); discriminate.
Qed.

Lemma join_cons_char (sep : string) (c : ascii) (r : string) (rs : list string) :
  JS.join sep (String c r :: rs) = String c (JS.join sep (r :: rs)).
Proof. destruct rs; reflexivity. Qed.

(** Joining the pieces of a split with the separator gives the text back. *)
Lemma split_join (sep s : string) :
  sep <> "" -> JS.join sep (JS.split s sep) = s.
Proof.
  intros Hsep. destruct sep as [|a sep']; [congruence|]. cbn [JS.split].
  set (sep := String a sep') in *.
  assert (Hstrong : forall n s, String.length s <= n ->
            JS.join sep (JS.split_from sep s 0) = s).
  { clear s. induction n as [|n IH]; intros s Hlen.
    - destruct s; [reflexivity | cbn in Hlen; lia].
    - destruct s as [|c s]; [reflexivity|]. cbn [JS.split_from].
      destruct (String.prefix sep (String c s)) eqn:Hprefix.
      + apply prefix_split in Hprefix as [rest Hrest].
        subst sep. rewrite append_cons in Hrest. injection Hrest as Hc Hs.
        subst c s.
        change (String.length (String a sep') - 1) with (String.length sep' - 0).
        rewrite Nat.sub_0_r, split_from_skip.
        pose proof (split_from_nonempty (String a sep') rest 0) as Hne.
        specialize (IH rest).
        destruct (JS.split_from (String a sep') rest 0) as [|r rs]; [congruence|].
        change (JS.join (String a sep') ("" :: r :: rs))
          with ("" +:+ String a sep' +:+ JS.join (String a sep') (r :: rs)).
        rewrite IH; [reflexivity|].
        cbn [String.length] in Hlen. rewrite append_length in Hlen. lia.
      + pose proof (split_from_nonempty sep s 0) as Hne.
        specialize (IH s ltac:(cbn in Hlen; lia)).
        destruct (JS.split_from sep s 0) as [|r rs]; [congruence|].
        now rewrite join_cons_char, IH. }
  now apply (Hstrong (String.length s)).
Qed.

Lemma split_nonempty_separator (s : string) :
  JS.split s "---------" = JS.split_from "---------" s 0.
Proof. reflexivity. Qed.


Lemma filter_nonempty_iff {A} (f : A -> bool) (xs : list A) :
  (match List.filter f xs with [] => false | _ :: _ => true end) = true <->
  exists x, In x xs /\ f x = true.
Proof.
  split.
  - destruct (List.filter f xs) as [|x rest] eqn:E; [discriminate|].
    intros _. exists x. apply filter_In. rewrite E. now left.
  - intros (x & Hin & Hf).
    assert (Hx : In x (List.filter f xs)) by (apply filter_In; auto).
    now destruct (List.filter f xs).
Qed.

(** Unfolding a method of the class, by its name. *)
Ltac unfold_avdListed := unfold avdListed.
Ltac unfold_checkBinariesPresent_loop := unfold checkBinariesPresent_loop.
Ltac unfold_checkBinariesWorking_loop := unfold checkBinariesWorking_loop.
Ltac unfold_execBinary := unfold execBinary.
Ltac unfold_getBinaryLocation := unfold getBinaryLocation.
Ltac unfold_setupAndroid := unfold setupAndroid.
Ltac unfold_verifyAdbRunning := unfold verifyAdbRunning.
Ltac unfold_verifyAvdPresent := unfold verifyAvdPresent.
Ltac unfold_verifySetup := unfold verifySetup.
Ltac step_checkBinariesPresent_loop := cbn [checkBinariesPresent_loop].
Ltac step_checkBinariesWorking_loop := cbn [checkBinariesWorking_loop].
Ltac unfold_run := unfold run, getSdkRoot, getSetupConfigs.

(** ** Properties of the class *)

Section Properties.

Context {W : Type}.
Variable host : Host W.
Variable imp : Imports.
Variable platform : Platform.

Local Abbreviation getBinaryLocation := (getBinaryLocation host imp platform).
Local Abbreviation execBinary := (execBinary host imp platform).
Local Abbreviation checkBinariesPresent := (checkBinariesPresent host imp platform).
Local Abbreviation checkBinariesPresent_loop := (checkBinariesPresent_loop host imp platform).
Local Abbreviation checkBinariesWorking := (checkBinariesWorking host imp platform).
Local Abbreviation checkBinariesWorking_loop := (checkBinariesWorking_loop host imp platform).
Local Abbreviation verifyAvdPresent := (verifyAvdPresent host imp platform).
Local Abbreviation verifyAdbRunning := (verifyAdbRunning host imp platform).
Local Abbreviation verifySetup := (verifySetup host imp platform).
Local Abbreviation setupAndroid := (setupAndroid host imp platform).
Local Abbreviation avdListed := (avdListed imp).
Local Abbreviation NAME := (NIGHTWATCH_AVD imp).

(** *** The listing of virtual devices *)

Lemma avdListed_spec (stdout : string) :
  avdListed stdout = true <->
  exists avd,
    In avd (JS.split stdout "---------") /\
    JS.includes avd "Error: " = false /\
    JS.includes avd NAME = true.
Proof.
  unfold_avdListed. rewrite filter_nonempty_iff. split.
  - intros (avd & Hin & Hname). apply filter_In in Hin as [Hin Herr].
    apply negb_true_iff in Herr. eauto.
  - intros (avd & Hin & Herr & Hname). exists avd. split; [|assumption].
    apply filter_In. split; [assumption|]. now rewrite Herr.
Qed.

Lemma verifyAvdPresent_unfold (st : State W) :
  verifyAvdPresent st =
  let (location, st1) := getBinaryLocation avdmanager true st in
  let (stdout, st2) := execBinary location "avdmanager" "list avd" st1 in
  (avdListed stdout, st2).
Proof.
  unfold_verifyAvdPresent; unfold bind.
  destruct (getBinaryLocation avdmanager true st) as [location st1].
  now destruct (execBinary location "avdmanager" "list avd" st1).
Qed.

(** C8. [verifyAvdPresent] cuts what [avdmanager list avd] printed at the
    separator of nine dashes, drops every record that contains the text
    "Error: ", and answers true exactly when one of the records left contains
    the name of the virtual device.  In particular, for a listing of three
    records that are each followed by a separator, the second containing
    "Error: " and the third containing the name and no "Error: ", the records
    are those three and an empty one, and the answer is true. *)
Theorem verifyAvdPresent_parses_listing (st : State W) :
  let (location, st1) := getBinaryLocation avdmanager true st in
  let stdout := fst (execBinary location "avdmanager" "list avd" st1) in
  (fst (verifyAvdPresent st) = true <->
   exists avd,
     In avd (JS.split stdout "---------") /\
     JS.includes avd "Error: " = false /\
     JS.includes avd NAME = true) /\
  (forall a b c d e : string,
     record_text a ->
     record_text (b +:+ "Error: " +:+ c) ->
     record_text (d +:+ NAME +:+ e) ->
     JS.includes (d +:+ NAME +:+ e) "Error: " = false ->
     stdout = a +:+ "---------" +:+ (b +:+ "Error: " +:+ c) +:+ "---------" +:+
              (d +:+ NAME +:+ e) +:+ "---------" ->
     JS.split stdout "---------" =
       [a; b +:+ "Error: " +:+ c; d +:+ NAME +:+ e; ""] /\
     fst (verifyAvdPresent st) = true).
Proof.
  rewrite verifyAvdPresent_unfold.
  destruct (getBinaryLocation avdmanager true st) as [location st1].
  destruct (execBinary location "avdmanager" "list avd" st1) as [stdout st2].
  cbn [fst]. split; [apply avdListed_spec|].
  intros a b c d e Ha Hb Hd Hclean ->.
  assert (Hsplit :
    JS.split (a +:+ "---------" +:+ (b +:+ "Error: " +:+ c) +:+ "---------" +:+
              (d +:+ NAME +:+ e) +:+ "---------") "---------" =
    [a; b +:+ "Error: " +:+ c; d +:+ NAME +:+ e; ""]).
  { rewrite split_nonempty_separator.
    rewrite (split_from_record a) by assumption.
    rewrite !append_assoc.
    rewrite <- (append_assoc "Error: " c), <- (append_assoc b).
    rewrite (split_from_record (b +:+ "Error: " +:+ c)) by assumption.
    rewrite <- (append_assoc NAME e), <- (append_assoc d).
    now rewrite (split_from_record_last (d +:+ NAME +:+ e)) by assumption. }
  split; [exact Hsplit|].
  apply avdListed_spec. exists (d +:+ NAME +:+ e). rewrite Hsplit.
  split; [cbn; tauto|]. split; [assumption | apply includes_middle].
Qed.

(** *** Stepping through the methods *)

Ltac unfold_m :=
  unfold bind, ret, existsSync, which, exec, mkdirSync, ask, download, install,
    read_sdkRoot, read_binaryLocation, assign_binaryLocation, assign_sdkRoot,
    getenv_ANDROID_HOME, record, set_world in *;
  cbn [fst snd sdkRoot binaryLocation world trace] in *.

Lemma logs_refl (st : State W) : logs st st [].
Proof. split; [reflexivity | now rewrite app_nil_r]. Qed.

Lemma logs_trans (st1 st2 st3 : State W) (evs1 evs2 : list Event) :
  logs st1 st2 evs1 -> logs st2 st3 evs2 -> logs st1 st3 (evs1 ++ evs2).
Proof.
  intros [R1 T1] [R2 T2]. split; [congruence|].
  now rewrite T2, T1, app_assoc.
Qed.

Lemma logs_since (st st' : State W) (evs : list Event) :
  logs st st' evs -> since st st' = evs.
Proof.
  intros [_ T]. unfold since. rewrite T. apply drop_app_length.
Qed.

(** What a lookup does: it returns a location, leaves the world and the SDK
    root alone, logs only probes, and either finds nothing and leaves the
    cache alone, or caches what it returns, which is the PATH sentinel or a
    joined path that it has just seen to exist. *)
Lemma getBinaryLocation_spec (b : SdkBinary) (s : bool) (st : State W) :
  exists location cache evs,
    getBinaryLocation b s st =
      (location, mkState (sdkRoot st) cache (world st) (trace st ++ evs)) /\
    Forall (fun e => isProbe e = true) evs /\
    ((location = "" /\ cache = binaryLocation st) \/
     (cache = <[binaryName b := location]> (binaryLocation st) /\
      (location = "PATH" \/
       (In (EvExists location true) evs /\
        exists segments, location = path_join imp segments)))).
Proof.
  unfold_getBinaryLocation. unfold_m.
  destruct (fs_existsSync host (world st) _) eqn:E1.
  { eexists _, _, _. split; [reflexivity|]. split; [repeat constructor|].
    right. split; [reflexivity|]. right. split; [now left | eauto]. }
  destruct (String.eqb (binaryName b) "adb").
  2:{ exists "", (binaryLocation st). eexists.
      split; [reflexivity|]. split; [repeat constructor | now left]. }
  cbn [fst snd sdkRoot binaryLocation world trace].
  destruct (fs_existsSync host (world st) (path_join imp [sdkRoot st; _])) eqn:E2.
  { eexists _, _, _. rewrite <- app_assoc. split; [reflexivity|].
    split; [repeat constructor|].
    right. split; [reflexivity|]. right. split; [cbn; tauto | eauto]. }
  destruct (JS.truthy _) eqn:E3; cbn [fst snd sdkRoot binaryLocation world trace].
  - eexists _, _, _. rewrite <- !app_assoc. split; [reflexivity|].
    split; [repeat constructor|]. right. split; [reflexivity | now left].
  - exists "", (binaryLocation st). eexists. rewrite <- !app_assoc.
    split; [reflexivity|]. split; [repeat constructor | now left].
Qed.

(** What an invocation does: one [execSync] call, whose outcome decides the
    result; the cache and the SDK root are left alone. *)
Lemma execBinary_spec (location name args : string) (st : State W) :
  exists cmd cwd,
    execBinary location name args st =
      (try_catch (fst (execSync host (world st) cmd cwd)) "",
       mkState (sdkRoot st) (binaryLocation st)
               (snd (execSync host (world st) cmd cwd))
               (trace st ++ [EvExec name args cmd cwd
                               (fst (execSync host (world st) cmd cwd))])) /\
    (location <> "PATH" -> cwd = Some (path_dirname imp location)).
Proof.
  unfold_execBinary.
  destruct (String.eqb_spec location "PATH") as [->|Hne]; unfold_m.
  - exists (getBinaryNameForOS imp platform name +:+ " " +:+ args), None.
    destruct (execSync host (world st) _ None) as [out w].
    split; [reflexivity | congruence].
  - exists (match platform with
            | windows => path_basename imp location +:+ " " +:+ args
            | _ => "./" +:+ path_basename imp location +:+ " " +:+ args
            end), (Some (path_dirname imp location)).
    destruct (execSync host (world st) _ (Some _)) as [out w].
    split; [reflexivity | trivial].
Qed.

(** C9. Every call of [execBinary] makes exactly one [execSync] call.  When
    that call throws (the program could not be started or exited with a
    nonzero status) [execBinary] returns the empty string; when it returns,
    [execBinary] returns what it printed.  [execBinary] itself always
    returns. *)
Theorem execBinary_catches_failure (location name args : string) (st : State W) :
  exists cmd cwd,
    since st (snd (execBinary location name args st)) =
      [EvExec name args cmd cwd (fst (execSync host (world st) cmd cwd))] /\
    (fst (execSync host (world st) cmd cwd) = Throw ->
     fst (execBinary location name args st) = "") /\
    (forall stdout,
       fst (execSync host (world st) cmd cwd) = Normal stdout ->
       fst (execBinary location name args st) = stdout).
Proof.
  destruct (execBinary_spec location name args st) as (cmd & cwd & E & _).
  exists cmd, cwd. rewrite E. cbn [fst snd]. split; [|split].
  - apply logs_since. now split.
  - now intros ->.
  - now intros stdout ->.
Qed.

(** *** The cache of locations *)

Local Abbreviation cache_ok := (cache_ok imp platform).
Local Abbreviation preserves_cache := (preserves_cache imp platform).
Local Abbreviation located := (located imp platform).
Local Abbreviation findable := (findable host imp platform).

Lemma located_earlier (evs later : list Event) (name location : string) :
  located evs name location -> located (evs ++ later) name location.
Proof.
  intros (binary & Hname & [[Hplace Hin]|(Hpath & Hadb & found & Hfound & Hin)]);
    exists binary; (split; [assumption|]).
  - left. split; [assumption|]. apply in_or_app. now left.
  - right. split_and!; [assumption..|]. exists found.
    split; [assumption|]. apply in_or_app. now left.
Qed.

Lemma located_later (evs later : list Event) (name location : string) :
  located later name location -> located (evs ++ later) name location.
Proof.
  intros (binary & Hname & [[Hplace Hin]|(Hpath & Hadb & found & Hfound & Hin)]);
    exists binary; (split; [assumption|]).
  - left. split; [assumption|]. apply in_or_app. now right.
  - right. split_and!; [assumption..|]. exists found.
    split; [assumption|]. apply in_or_app. now right.
Qed.

Lemma cache_ok_frame (st st' : State W) (evs : list Event) :
  binaryLocation st' = binaryLocation st ->
  trace st' = trace st ++ evs ->
  cache_ok st -> cache_ok st'.
Proof.
  intros Hc Ht Hok name location Hlook. rewrite Hc in Hlook.
  destruct (Hok name location Hlook) as [Hne Hloc].
  split; [assumption|]. rewrite Ht. now apply located_earlier.
Qed.

Lemma truthy_some (found : option string) :
  JS.truthy (default "" found) = true -> exists value, found = Some value /\ value <> "".
Proof.
  destruct found as [value|]; [|discriminate]. intros H.
  exists value. split; [reflexivity | now apply truthy_true_iff].
Qed.

(** What a lookup finds is what the world has: it returns the empty string
    and leaves the cache alone when the world has the binary at none of its
    places, and otherwise returns a location where the world has it, caches
    that location under the binary's name and has logged the check that
    found it. *)
Lemma getBinaryLocation_outcome (b : SdkBinary) (s : bool) (st : State W) :
  exists location cache evs,
    getBinaryLocation b s st =
      (location, mkState (sdkRoot st) cache (world st) (trace st ++ evs)) /\
    ((location = "" /\ cache = binaryLocation st /\
      forall l, ~ findable st b l) \/
     (cache = <[binaryName b := location]> (binaryLocation st) /\
      findable st b location /\
      located evs (binaryName b) location)).
Proof.
  unfold_getBinaryLocation. unfold_m. unfold findable, located, placesOf. cbn zeta.
  set (full := getBinaryNameForOS imp platform (binaryName b)).
  set (inSdk := path_join imp [sdkRoot st; SDK_BINARY_LOCATIONS imp b; full]).
  set (atRoot := path_join imp [sdkRoot st; full]).
  destruct (fs_existsSync host (world st) inSdk) eqn:E1.
  { eexists _, _, _. split; [reflexivity|]. right. split; [reflexivity|]. split.
    - left. split; [now left | exact E1].
    - exists b. split; [reflexivity|]. left. split; [|now left].
      exists (sdkRoot st). now left. }
  destruct (String.eqb (binaryName b) "adb") eqn:Eadb.
  2:{ exists "", (binaryLocation st). eexists. split; [reflexivity|]. left.
      split_and!; [reflexivity..|].
      intros l [[[<-|[]] Hl]|(_ & -> & _)]; [congruence | discriminate]. }
  assert (b = adb) as -> by (destruct b; [reflexivity | discriminate..]).
  cbn [fst snd sdkRoot binaryLocation world trace].
  destruct (fs_existsSync host (world st) atRoot) eqn:E2.
  { eexists _, _, _. rewrite <- app_assoc. split; [reflexivity|].
    right. split; [reflexivity|]. split.
    - left. split; [right; now left | exact E2].
    - exists adb. split; [reflexivity|]. left. split; [|cbn; tauto].
      exists (sdkRoot st). right. now left. }
  destruct (JS.truthy _) eqn:E3; cbn [fst snd sdkRoot binaryLocation world trace].
  - eexists _, _, _. rewrite <- !app_assoc. split; [reflexivity|].
    right. split; [reflexivity|]. split.
    + right. now split_and!.
    + exists adb. split; [reflexivity|]. right. split_and!; [reflexivity..|].
      destruct (truthy_some _ E3) as (value & Hfound & Hvalue). exists value.
      split; [assumption|]. fold full. rewrite <- Hfound. cbn. tauto.
  - exists "", (binaryLocation st). eexists. rewrite <- !app_assoc.
    split; [reflexivity|]. left. split_and!; [reflexivity..|].
    intros l [[[<-|[<-|[]]] Hl]|(_ & _ & Hw)]; congruence.
Qed.

Lemma preserves_ret {A} (a : A) : preserves_cache (@ret W A a).
Proof. now intros st. Qed.

Lemma preserves_bind {A B} (m : @M W A) (k : A -> @M W B) :
  preserves_cache m -> (forall a, preserves_cache (k a)) ->
  preserves_cache (bind m k).
Proof.
  intros Hm Hk st Hok. unfold bind.
  specialize (Hm st Hok). destruct (m st) as [a st1]. now apply Hk.
Qed.

Lemma preserves_existsSync path : preserves_cache (existsSync host path).
Proof.
  intros st.
  now apply cache_ok_frame
    with (evs := [EvExists path (fs_existsSync host (world st) path)]).
Qed.

Lemma preserves_exec name args cmd cwd : preserves_cache (exec host name args cmd cwd).
Proof.
  intros st. unfold exec. destruct (execSync host (world st) cmd cwd) as [out w].
  now apply cache_ok_frame with (evs := [EvExec name args cmd cwd out]).
Qed.

Lemma preserves_mkdirSync path : preserves_cache (mkdirSync host path).
Proof.
  intros st. unfold mkdirSync. destruct (fs_mkdirSync host (world st) path) as [res w].
  now apply cache_ok_frame with (evs := [EvMkdir path res]).
Qed.

Lemma preserves_ask configs : preserves_cache (ask host configs).
Proof.
  intros st. unfold ask. destruct (prompt host (world st) configs) as [answered w].
  now apply cache_ok_frame with (evs := [EvPrompt configs answered]).
Qed.

Lemma preserves_download root : preserves_cache (download host platform root).
Proof. intros st. now apply cache_ok_frame with (evs := [EvDownload root platform]). Qed.

Lemma preserves_install location packages :
  preserves_cache (install host platform location packages).
Proof.
  intros st. unfold install.
  destruct (installPackagesUsingSdkManager host (world st) location platform packages)
    as [ok w].
  now apply cache_ok_frame with (evs := [EvInstall location platform packages ok]).
Qed.

Lemma preserves_read_sdkRoot : preserves_cache (@read_sdkRoot W).
Proof. now intros st. Qed.

Lemma preserves_read_binaryLocation name : preserves_cache (@read_binaryLocation W name).
Proof. now intros st. Qed.

Lemma preserves_assign_sdkRoot root : preserves_cache (@assign_sdkRoot W root).
Proof. intros st. now apply cache_ok_frame with (evs := []); [|cbn; rewrite app_nil_r]. Qed.

Lemma preserves_getenv : preserves_cache (getenv_ANDROID_HOME host).
Proof. now intros st. Qed.

Section JoinedPathsAreNotEmpty.

(** Node's [path.join] never returns the empty string: it returns a dot when
    the joined path has length zero. *)
Hypothesis path_join_nonempty : forall segments, path_join imp segments <> "".

Lemma placesOf_nonempty (root : string) (b : SdkBinary) (place : string) :
  In place (placesOf imp platform root b) -> place <> "".
Proof.
  unfold placesOf. cbn zeta. intros [<-|Hplace]; [apply path_join_nonempty|].
  destruct (String.eqb (binaryName b) "adb"); [|destruct Hplace].
  destruct Hplace as [<-|[]]. apply path_join_nonempty.
Qed.

Lemma findable_nonempty (st : State W) (b : SdkBinary) (location : string) :
  findable st b location -> location <> "".
Proof.
  intros [[Hplace _]|(-> & _)]; [|discriminate].
  now apply placesOf_nonempty in Hplace.
Qed.

Lemma preserves_getBinaryLocation b s : preserves_cache (getBinaryLocation b s).
Proof.
  intros st Hok.
  destruct (getBinaryLocation_outcome b s st)
    as (location & cache & evs & -> & [(_ & -> & _)|(-> & Hworld & Hlog)]); cbn [snd].
  - now apply (cache_ok_frame st _ evs).
  - intros name l Hlook. cbn [binaryLocation trace] in *.
    destruct (decide (binaryName b = name)) as [<-|Hne].
    + rewrite lookup_insert_eq in Hlook. injection Hlook as <-.
      split; [now apply findable_nonempty in Hworld | now apply located_later].
    + rewrite lookup_insert_ne in Hlook by assumption.
      destruct (Hok name l Hlook) as [Hl Hloc].
      split; [assumption | now apply located_earlier].
Qed.

Lemma preserves_execBinary location name args :
  preserves_cache (execBinary location name args).
Proof.
  intros st Hok.
  destruct (execBinary_spec location name args st) as (cmd & cwd & -> & _).
  now apply (cache_ok_frame st _ [EvExec name args cmd cwd
                                    (fst (execSync host (world st) cmd cwd))]).
Qed.

Create HintDb preserves.

#[local] Hint Resolve preserves_ret preserves_existsSync preserves_exec
  preserves_mkdirSync preserves_ask preserves_download preserves_install
  preserves_read_sdkRoot preserves_read_binaryLocation preserves_assign_sdkRoot
  preserves_getenv preserves_getBinaryLocation preserves_execBinary : preserves.

(** Walk through a method: every bind, branch and call keeps the invariant. *)
Ltac preserves_walk :=
  repeat first
    [ solve [auto with preserves]
    | apply preserves_bind; [|intros ?]
    | match goal with
      | |- preserves_cache (if ?c then _ else _) => destruct c
      | |- preserves_cache (match ?x with _ => _ end) => destruct x
      end ].

Lemma preserves_checkBinariesPresent_loop binaries missingBinaries :
  preserves_cache (checkBinariesPresent_loop binaries missingBinaries).
Proof.
  revert missingBinaries.
  induction binaries as [|b rest IH]; intros missingBinaries; step_checkBinariesPresent_loop.
  - apply preserves_ret.
  - apply preserves_bind; [auto with preserves | intros ?; apply IH].
Qed.

Lemma preserves_checkBinariesWorking_loop binaries nonWorkingBinaries :
  preserves_cache (checkBinariesWorking_loop binaries nonWorkingBinaries).
Proof.
  revert nonWorkingBinaries.
  induction binaries as [|b rest IH]; intros nonWorkingBinaries;
    step_checkBinariesWorking_loop.
  - apply preserves_ret.
  - apply preserves_bind; [auto with preserves | intros cached].
    apply preserves_bind; [preserves_walk | intros binaryPath].
    destruct (JS.truthy binaryPath); [|apply IH].
    apply preserves_bind; [auto with preserves | intros ?; apply IH].
Qed.

Lemma preserves_checkBinariesPresent binaries :
  preserves_cache (checkBinariesPresent binaries).
Proof. apply preserves_checkBinariesPresent_loop. Qed.

Lemma preserves_checkBinariesWorking binaries :
  preserves_cache (checkBinariesWorking binaries).
Proof. apply preserves_checkBinariesWorking_loop. Qed.

#[local] Hint Resolve preserves_checkBinariesPresent preserves_checkBinariesWorking
  : preserves.

Lemma preserves_verifyAvdPresent : preserves_cache verifyAvdPresent.
Proof. unfold_verifyAvdPresent. preserves_walk. Qed.

Lemma preserves_verifyAdbRunning : preserves_cache verifyAdbRunning.
Proof. unfold_verifyAdbRunning. preserves_walk. Qed.

#[local] Hint Resolve preserves_verifyAvdPresent preserves_verifyAdbRunning : preserves.

Lemma preserves_verifySetup setupConfigs : preserves_cache (verifySetup setupConfigs).
Proof. unfold_verifySetup. preserves_walk. Qed.

Lemma preserves_setupAndroid setupConfigs missingRequirements :
  preserves_cache (setupAndroid setupConfigs missingRequirements).
Proof. unfold_setupAndroid. preserves_walk. Qed.

Lemma preserves_getSdkRoot : preserves_cache (getSdkRoot host).
Proof. unfold getSdkRoot. preserves_walk. Qed.

Lemma preserves_getSetupConfigs opts : preserves_cache (getSetupConfigs host opts).
Proof. unfold getSetupConfigs. preserves_walk. Qed.

#[local] Hint Resolve preserves_verifySetup preserves_setupAndroid
  preserves_getSdkRoot preserves_getSetupConfigs : preserves.

Lemma preserves_run options : preserves_cache (run host imp options platform).
Proof. unfold run. preserves_walk. Qed.

Lemma cache_ok_initial (w : W) : cache_ok (initial w).
Proof. intros name location Hlook. cbn in Hlook. now rewrite lookup_empty in Hlook. Qed.

(** C10. The cache of locations only ever maps the name of a binary to a
    location that is not empty and at which the log of the run shows that
    binary to have been located: one of the binary's own places, found by an
    existence check, or, for adb alone, the PATH sentinel after a search of
    the PATH that found adb.  This holds of a new instance and every method
    keeps it.  A lookup stores an entry exactly when the world has the
    binary at one of its places, and then under the binary's name and with
    the location it returns; when the world has it nowhere the lookup
    returns the empty string and stores nothing.  So the invariant holds at
    the end of every run. *)
Theorem binaryLocation_cache_invariant :
  (forall w : W, cache_ok (initial w)) /\
  (forall b s, preserves_cache (getBinaryLocation b s)) /\
  (forall binaries, preserves_cache (checkBinariesPresent binaries)) /\
  (forall location name args, preserves_cache (execBinary location name args)) /\
  (forall binaries, preserves_cache (checkBinariesWorking binaries)) /\
  preserves_cache verifyAvdPresent /\
  preserves_cache verifyAdbRunning /\
  (forall setupConfigs, preserves_cache (verifySetup setupConfigs)) /\
  (forall setupConfigs missingRequirements,
     preserves_cache (setupAndroid setupConfigs missingRequirements)) /\
  preserves_cache (getSdkRoot host) /\
  (forall opts, preserves_cache (getSetupConfigs host opts)) /\
  (forall options, preserves_cache (run host imp options platform)) /\
  (forall b s st,
     let result := getBinaryLocation b s st in
     (fst result = "" /\
      binaryLocation (snd result) = binaryLocation st /\
      forall location, ~ findable st b location) \/
     (fst result <> "" /\
      binaryLocation (snd result) =
        <[binaryName b := fst result]> (binaryLocation st) /\
      findable st b (fst result) /\
      located (since st (snd result)) (binaryName b) (fst result))) /\
  (forall b s st,
     fst (getBinaryLocation b s st) = "" ->
     binaryLocation (snd (getBinaryLocation b s st)) = binaryLocation st) /\
  (forall options (w : W),
     cache_ok (snd (run host imp options platform (initial w)))).
Proof.
  assert (Houtcome : forall b s st,
    let result := getBinaryLocation b s st in
    (fst result = "" /\
     binaryLocation (snd result) = binaryLocation st /\
     forall location, ~ findable st b location) \/
    (fst result <> "" /\
     binaryLocation (snd result) =
       <[binaryName b := fst result]> (binaryLocation st) /\
     findable st b (fst result) /\
     located (since st (snd result)) (binaryName b) (fst result))).
  { intros b s st. cbn zeta.
    destruct (getBinaryLocation_outcome b s st)
      as (location & cache & evs & -> & [(-> & -> & Hnone)|(-> & Hworld & Hlog)]);
      cbn [fst snd binaryLocation]; [now left | right].
    split_and!; [now apply findable_nonempty in Hworld | reflexivity | assumption |].
    unfold since. cbn [trace]. now rewrite drop_app_length. }
  repeat apply conj; auto using cache_ok_initial, preserves_run with preserves.
  - intros b s st Hnone.
    destruct (Houtcome b s st) as [(_ & Hcache & _)|(Hfound & _)]; [exact Hcache|].
    cbn zeta in Hfound. contradiction.
  - intros options w. apply preserves_run, cache_ok_initial.
Qed.

End JoinedPathsAreNotEmpty.

(** *** Lookups only depend on the SDK root and the world *)

Lemma binaryName_inj (a b : SdkBinary) : binaryName a = binaryName b -> a = b.
Proof. destruct a, b; cbn; congruence. Qed.

Lemma agree_weaken (P Q : SdkBinary -> Prop) (st1 st2 : State W) :
  (forall b, Q b -> P b) -> agree P st1 st2 -> agree Q st1 st2.
Proof. intros HQP (R & Wd & C). repeat split; auto. Qed.

Lemma getBinaryLocation_agree (P : SdkBinary -> Prop) b s1 s2 (st1 st2 : State W) :
  agree P st1 st2 ->
  fst (getBinaryLocation b s1 st1) = fst (getBinaryLocation b s2 st2) /\
  agree (fun x => P x \/ (x = b /\ fst (getBinaryLocation b s1 st1) <> ""))
        (snd (getBinaryLocation b s1 st1)) (snd (getBinaryLocation b s2 st2)).
Proof.
  intros (R & Wd & C).
  assert (Hins : forall l x, P x \/ x = b ->
            <[binaryName b := l]> (binaryLocation st1) !! binaryName x =
            <[binaryName b := l]> (binaryLocation st2) !! binaryName x).
  { intros l x Hx. rewrite !lookup_insert. case_decide as Hd; [reflexivity|].
    destruct Hx as [Hx| ->]; [now apply C | congruence]. }
  unfold_getBinaryLocation. unfold_m. rewrite <- R, <- Wd.
  destruct (fs_existsSync host (world st1) _) eqn:E1;
    cbn [fst snd sdkRoot binaryLocation world trace].
  { repeat split; auto. intros x Hx. apply Hins. tauto. }
  destruct (String.eqb (binaryName b) "adb");
    cbn [fst snd sdkRoot binaryLocation world trace].
  2:{ repeat split; auto. intros x [Hx|[_ Hx]]; [now apply C | congruence]. }
  destruct (fs_existsSync host (world st1) (path_join imp [sdkRoot st1; _])) eqn:E2;
    cbn [fst snd sdkRoot binaryLocation world trace].
  { repeat split; auto. intros x Hx. apply Hins. tauto. }
  destruct (JS.truthy _) eqn:E3; cbn [fst snd sdkRoot binaryLocation world trace].
  - repeat split; auto. intros x Hx. apply Hins. tauto.
  - repeat split; auto. intros x [Hx|[_ Hx]]; [now apply C | congruence].
Qed.

Lemma checkBinariesPresent_loop_keeps binaries missingBinaries (st : State W) x :
  In x missingBinaries ->
  In x (fst (checkBinariesPresent_loop binaries missingBinaries st)).
Proof.
  revert missingBinaries st.
  induction binaries as [|b rest IH]; intros missingBinaries st Hin;
    step_checkBinariesPresent_loop; [exact Hin|].
  unfold bind. destruct (getBinaryLocation b false st) as [binaryPath st1].
  apply IH. destruct (JS.truthy binaryPath); [exact Hin|].
  apply in_or_app. now left.
Qed.

Lemma checkBinariesPresent_loop_agree (P : SdkBinary -> Prop)
    binaries missingBinaries (st1 st2 : State W) :
  agree P st1 st2 ->
  fst (checkBinariesPresent_loop binaries missingBinaries st1) =
  fst (checkBinariesPresent_loop binaries missingBinaries st2) /\
  agree (fun x => P x \/
           (In x binaries /\
            ~ In x (fst (checkBinariesPresent_loop binaries missingBinaries st1))))
        (snd (checkBinariesPresent_loop binaries missingBinaries st1))
        (snd (checkBinariesPresent_loop binaries missingBinaries st2)).
Proof.
  revert P missingBinaries st1 st2.
  induction binaries as [|b rest IH]; intros P missingBinaries st1 st2 Hagree;
    step_checkBinariesPresent_loop.
  - split; [reflexivity|]. eapply agree_weaken; [|exact Hagree].
    cbn. intros x [Hx|[[] _]]. exact Hx.
  - unfold bind.
    destruct (getBinaryLocation_agree P b false false st1 st2 Hagree) as [Hfst Hag].
    destruct (getBinaryLocation b false st1) as [path1 st1'].
    destruct (getBinaryLocation b false st2) as [path2 st2'].
    cbn [fst snd] in *. subst path2.
    set (acc := if JS.truthy path1 then missingBinaries else missingBinaries ++ [b]).
    destruct (IH _ acc st1' st2' Hag) as [Hres Hag'].
    split; [exact Hres|]. eapply agree_weaken; [|exact Hag'].
    cbn. intros x [Hx|[[<-|Hx] Hnot]]; [tauto| |tauto].
    left. right. split; [reflexivity|]. intros ->. apply Hnot.
    apply checkBinariesPresent_loop_keeps. subst acc. cbn.
    apply in_or_app. right. now left.
Qed.

Lemma execBinary_agree (P : SdkBinary -> Prop) location name args (st1 st2 : State W) :
  agree P st1 st2 ->
  fst (execBinary location name args st1) = fst (execBinary location name args st2) /\
  agree P (snd (execBinary location name args st1))
          (snd (execBinary location name args st2)).
Proof.
  intros (R & Wd & C). unfold_execBinary.
  destruct (String.eqb location "PATH"); unfold_m; rewrite <- Wd;
    destruct (execSync host (world st1) _ _) as [out w]; now repeat split.
Qed.

Lemma checkBinariesWorking_loop_cons b rest nonWorkingBinaries (st : State W) :
  checkBinariesWorking_loop (b :: rest) nonWorkingBinaries st =
  let cached := default "" (binaryLocation st !! binaryName b) in
  let (binaryPath, st1) :=
    if JS.truthy cached then (cached, st) else getBinaryLocation b false st in
  if JS.truthy binaryPath then
    let (binaryWorking, st2) :=
      execBinary binaryPath (binaryName b) (smokeTest b) st1 in
    checkBinariesWorking_loop rest
      (if JS.truthy binaryWorking then nonWorkingBinaries
       else nonWorkingBinaries ++ [b]) st2
  else checkBinariesWorking_loop rest (nonWorkingBinaries ++ [b]) st1.
Proof.
  step_checkBinariesWorking_loop. unfold bind, read_binaryLocation, ret.
  cbn zeta.
  destruct (JS.truthy (default "" (binaryLocation st !! binaryName b))) eqn:E.
  - rewrite E. reflexivity.
  - destruct (getBinaryLocation b false st) as [path st1].
    destruct (JS.truthy path); reflexivity.
Qed.

Lemma checkBinariesWorking_loop_agree (P : SdkBinary -> Prop)
    binaries nonWorkingBinaries (st1 st2 : State W) :
  (forall b, In b binaries -> P b) ->
  agree P st1 st2 ->
  fst (checkBinariesWorking_loop binaries nonWorkingBinaries st1) =
  fst (checkBinariesWorking_loop binaries nonWorkingBinaries st2) /\
  agree P (snd (checkBinariesWorking_loop binaries nonWorkingBinaries st1))
          (snd (checkBinariesWorking_loop binaries nonWorkingBinaries st2)).
Proof.
  revert nonWorkingBinaries st1 st2.
  induction binaries as [|b rest IH]; intros nonWorkingBinaries st1 st2 HP Hagree;
    [now split|].
  assert (HPrest : forall x, In x rest -> P x) by (intros x Hx; apply HP; now right).
  rewrite !checkBinariesWorking_loop_cons. cbn zeta.
  pose proof Hagree as (R & Wd & C). rewrite <- (C b) by (apply HP; now left).
  set (cached := default "" (binaryLocation st1 !! binaryName b)).
  assert (Hpath :
    fst (if JS.truthy cached then (cached, st1) else getBinaryLocation b false st1) =
    fst (if JS.truthy cached then (cached, st2) else getBinaryLocation b false st2) /\
    agree P
      (snd (if JS.truthy cached then (cached, st1) else getBinaryLocation b false st1))
      (snd (if JS.truthy cached then (cached, st2) else getBinaryLocation b false st2))).
  { destruct (JS.truthy cached); [now split|].
    destruct (getBinaryLocation_agree P b false false st1 st2 Hagree) as [Hf Ha].
    split; [exact Hf|]. eapply agree_weaken; [|exact Ha]. cbn. tauto. }
  destruct (if JS.truthy cached then (cached, st1) else getBinaryLocation b false st1)
    as [path1 st1'].
  destruct (if JS.truthy cached then (cached, st2) else getBinaryLocation b false st2)
    as [path2 st2'].
  cbn [fst snd] in Hpath. destruct Hpath as [<- Hag].
  destruct (JS.truthy path1); [|now apply IH].
  destruct (execBinary_agree P path1 (binaryName b) (smokeTest b) st1' st2' Hag)
    as [Hout Hag'].
  destruct (execBinary path1 (binaryName b) (smokeTest b) st1') as [out1 st1''].
  destruct (execBinary path1 (binaryName b) (smokeTest b) st2') as [out2 st2''].
  cbn [fst snd] in *. subst out2. now apply IH.
Qed.

(** *** What the methods log *)

Lemma getBinaryLocation_logs b s (st : State W) :
  exists evs,
    logs st (snd (getBinaryLocation b s st)) evs /\
    Forall (fun e => isProbe e = true) evs /\
    world (snd (getBinaryLocation b s st)) = world st.
Proof.
  destruct (getBinaryLocation_spec b s st) as (location & cache & evs & -> & Hp & _).
  exists evs. now repeat split.
Qed.

(** A lookup in a state with the same SDK root and world gives the same. *)
Lemma getBinaryLocation_same_world b s1 s2 (st1 st2 : State W) :
  sdkRoot st1 = sdkRoot st2 -> world st1 = world st2 ->
  fst (getBinaryLocation b s1 st1) = fst (getBinaryLocation b s2 st2).
Proof.
  intros R Wd.
  apply (getBinaryLocation_agree (fun _ => False) b s1 s2 st1 st2).
  repeat split; [assumption..|]. intros ? [].
Qed.

(** The presence pass: it only probes, it leaves the world alone, and what it
    adds to the array is a sublist of the binaries it was given, each of
    which no lookup finds in this world. *)
Lemma checkBinariesPresent_loop_logs binaries missingBinaries (st : State W) :
  exists found evs,
    fst (checkBinariesPresent_loop binaries missingBinaries st) =
      missingBinaries ++ found /\
    found `sublist_of` binaries /\
    logs st (snd (checkBinariesPresent_loop binaries missingBinaries st)) evs /\
    Forall (fun e => isProbe e = true) evs /\
    world (snd (checkBinariesPresent_loop binaries missingBinaries st)) = world st /\
    (forall b, In b found ->
       forall s (st' : State W),
         sdkRoot st' = sdkRoot st -> world st' = world st ->
         fst (getBinaryLocation b s st') = "").
Proof.
  revert missingBinaries st.
  induction binaries as [|b rest IH]; intros missingBinaries st;
    step_checkBinariesPresent_loop.
  - exists [], []. rewrite app_nil_r.
    split_and!; [reflexivity | constructor | apply logs_refl | constructor
                | reflexivity | intros ? []].
  - unfold bind.
    destruct (getBinaryLocation_logs b false st) as (evs1 & Hlog1 & Hp1 & Hw1).
    destruct (getBinaryLocation b false st) as [binaryPath st1] eqn:E.
    cbn [fst snd] in *.
    destruct (IH (if JS.truthy binaryPath then missingBinaries
                  else missingBinaries ++ [b]) st1)
      as (found & evs2 & Hres & Hsub & Hlog2 & Hp2 & Hw2 & Hmiss).
    assert (Hlater : forall x, In x found ->
              forall s (st' : State W),
                sdkRoot st' = sdkRoot st -> world st' = world st ->
                fst (getBinaryLocation x s st') = "").
    { intros x Hx s st' R Wd. apply Hmiss; [assumption| |congruence].
      destruct Hlog1 as [R1 _]. congruence. }
    destruct (JS.truthy binaryPath) eqn:Ht.
    + exists found, (evs1 ++ evs2). rewrite Hres. split_and!.
      * reflexivity.
      * now apply sublist_cons.
      * eapply logs_trans; eassumption.
      * now apply Forall_app.
      * congruence.
      * assumption.
    + exists (b :: found), (evs1 ++ evs2). rewrite Hres, <- app_assoc. split_and!.
      * reflexivity.
      * now apply sublist_skip.
      * eapply logs_trans; eassumption.
      * now apply Forall_app.
      * congruence.
      * intros x [<-|Hx]; [|now apply Hlater].
        intros s st' R Wd. apply truthy_false_iff in Ht. rewrite <- Ht.
        replace binaryPath with (fst (getBinaryLocation b false st)) by now rewrite E.
        now apply getBinaryLocation_same_world.
Qed.

Lemma smokeEvent_cons b rest e : smokeEvent rest e -> smokeEvent (b :: rest) e.
Proof.
  intros [Hp|(x & Hx & He)]; [now left | right].
  exists x. split; [now right | assumption].
Qed.

Lemma execBinary_logs location name args (st : State W) :
  exists cmd cwd out,
    logs st (snd (execBinary location name args st)) [EvExec name args cmd cwd out] /\
    fst (execBinary location name args st) = try_catch out "" /\
    out = fst (execSync host (world st) cmd cwd) /\
    (location <> "PATH" -> cwd = Some (path_dirname imp location)).
Proof.
  destruct (execBinary_spec location name args st) as (cmd & cwd & -> & Hcwd).
  exists cmd, cwd, (fst (execSync host (world st) cmd cwd)).
  split_and!; [now split | reflexivity | reflexivity | assumption].
Qed.

(** The functional pass: it probes and runs smoke tests of the binaries it
    was given, and what it adds to the array is a sublist of them. *)
Lemma checkBinariesWorking_loop_logs binaries nonWorkingBinaries (st : State W) :
  exists found evs,
    fst (checkBinariesWorking_loop binaries nonWorkingBinaries st) =
      nonWorkingBinaries ++ found /\
    found `sublist_of` binaries /\
    logs st (snd (checkBinariesWorking_loop binaries nonWorkingBinaries st)) evs /\
    Forall (smokeEvent binaries) evs.
Proof.
  revert nonWorkingBinaries st.
  induction binaries as [|b rest IH]; intros nonWorkingBinaries st.
  - exists [], []. cbn. rewrite app_nil_r.
    split_and!; [reflexivity | constructor | apply logs_refl | constructor].
  - rewrite checkBinariesWorking_loop_cons. cbn zeta.
    set (cached := default "" (binaryLocation st !! binaryName b)).
    assert (Hpath : exists evs1,
      logs st (snd (if JS.truthy cached then (cached, st)
                    else getBinaryLocation b false st)) evs1 /\
      Forall (smokeEvent (b :: rest)) evs1).
    { destruct (JS.truthy cached).
      - exists []. split; [apply logs_refl | constructor].
      - destruct (getBinaryLocation_logs b false st) as (evs1 & Hl & Hp & _).
        exists evs1. split; [assumption|].
        eapply Forall_impl; [exact Hp|]. intros e He. now left. }
    destruct Hpath as (evs1 & Hlog1 & Hev1).
    destruct (if JS.truthy cached then (cached, st) else getBinaryLocation b false st)
      as [binaryPath st1].
    cbn [snd] in Hlog1.
    destruct (JS.truthy binaryPath).
    + destruct (execBinary_logs binaryPath (binaryName b) (smokeTest b) st1)
        as (cmd & cwd & out & Hlog2 & _).
      destruct (execBinary binaryPath (binaryName b) (smokeTest b) st1)
        as [binaryWorking st2].
      cbn [snd] in Hlog2.
      destruct (IH (if JS.truthy binaryWorking then nonWorkingBinaries
                    else nonWorkingBinaries ++ [b]) st2)
        as (found & evs3 & Hres & Hsub & Hlog3 & Hev3).
      assert (Hall : Forall (smokeEvent (b :: rest))
                       (evs1 ++ [EvExec (binaryName b) (smokeTest b) cmd cwd out] ++ evs3)).
      { apply Forall_app. split; [assumption|]. apply Forall_app. split.
        - constructor; [|constructor]. right. exists b. split; [now left|].
          cbn. now rewrite !String.eqb_refl.
        - eapply Forall_impl; [exact Hev3|]. apply smokeEvent_cons. }
      assert (Hlog : logs st
                (snd (checkBinariesWorking_loop rest
                        (if JS.truthy binaryWorking then nonWorkingBinaries
                         else nonWorkingBinaries ++ [b]) st2))
                (evs1 ++ [EvExec (binaryName b) (smokeTest b) cmd cwd out] ++ evs3)).
      { eapply logs_trans; [eassumption|]. eapply logs_trans; eassumption. }
      destruct (JS.truthy binaryWorking).
      * exists found. eexists. rewrite Hres.
        split_and!; [reflexivity | now apply sublist_cons | exact Hlog | exact Hall].
      * exists (b :: found). eexists. rewrite Hres, <- app_assoc.
        split_and!; [reflexivity | now apply sublist_skip | exact Hlog | exact Hall].
    + destruct (IH (nonWorkingBinaries ++ [b]) st1)
        as (found & evs3 & Hres & Hsub & Hlog3 & Hev3).
      exists (b :: found), (evs1 ++ evs3). rewrite Hres, <- app_assoc.
      split_and!; [reflexivity | now apply sublist_skip
                  | eapply logs_trans; eassumption |].
      apply Forall_app. split; [assumption|].
      eapply Forall_impl; [exact Hev3|]. apply smokeEvent_cons.
Qed.

(** The virtual-device pass: probes for avdmanager, then one listing, whose
    outcome decides the answer. *)
Lemma verifyAvdPresent_logs (st : State W) :
  exists probes cmd cwd out,
    logs st (snd (verifyAvdPresent st))
         (probes ++ [EvExec "avdmanager" "list avd" cmd cwd out]) /\
    Forall (fun e => isProbe e = true) probes /\
    fst (verifyAvdPresent st) = avdListed (try_catch out "") /\
    (fst (getBinaryLocation avdmanager true st) <> "PATH" ->
     cwd = Some (path_dirname imp (fst (getBinaryLocation avdmanager true st)))).
Proof.
  rewrite verifyAvdPresent_unfold.
  destruct (getBinaryLocation_logs avdmanager true st) as (probes & Hlog1 & Hp & _).
  destruct (getBinaryLocation avdmanager true st) as [location st1].
  cbn [fst snd] in *.
  destruct (execBinary_logs location "avdmanager" "list avd" st1)
    as (cmd & cwd & out & Hlog2 & Hres & _ & Hcwd).
  destruct (execBinary location "avdmanager" "list avd" st1) as [stdout st2].
  cbn [fst snd] in *. exists probes, cmd, cwd, out.
  split_and!; [eapply logs_trans; eassumption | assumption | now subst | assumption].
Qed.

Lemma getBinaryLocation_first_probe b s (st : State W) :
  exists found rest,
    trace (snd (getBinaryLocation b s st)) =
    trace st ++
    EvExists (path_join imp [sdkRoot st; SDK_BINARY_LOCATIONS imp b;
                            getBinaryNameForOS imp platform (binaryName b)]) found
    :: rest.
Proof.
  unfold_getBinaryLocation. unfold_m.
  destruct (fs_existsSync host (world st) _) eqn:E1;
    cbn [fst snd sdkRoot binaryLocation world trace]; [now eexists _, []|].
  destruct (String.eqb (binaryName b) "adb");
    cbn [fst snd sdkRoot binaryLocation world trace]; [|now eexists _, []].
  destruct (fs_existsSync host (world st) (path_join imp [sdkRoot st; _])) eqn:E2;
    cbn [fst snd sdkRoot binaryLocation world trace].
  { eexists _, [_]. now rewrite <- app_assoc. }
  destruct (JS.truthy _); cbn [fst snd sdkRoot binaryLocation world trace];
    eexists _, [_; _]; now rewrite <- !app_assoc.
Qed.

(** The adb check: it starts by probing for adb, and besides probing it only
    runs [adb devices]. *)
Lemma verifyAdbRunning_logs (st : State W) :
  exists evs,
    logs st (snd (verifyAdbRunning st)) evs /\
    Forall (fun e => isProbe e = true \/ isExecOf "adb" "devices" e = true) evs /\
    exists found rest,
      evs = EvExists (path_join imp [sdkRoot st; SDK_BINARY_LOCATIONS imp adb;
                                     getBinaryNameForOS imp platform "adb"]) found
            :: rest.
Proof.
  unfold_verifyAdbRunning; unfold bind.
  destruct (getBinaryLocation_logs adb true st) as (probes & Hlog1 & Hp & _).
  destruct (getBinaryLocation_first_probe adb true st) as (found & rest & Hfirst).
  destruct (getBinaryLocation adb true st) as [location st1]. cbn [snd] in *.
  assert (Hhead : probes = EvExists (path_join imp [sdkRoot st; SDK_BINARY_LOCATIONS imp adb;
                                       getBinaryNameForOS imp platform "adb"]) found
                           :: rest).
  { destruct Hlog1 as [_ T]. rewrite T in Hfirst. now apply app_inv_head in Hfirst. }
  assert (Hprobes : Forall (fun e => isProbe e = true \/
                                     isExecOf "adb" "devices" e = true) probes).
  { eapply Forall_impl; [exact Hp|]. intros e He. now left. }
  destruct (JS.truthy location).
  - destruct (execBinary_logs location "adb" "devices" st1)
      as (cmd & cwd & out & Hlog2 & _).
    destruct (execBinary location "adb" "devices" st1) as [stdout st2].
    cbn [snd] in *. exists (probes ++ [EvExec "adb" "devices" cmd cwd out]).
    split_and!; [eapply logs_trans; eassumption | |].
    + apply Forall_app. split; [assumption|]. constructor; [now right | constructor].
    + rewrite Hhead. cbn. eauto.
  - exists probes. split_and!; [assumption..|]. rewrite Hhead. eauto.
Qed.

(** *** The requirement checker *)

(** [verifySetup], pass by pass. *)
Lemma verifySetup_unfold setupConfigs (st : State W) :
  verifySetup setupConfigs st =
  let requiredBinaries := requiredBinariesFor setupConfigs in
  let (missingBinaries, st1) := checkBinariesPresent requiredBinaries st in
  let (structural, st2) :=
    if bin_includes requiredBinaries emulator then
      let (found, st2) :=
        existsSync host (path_join imp [sdkRoot st1; "platforms"]) st1 in
      (if found then map binaryName missingBinaries
       else map binaryName missingBinaries ++ ["platforms"], st2)
    else (map binaryName missingBinaries, st1) in
  let (avdPresent, st3) := verifyAvdPresent st2 in
  let withAvd := if avdPresent then structural else structural ++ [NAME] in
  let binariesPresent :=
    List.filter (fun binary => negb (bin_includes missingBinaries binary))
                requiredBinaries in
  let (missingRequirements, st4) :=
    match binariesPresent with
    | [] => (withAvd, st3)
    | _ :: _ =>
        let (nonWorkingBinaries, st4) := checkBinariesWorking binariesPresent st3 in
        (withAvd ++ map binaryName nonWorkingBinaries, st4)
    end in
  (missingRequirements,
   match missingRequirements with
   | [] => snd (verifyAdbRunning st4)
   | _ :: _ => st4
   end).
Proof.
  unfold_verifySetup. cbn zeta. unfold bind at 1.
  destruct (checkBinariesPresent (requiredBinariesFor setupConfigs) st)
    as [missingBinaries st1].
  unfold bind at 1.
  assert (Hstruct :
    (if bin_includes (requiredBinariesFor setupConfigs) emulator then
       bind read_sdkRoot (fun root =>
         bind (existsSync host (path_join imp [root; "platforms"])) (fun found =>
           if found then ret (map binaryName missingBinaries)
           else ret (map binaryName missingBinaries ++ ["platforms"])))
     else ret (map binaryName missingBinaries)) st1 =
    (if bin_includes (requiredBinariesFor setupConfigs) emulator then
       let (found, st2) :=
         existsSync host (path_join imp [sdkRoot st1; "platforms"]) st1 in
       (if found then map binaryName missingBinaries
        else map binaryName missingBinaries ++ ["platforms"], st2)
     else (map binaryName missingBinaries, st1))).
  { destruct (bin_includes _ emulator); [|reflexivity].
    unfold bind, read_sdkRoot, ret.
    destruct (existsSync host _ st1) as [[] st2]; reflexivity. }
  rewrite Hstruct. clear Hstruct.
  destruct (if bin_includes (requiredBinariesFor setupConfigs) emulator then _ else _)
    as [structural st2].
  unfold bind at 1. destruct (verifyAvdPresent st2) as [avdPresent st3].
  unfold bind at 1.
  destruct (List.filter _ (requiredBinariesFor setupConfigs)) as [|b0 present].
  - unfold ret at 1. unfold bind.
    destruct (if avdPresent then structural else structural ++ [NAME]);
      [now destruct (verifyAdbRunning st3)|reflexivity].
  - unfold bind at 1.
    destruct (checkBinariesWorking (b0 :: present) st3) as [nonWorking st4].
    unfold ret at 1. unfold bind.
    destruct ((if avdPresent then structural else structural ++ [NAME]) ++
              map binaryName nonWorking);
      [now destruct (verifyAdbRunning st4)|reflexivity].
Qed.

(** What the passes of [verifySetup] return and log. *)
Lemma verifySetup_passes setupConfigs (st : State W) :
  exists missingBinaries structural nonWorking probes1 probes2 cmd cwd out
         functional final,
    missingBinaries = fst (checkBinariesPresent (requiredBinariesFor setupConfigs) st) /\
    missingBinaries `sublist_of` requiredBinariesFor setupConfigs /\
    (forall b, In b missingBinaries ->
       forall s (st' : State W),
         sdkRoot st' = sdkRoot st -> world st' = world st ->
         fst (getBinaryLocation b s st') = "") /\
    (structural = [] \/ structural = ["platforms"]) /\
    fst (verifySetup setupConfigs st) =
      map binaryName missingBinaries ++ structural ++
      (if avdListed (try_catch out "") then [] else [NAME]) ++
      map binaryName nonWorking /\
    nonWorking `sublist_of`
      List.filter (fun binary => negb (bin_includes missingBinaries binary))
                  (requiredBinariesFor setupConfigs) /\
    logs st (snd (verifySetup setupConfigs st))
         (probes1 ++ (probes2 ++ [EvExec "avdmanager" "list avd" cmd cwd out]) ++
          functional ++ final) /\
    Forall (fun e => isProbe e = true) probes1 /\
    Forall (fun e => isProbe e = true) probes2 /\
    (fst (getBinaryLocation avdmanager true st) <> "PATH" ->
     cwd = Some (path_dirname imp (fst (getBinaryLocation avdmanager true st)))) /\
    out = fst (execSync host (world st) cmd cwd) /\
    Forall (smokeEvent
              (List.filter (fun binary => negb (bin_includes missingBinaries binary))
                           (requiredBinariesFor setupConfigs))) functional /\
    Forall (fun e => isProbe e = true \/ isExecOf "adb" "devices" e = true) final /\
    (fst (verifySetup setupConfigs st) <> [] -> final = []).
Proof.
  rewrite verifySetup_unfold. cbn zeta.
  destruct (checkBinariesPresent_loop_logs (requiredBinariesFor setupConfigs) [] st)
    as (found & evs1 & Hres1 & Hsub1 & Hlog1 & Hp1 & Hw1 & Hmiss).
  fold (checkBinariesPresent (requiredBinariesFor setupConfigs) st) in *.
  destruct (checkBinariesPresent (requiredBinariesFor setupConfigs) st)
    as [missingBinaries st1].
  cbn [fst snd app] in *. subst found.
  set (present := List.filter (fun binary => negb (bin_includes missingBinaries binary))
                              (requiredBinariesFor setupConfigs)).
  assert (Hstage2 : exists structural evs2 st2,
    (if bin_includes (requiredBinariesFor setupConfigs) emulator then
       let (found, st2) :=
         existsSync host (path_join imp [sdkRoot st1; "platforms"]) st1 in
       (if found then map binaryName missingBinaries
        else map binaryName missingBinaries ++ ["platforms"], st2)
     else (map binaryName missingBinaries, st1)) =
    (map binaryName missingBinaries ++ structural, st2) /\
    (structural = [] \/ structural = ["platforms"]) /\
    logs st1 st2 evs2 /\ Forall (fun e => isProbe e = true) evs2 /\
    world st2 = world st1).
  { destruct (bin_includes _ emulator).
    - unfold existsSync.
      destruct (fs_existsSync host (world st1) _) eqn:E.
      + exists [], [EvExists (path_join imp [sdkRoot st1; "platforms"]) true].
        eexists. rewrite app_nil_r.
        split_and!; [reflexivity | now left | now split | repeat constructor
                    | reflexivity].
      + exists ["platforms"], [EvExists (path_join imp [sdkRoot st1; "platforms"]) false].
        eexists.
        split_and!; [reflexivity | now right | now split | repeat constructor
                    | reflexivity].
    - exists [], [], st1. rewrite app_nil_r.
      split_and!; [reflexivity | now left | apply logs_refl | constructor
                  | reflexivity]. }
  destruct Hstage2 as (structural & evs2 & st2 & -> & Hstruct & Hlog2 & Hp2 & Hw2).
  destruct (verifyAvdPresent_logs st2)
    as (probes2 & cmd & cwd & out & Hlog3 & Hp3 & Havd & Hcwd).
  assert (Hroot2 : sdkRoot st2 = sdkRoot st)
    by (destruct Hlog1, Hlog2; congruence).
  assert (Hworld2 : world st2 = world st) by congruence.
  rewrite (getBinaryLocation_same_world avdmanager true true st2 st Hroot2 Hworld2)
    in Hcwd.
  destruct (execBinary_logs (fst (getBinaryLocation avdmanager true st2))
              "avdmanager" "list avd" (snd (getBinaryLocation avdmanager true st2)))
    as (cmd' & cwd' & out' & Hlog' & _ & Hout' & _).
  assert (Hout : out = fst (execSync host (world st) cmd cwd)).
  { pose proof (verifyAvdPresent_unfold st2) as Hu.
    destruct (getBinaryLocation_logs avdmanager true st2) as (pr & Hlpr & _ & Hwpr).
    destruct (getBinaryLocation avdmanager true st2) as [location st2'].
    cbn [fst snd] in *.
    destruct (execBinary location "avdmanager" "list avd" st2') as [stdout st3'].
    rewrite Hu in Hlog3. cbn [snd] in *.
    destruct Hlog3 as [_ T3]. destruct Hlog' as [_ T']. destruct Hlpr as [_ Tpr].
    rewrite T', Tpr, <- app_assoc in T3. apply app_inv_head in T3.
    apply app_inj_tail in T3 as [_ T3]. injection T3 as <- <- <-.
    rewrite Hout'. congruence. }
  destruct (verifyAvdPresent st2) as [avdPresent st3]. cbn [fst snd] in *.
  subst avdPresent.
  assert (Hstage4 : exists nonWorking functional st4,
    match present with
    | [] => ((if avdListed (try_catch out "")
              then map binaryName missingBinaries ++ structural
              else (map binaryName missingBinaries ++ structural) ++ [NAME]), st3)
    | _ :: _ =>
        let (nonWorkingBinaries, st4) := checkBinariesWorking present st3 in
        ((if avdListed (try_catch out "")
          then map binaryName missingBinaries ++ structural
          else (map binaryName missingBinaries ++ structural) ++ [NAME]) ++
         map binaryName nonWorkingBinaries, st4)
    end =
    (map binaryName missingBinaries ++ structural ++
     (if avdListed (try_catch out "") then [] else [NAME]) ++
     map binaryName nonWorking, st4) /\
    nonWorking `sublist_of` present /\
    logs st3 st4 functional /\ Forall (smokeEvent present) functional).
  { assert (Hshape : forall tail,
      (if avdListed (try_catch out "")
       then map binaryName missingBinaries ++ structural
       else (map binaryName missingBinaries ++ structural) ++ [NAME]) ++ tail =
      map binaryName missingBinaries ++ structural ++
      (if avdListed (try_catch out "") then [] else [NAME]) ++ tail).
    { intros tail. destruct (avdListed _); now rewrite <- !app_assoc. }
    destruct (checkBinariesWorking_loop_logs present [] st3)
      as (found & evs4 & Hres4 & Hsub4 & Hlog4 & Hp4).
    fold (checkBinariesWorking present st3) in *.
    destruct present as [|b0 present'] eqn:Epresent.
    - exists [], [], st3. rewrite <- Hshape, app_nil_r.
      split_and!; [reflexivity | constructor | apply logs_refl | constructor].
    - destruct (checkBinariesWorking (b0 :: present') st3) as [nonWorking st4].
      cbn [fst snd app] in *. subst found.
      exists nonWorking, evs4, st4. now rewrite Hshape. }
  fold present.
  destruct Hstage4 as (nonWorking & functional & st4 & -> & Hsub4 & Hlog4 & Hp4).
  destruct (verifyAdbRunning_logs st4) as (final & Hlog5 & Hp5 & _).
  assert (Hlog04 : logs st st4
            ((evs1 ++ evs2) ++
             (probes2 ++ [EvExec "avdmanager" "list avd" cmd cwd out]) ++ functional)).
  { exact (logs_trans _ _ _ _ _ (logs_trans _ _ _ _ _ Hlog1 Hlog2)
                                 (logs_trans _ _ _ _ _ Hlog3 Hlog4)). }
  exists missingBinaries, structural, nonWorking, (evs1 ++ evs2), probes2, cmd, cwd,
         out, functional.
  destruct (map binaryName missingBinaries ++ structural ++
            (if avdListed (try_catch out "") then [] else [NAME]) ++
            map binaryName nonWorking) as [|r rs] eqn:Emissing.
  - exists final. cbn [fst snd].
    split_and!; try assumption; try reflexivity.
    + pose proof (logs_trans _ _ _ _ _ Hlog04 Hlog5) as H.
      now rewrite <- !app_assoc in *.
    + now apply Forall_app.
    + congruence.
  - exists []. cbn [fst snd].
    split_and!; try assumption; try reflexivity.
    + rewrite app_nil_r. now rewrite <- !app_assoc in *.
    + now apply Forall_app.
    + constructor.
Qed.

Lemma bin_includes_In binaries b : bin_includes binaries b = true <-> In b binaries.
Proof.
  unfold bin_includes. rewrite arr_includes_In, in_map_iff. split.
  - intros (x & Hx & Hin). apply binaryName_inj in Hx. now subst.
  - intros Hin. now exists b.
Qed.

Lemma filter_sublist {A} (f : A -> bool) (xs : list A) :
  List.filter f xs `sublist_of` xs.
Proof.
  induction xs as [|x xs IH]; cbn; [constructor|].
  destruct (f x); [now apply sublist_skip | now apply sublist_cons].
Qed.

Lemma filter_none {A} (f : A -> bool) (xs : list A) :
  Forall (fun x => f x = false) xs -> List.filter f xs = [].
Proof.
  induction 1 as [|x xs Hx _ IH]; cbn; [reflexivity|]. now rewrite Hx.
Qed.

Lemma requiredBinariesFor_NoDup setupConfigs : NoDup (requiredBinariesFor setupConfigs).
Proof.
  apply NoDup_ListNoDup.
  unfold requiredBinariesFor. destruct (mode setupConfigs) as [[]|]; cbn;
    repeat constructor; cbn; intuition discriminate.
Qed.

Lemma present_not_missing missingBinaries requiredBinaries b :
  In b (List.filter (fun binary => negb (bin_includes missingBinaries binary))
                    requiredBinaries) ->
  ~ In b missingBinaries.
Proof.
  intros Hin Hmiss. apply filter_In in Hin as [_ Hn].
  apply negb_true_iff in Hn. apply bin_includes_In in Hmiss. congruence.
Qed.

(** C7. In one run of [verifySetup] the missing list is made of the binaries
    that failed the presence pass, then the structural entries (the platforms
    directory and the virtual device), then the binaries that failed the
    functional pass; no binary occurs twice among the binary entries.  For a
    binary that failed the presence pass the run starts no program, except
    that for avdmanager the virtual-device pass makes its one listing call
    with the empty location; so the functional pass has not invoked it. *)
Theorem verifySetup_missing_binary_reported_once setupConfigs (st : State W) :
  let missingBinaries :=
    fst (checkBinariesPresent (requiredBinariesFor setupConfigs) st) in
  let events := since st (snd (verifySetup setupConfigs st)) in
  exists structural nonWorking,
    fst (verifySetup setupConfigs st) =
      map binaryName missingBinaries ++ structural ++ map binaryName nonWorking /\
    Forall (fun r => r = "platforms" \/ r = NAME) structural /\
    NoDup (missingBinaries ++ nonWorking) /\
    (forall b, In b missingBinaries -> ~ In b nonWorking) /\
    (forall b, In b missingBinaries -> b <> avdmanager ->
       List.filter (isExecOfBinary (binaryName b)) events = []) /\
    (In avdmanager missingBinaries ->
       exists cmd out,
         List.filter (isExecOfBinary "avdmanager") events =
         [EvExec "avdmanager" "list avd" cmd (Some (path_dirname imp "")) out]).
Proof.
  cbn zeta.
  destruct (verifySetup_passes setupConfigs st)
    as (missingBinaries & structural & nonWorking & probes1 & probes2 & cmd & cwd &
        out & functional & final & <- & Hsub & Hmiss & Hstruct & Hres & Hsubw & Hlog &
        Hp1 & Hp2 & Hcwd & Hout & Hfun & Hfin & Hfinal).
  apply logs_since in Hlog. rewrite Hlog. clear Hlog.
  set (present := List.filter (fun binary => negb (bin_includes missingBinaries binary))
                              (requiredBinariesFor setupConfigs)) in *.
  assert (Hdisj : forall b, In b missingBinaries -> ~ In b nonWorking).
  { intros b Hb Hw. apply (present_not_missing missingBinaries
                             (requiredBinariesFor setupConfigs) b); [|assumption].
    apply list_elem_of_In. eapply elem_of_sublist; [|exact Hsubw].
    now apply list_elem_of_In. }
  assert (Hprobes : forall name probes,
            Forall (fun e => isProbe e = true) probes ->
            List.filter (isExecOfBinary name) probes = []).
  { intros name probes Hp. apply filter_none.
    eapply Forall_impl; [exact Hp|]. now intros [] He. }
  assert (Hfunctional : forall b, In b missingBinaries ->
            List.filter (isExecOfBinary (binaryName b)) functional = []).
  { intros b Hb. apply filter_none. eapply Forall_impl; [exact Hfun|].
    intros e [He|(x & Hx & He)]; [now destruct e|].
    destruct e; try discriminate. cbn in *.
    apply andb_true_iff in He as [He _]. apply String.eqb_eq in He. subst name.
    apply String.eqb_neq. intros Heq. apply binaryName_inj in Heq. subst x.
    now apply (present_not_missing _ _ _ Hx). }
  assert (Hnofinal : forall b, In b missingBinaries -> final = []).
  { intros b Hb. apply Hfinal. rewrite Hres.
    destruct missingBinaries; [destruct Hb | discriminate]. }
  exists (structural ++ (if avdListed (try_catch out "") then [] else [NAME])), nonWorking.
  split_and!.
  - now rewrite Hres, <- !app_assoc.
  - apply Forall_app. split.
    + destruct Hstruct as [->| ->]; repeat constructor.
    + destruct (avdListed _); [constructor|].
      constructor; [now right | constructor].
  - apply NoDup_app. split_and!.
    + eapply sublist_NoDup; [apply requiredBinariesFor_NoDup | exact Hsub].
    + intros x Hx Hw. apply list_elem_of_In in Hx, Hw. now apply (Hdisj x).
    + eapply sublist_NoDup; [apply requiredBinariesFor_NoDup|].
      etransitivity; [exact Hsubw | apply filter_sublist].
  - exact Hdisj.
  - intros b Hb Hne. rewrite !List.filter_app.
    rewrite (Hprobes _ _ Hp1), (Hprobes _ _ Hp2), (Hfunctional b Hb), (Hnofinal b Hb).
    destruct b; [reflexivity | congruence | reflexivity | reflexivity].
  - intros Hb. exists cmd, out. rewrite !List.filter_app.
    pose proof (Hfunctional avdmanager Hb) as Hf. cbn [binaryName] in Hf.
    rewrite (Hprobes _ _ Hp1), (Hprobes _ _ Hp2), Hf, (Hnofinal avdmanager Hb).
    cbn. rewrite Hcwd; [|rewrite (Hmiss avdmanager Hb true st); [discriminate|reflexivity..]].
    now rewrite (Hmiss avdmanager Hb true st).
Qed.



(** *** Running the checker again *)

Lemma verifyAvdPresent_agree (P : SdkBinary -> Prop) (st1 st2 : State W) :
  agree P st1 st2 ->
  fst (verifyAvdPresent st1) = fst (verifyAvdPresent st2) /\
  agree P (snd (verifyAvdPresent st1)) (snd (verifyAvdPresent st2)).
Proof.
  intros Hagree. rewrite !verifyAvdPresent_unfold.
  destruct (getBinaryLocation_agree P avdmanager true true st1 st2 Hagree) as [Hl Ha].
  destruct (getBinaryLocation avdmanager true st1) as [location st1'].
  destruct (getBinaryLocation avdmanager true st2) as [location2 st2'].
  cbn [fst snd] in *. subst location2.
  assert (Ha' : agree P st1' st2') by (eapply agree_weaken; [|exact Ha]; cbn; tauto).
  destruct (execBinary_agree P location "avdmanager" "list avd" st1' st2' Ha')
    as [Hout Hag].
  destruct (execBinary location "avdmanager" "list avd" st1') as [stdout st1''].
  destruct (execBinary location "avdmanager" "list avd" st2') as [stdout2 st2''].
  cbn [fst snd] in *. now subst stdout2.
Qed.

(** The missing list only depends on the SDK root and the world the run
    starts in: not on what the cache holds, nor on the log. *)
Lemma verifySetup_same_world setupConfigs (st1 st2 : State W) :
  sdkRoot st1 = sdkRoot st2 -> world st1 = world st2 ->
  fst (verifySetup setupConfigs st1) = fst (verifySetup setupConfigs st2).
Proof.
  intros R Wd. rewrite !verifySetup_unfold. cbn zeta.
  assert (Hagree : agree (fun _ => False) st1 st2)
    by (repeat split; [assumption..|intros ? []]).
  destruct (checkBinariesPresent_loop_agree (fun _ => False)
              (requiredBinariesFor setupConfigs) [] st1 st2 Hagree) as [Hm Hag1].
  fold (checkBinariesPresent (requiredBinariesFor setupConfigs) st1) in *.
  fold (checkBinariesPresent (requiredBinariesFor setupConfigs) st2) in *.
  destruct (checkBinariesPresent (requiredBinariesFor setupConfigs) st1)
    as [missingBinaries st1a].
  destruct (checkBinariesPresent (requiredBinariesFor setupConfigs) st2)
    as [missingBinaries2 st2a].
  cbn [fst snd] in *. subst missingBinaries2.
  set (present := List.filter (fun binary => negb (bin_includes missingBinaries binary))
                              (requiredBinariesFor setupConfigs)).
  set (P := fun x => In x present).
  assert (Hag1' : agree P st1a st2a).
  { eapply agree_weaken; [|exact Hag1]. subst P. cbn. intros b Hb. right. split.
    - now apply filter_In in Hb.
    - now apply present_not_missing in Hb. }
  clear Hag1.
  assert (Hstage2 :
    fst (if bin_includes (requiredBinariesFor setupConfigs) emulator then
           let (found, st2) :=
             existsSync host (path_join imp [sdkRoot st1a; "platforms"]) st1a in
           (if found then map binaryName missingBinaries
            else map binaryName missingBinaries ++ ["platforms"], st2)
         else (map binaryName missingBinaries, st1a)) =
    fst (if bin_includes (requiredBinariesFor setupConfigs) emulator then
           let (found, st2) :=
             existsSync host (path_join imp [sdkRoot st2a; "platforms"]) st2a in
           (if found then map binaryName missingBinaries
            else map binaryName missingBinaries ++ ["platforms"], st2)
         else (map binaryName missingBinaries, st2a)) /\
    agree P
      (snd (if bin_includes (requiredBinariesFor setupConfigs) emulator then
              let (found, st2) :=
                existsSync host (path_join imp [sdkRoot st1a; "platforms"]) st1a in
              (if found then map binaryName missingBinaries
               else map binaryName missingBinaries ++ ["platforms"], st2)
            else (map binaryName missingBinaries, st1a)))
      (snd (if bin_includes (requiredBinariesFor setupConfigs) emulator then
              let (found, st2) :=
                existsSync host (path_join imp [sdkRoot st2a; "platforms"]) st2a in
              (if found then map binaryName missingBinaries
               else map binaryName missingBinaries ++ ["platforms"], st2)
            else (map binaryName missingBinaries, st2a)))).
  { destruct (bin_includes _ emulator); [|now split].
    destruct Hag1' as (R' & Wd' & C'). unfold existsSync. rewrite <- R', <- Wd'.
    cbn [fst snd]. now repeat split. }
  destruct (if bin_includes (requiredBinariesFor setupConfigs) emulator then _
            else (map binaryName missingBinaries, st1a)) as [structural st1b].
  destruct (if bin_includes (requiredBinariesFor setupConfigs) emulator then _
            else (map binaryName missingBinaries, st2a)) as [structural2 st2b].
  cbn [fst snd] in Hstage2. destruct Hstage2 as [<- Hag2].
  destruct (verifyAvdPresent_agree P st1b st2b Hag2) as [Havd Hag3].
  destruct (verifyAvdPresent st1b) as [avdPresent st1c].
  destruct (verifyAvdPresent st2b) as [avdPresent2 st2c].
  cbn [fst snd] in *. subst avdPresent2.
  destruct (checkBinariesWorking_loop_agree P present [] st1c st2c
              ltac:(now subst P) Hag3) as [Hnw Hag4].
  fold (checkBinariesWorking present st1c) in *.
  fold (checkBinariesWorking present st2c) in *.
  destruct present as [|b0 present'] eqn:Ep; [reflexivity|].
  destruct (checkBinariesWorking (b0 :: present') st1c) as [nonWorking st1d].
  destruct (checkBinariesWorking (b0 :: present') st2c) as [nonWorking2 st2d].
  cbn [fst snd] in *. now subst nonWorking2.
Qed.

Lemma verifySetup_keeps_sdkRoot setupConfigs (st : State W) :
  sdkRoot (snd (verifySetup setupConfigs st)) = sdkRoot st.
Proof.
  destruct (verifySetup_passes setupConfigs st)
    as (? & ? & ? & ? & ? & ? & ? & ? & ? & ? & _ & _ & _ & _ & _ & _ & [R _] & _).
  exact R.
Qed.

(** C6. When a run of [verifySetup] leaves the world as it found it, a second
    run right after it returns the same missing list. *)
Theorem verifySetup_twice_same_missing setupConfigs (st : State W) :
  world (snd (verifySetup setupConfigs st)) = world st ->
  fst (verifySetup setupConfigs (snd (verifySetup setupConfigs st))) =
  fst (verifySetup setupConfigs st).
Proof.
  intros Hworld. apply verifySetup_same_world; [|exact Hworld].
  apply verifySetup_keeps_sdkRoot.
Qed.

(** *** Remediation *)

Lemma filter_other_id (x : string) (xs : list string) :
  ~ In x xs -> List.filter (fun r => negb (String.eqb r x)) xs = xs.
Proof.
  induction xs as [|y xs IH]; cbn; [reflexivity|]. intros Hnot.
  destruct (String.eqb_spec y x) as [->|Hne]; cbn.
  - exfalso. apply Hnot. now left.
  - rewrite IH; [reflexivity|]. intros Hin. apply Hnot. now right.
Qed.

Lemma indexOf_from_spec (x : string) (xs : list string) (i : Z) :
  (0 <= i)%Z -> NoDup xs ->
  (JS.indexOf_from xs x i = (-1)%Z /\ ~ In x xs) \/
  ((i <= JS.indexOf_from xs x i)%Z /\ In x xs /\
   delete (Z.to_nat (JS.indexOf_from xs x i - i)) xs =
   List.filter (fun r => negb (String.eqb r x)) xs).
Proof.
  revert i. induction xs as [|y xs IH]; intros i Hi Hnd; cbn [JS.indexOf_from].
  - left. split; [reflexivity | intros []].
  - apply NoDup_cons in Hnd as [Hy Hnd]. cbn [List.filter].
    destruct (String.eqb_spec y x) as [->|Hne]; cbn [negb].
    + right. split; [lia|]. split; [now left|].
      rewrite Z.sub_diag. cbn. symmetry. apply filter_other_id.
      intros Hin. apply Hy. now apply list_elem_of_In.
    + destruct (IH (i + 1)%Z ltac:(lia) Hnd) as [[Hk Hnot]|(Hk & Hin & Hdel)].
      * left. split; [exact Hk|]. intros [Heq|Hin]; [congruence | now apply Hnot].
      * right. split; [lia|]. split; [now right|].
        replace (Z.to_nat (JS.indexOf_from xs x (i + 1) - i))
          with (S (Z.to_nat (JS.indexOf_from xs x (i + 1) - (i + 1)))) by lia.
        rewrite <- Hdel. reflexivity.
Qed.

(** Cutting out the first occurrence of a requirement that occurs at most
    once leaves the other requirements. *)
Lemma splice_indexOf (x : string) (xs : list string) :
  NoDup xs ->
  (if (-1 <? JS.indexOf xs x)%Z then JS.splice1 xs (JS.indexOf xs x) else xs) =
  List.filter (fun r => negb (String.eqb r x)) xs.
Proof.
  intros Hnd. unfold JS.indexOf, JS.splice1.
  destruct (indexOf_from_spec x xs 0 ltac:(lia) Hnd) as [[Hk Hnot]|(Hk & Hin & Hdel)].
  - rewrite Hk. cbn. symmetry. now apply filter_other_id.
  - rewrite Z.sub_0_r in Hdel. rewrite Hdel.
    destruct (Z.ltb_spec (-1) (JS.indexOf_from xs x 0)); [reflexivity | lia].
Qed.

(** [setupAndroid], step by step. *)
Lemma setupAndroid_unfold setupConfigs r rs (st : State W) :
  setupAndroid setupConfigs (r :: rs) st =
  let (nonWorking, st1) := checkBinariesWorking [sdkmanager] st in
  let bootstrap :=
    negb (Nat.eqb (length nonWorking) 0) || JS.arr_includes (r :: rs) "avdmanager" in
  let remaining :=
    if bootstrap then
      if (-1 <? JS.indexOf (r :: rs) "avdmanager")%Z
      then JS.splice1 (r :: rs) (JS.indexOf (r :: rs) "avdmanager")
      else r :: rs
    else r :: rs in
  let st2 := if bootstrap then snd (download host platform (sdkRoot st1) st1) else st1 in
  let (sdkmanagerLocation, st3) := getBinaryLocation sdkmanager true st2 in
  let (result, st4) :=
    install host platform sdkmanagerLocation (packagesFor imp remaining) st3 in
  let st5 :=
    if JS.arr_includes remaining "platforms"
    then snd (mkdirSync host (path_join imp [sdkRoot st4; "platforms"]) st4)
    else st4 in
  let (avdPresent, st6) := verifyAvdPresent st5 in
  let (final, st7) :=
    if avdPresent then (result, st6)
    else
      let (location, st6') := getBinaryLocation avdmanager true st6 in
      let (avdCreated, st7) :=
        execBinary location "avdmanager" (createAvdArgs imp) st6' in
      (if JS.truthy avdCreated then result else false, st7) in
  (final, snd (verifyAdbRunning st7)).
Proof.
  unfold_setupAndroid. cbn zeta. unfold bind at 1.
  destruct (checkBinariesWorking [sdkmanager] st) as [nonWorking st1].
  set (bootstrap := negb (Nat.eqb (length nonWorking) 0) ||
                    JS.arr_includes (r :: rs) "avdmanager").
  set (spliced := if (-1 <? JS.indexOf (r :: rs) "avdmanager")%Z
                  then JS.splice1 (r :: rs) (JS.indexOf (r :: rs) "avdmanager")
                  else r :: rs).
  unfold bind at 1.
  assert (Hboot :
    (if bootstrap
     then bind read_sdkRoot (fun root =>
            bind (download host platform root) (fun _ => ret spliced))
     else ret (r :: rs)) st1 =
    (if bootstrap then spliced else r :: rs,
     if bootstrap then snd (download host platform (sdkRoot st1) st1) else st1)).
  { destruct bootstrap; [|reflexivity]. unfold bind, read_sdkRoot, ret.
    now destruct (download host platform (sdkRoot st1) st1). }
  rewrite Hboot. clear Hboot.
  generalize (if bootstrap then spliced else r :: rs) as remaining.
  generalize (if bootstrap then snd (download host platform (sdkRoot st1) st1) else st1)
    as st2.
  intros st2 remaining. unfold bind at 1.
  destruct (getBinaryLocation sdkmanager true st2) as [sdkmanagerLocation st3].
  unfold bind at 1.
  destruct (install host platform sdkmanagerLocation (packagesFor imp remaining) st3)
    as [result st4].
  unfold bind at 1.
  assert (Hmk :
    (if JS.arr_includes remaining "platforms"
     then bind read_sdkRoot (fun root =>
            bind (mkdirSync host (path_join imp [root; "platforms"])) (fun created =>
              ret (try_catch created ())))
     else ret ()) st4 =
    ((), if JS.arr_includes remaining "platforms"
         then snd (mkdirSync host (path_join imp [sdkRoot st4; "platforms"]) st4)
         else st4)).
  { destruct (JS.arr_includes remaining "platforms"); [|reflexivity].
    unfold bind, read_sdkRoot, ret.
    now destruct (mkdirSync host (path_join imp [sdkRoot st4; "platforms"]) st4)
      as [[[]|] st5]. }
  rewrite Hmk. clear Hmk.
  generalize (if JS.arr_includes remaining "platforms"
              then snd (mkdirSync host (path_join imp [sdkRoot st4; "platforms"]) st4)
              else st4) as st5.
  intros st5. unfold bind at 1.
  destruct (verifyAvdPresent st5) as [[] st6].
  - unfold bind, ret. now destruct (verifyAdbRunning st6).
  - unfold bind at 1 2.
    destruct (getBinaryLocation avdmanager true st6) as [location st6'].
    unfold bind at 1.
    destruct (execBinary location "avdmanager" (createAvdArgs imp) st6')
      as [avdCreated st7].
    unfold bind, ret.
    destruct (JS.truthy avdCreated); now destruct (verifyAdbRunning st7).
Qed.

(** What the steps of [setupAndroid] log, and what its result is. *)
Lemma setupAndroid_passes setupConfigs r rs (st : State W) :
  let bootstrap :=
    negb (Nat.eqb (length (fst (checkBinariesWorking [sdkmanager] st))) 0) ||
    JS.arr_includes (r :: rs) "avdmanager" in
  let remaining :=
    if bootstrap then
      if (-1 <? JS.indexOf (r :: rs) "avdmanager")%Z
      then JS.splice1 (r :: rs) (JS.indexOf (r :: rs) "avdmanager")
      else r :: rs
    else r :: rs in
  exists smoke probes3 location ok mk probes5 cmd cwd out creation final,
    logs st (snd (setupAndroid setupConfigs (r :: rs) st))
      (smoke ++ (if bootstrap then [EvDownload (sdkRoot st) platform] else []) ++
       (probes3 ++ [EvInstall location platform (packagesFor imp remaining) ok]) ++
       mk ++ (probes5 ++ [EvExec "avdmanager" "list avd" cmd cwd out]) ++
       creation ++ final) /\
    Forall (smokeEvent [sdkmanager]) smoke /\
    Forall (fun e => isProbe e = true) probes3 /\
    ((JS.arr_includes remaining "platforms" = true /\
      exists res, mk = [EvMkdir (path_join imp [sdkRoot st; "platforms"]) res]) \/
     (JS.arr_includes remaining "platforms" = false /\ mk = [])) /\
    Forall (fun e => isProbe e = true) probes5 /\
    ((avdListed (try_catch out "") = true /\ creation = [] /\
      fst (setupAndroid setupConfigs (r :: rs) st) = ok) \/
     (avdListed (try_catch out "") = false /\
      exists probes6 cmd' cwd' out',
        creation = probes6 ++ [EvExec "avdmanager" (createAvdArgs imp) cmd' cwd' out'] /\
        Forall (fun e => isProbe e = true) probes6 /\
        fst (setupAndroid setupConfigs (r :: rs) st) =
          if JS.truthy (try_catch out' "") then ok else false)) /\
    Forall (fun e => isProbe e = true \/ isExecOf "adb" "devices" e = true) final /\
    exists found rest,
      final = EvExists (path_join imp [sdkRoot st; SDK_BINARY_LOCATIONS imp adb;
                                       getBinaryNameForOS imp platform "adb"]) found
              :: rest.
Proof.
  cbn zeta. rewrite setupAndroid_unfold. cbn zeta.
  destruct (checkBinariesWorking_loop_logs [sdkmanager] [] st)
    as (found & smoke & _ & _ & Hlog1 & Hsmoke).
  fold (checkBinariesWorking [sdkmanager] st) in *.
  destruct (checkBinariesWorking [sdkmanager] st) as [nonWorking st1].
  cbn [fst snd] in *.
  set (bootstrap := negb (Nat.eqb (length nonWorking) 0) ||
                    JS.arr_includes (r :: rs) "avdmanager").
  set (remaining := if bootstrap then _ else r :: rs).
  assert (Hlog2 : logs st1
            (if bootstrap then snd (download host platform (sdkRoot st1) st1) else st1)
            (if bootstrap then [EvDownload (sdkRoot st) platform] else [])).
  { destruct bootstrap; [|apply logs_refl]. destruct Hlog1 as [R1 _].
    rewrite <- R1. now split. }
  generalize dependent (if bootstrap
                        then snd (download host platform (sdkRoot st1) st1) else st1).
  intros st2 Hlog2.
  destruct (getBinaryLocation_logs sdkmanager true st2) as (probes3 & Hlog3 & Hp3 & _).
  destruct (getBinaryLocation sdkmanager true st2) as [location st3].
  cbn [fst snd] in *.
  assert (Hlog4 : logs st3
            (snd (install host platform location (packagesFor imp remaining) st3))
            [EvInstall location platform (packagesFor imp remaining)
               (fst (install host platform location (packagesFor imp remaining) st3))]).
  { unfold install.
    destruct (installPackagesUsingSdkManager host (world st3) location platform _).
    now split. }
  destruct (install host platform location (packagesFor imp remaining) st3)
    as [ok st4].
  cbn [fst snd] in *.
  assert (Hroot4 : sdkRoot st4 = sdkRoot st).
  { destruct Hlog1, Hlog2, Hlog3, Hlog4. congruence. }
  assert (Hmk : exists mk,
    logs st4 (if JS.arr_includes remaining "platforms"
              then snd (mkdirSync host (path_join imp [sdkRoot st4; "platforms"]) st4)
              else st4) mk /\
    ((JS.arr_includes remaining "platforms" = true /\
      exists res, mk = [EvMkdir (path_join imp [sdkRoot st; "platforms"]) res]) \/
     (JS.arr_includes remaining "platforms" = false /\ mk = []))).
  { destruct (JS.arr_includes remaining "platforms").
    - rewrite Hroot4. unfold mkdirSync.
      destruct (fs_mkdirSync host (world st4) _) as [res w]. eexists. split.
      + now split.
      + left. eauto.
    - exists []. split; [apply logs_refl | now right]. }
  destruct Hmk as (mk & Hlog5 & Hmk).
  generalize dependent (if JS.arr_includes remaining "platforms"
                        then snd (mkdirSync host
                                    (path_join imp [sdkRoot st4; "platforms"]) st4)
                        else st4).
  intros st5 Hlog5.
  destruct (verifyAvdPresent_logs st5)
    as (probes5 & cmd & cwd & out & Hlog6 & Hp5 & Havd & _).
  destruct (verifyAvdPresent st5) as [avdPresent st6]. cbn [fst snd] in *.
  pose proof (logs_trans _ _ _ _ _ Hlog1 (logs_trans _ _ _ _ _ Hlog2
               (logs_trans _ _ _ _ _ (logs_trans _ _ _ _ _ Hlog3 Hlog4)
                  (logs_trans _ _ _ _ _ Hlog5 Hlog6)))) as Hlog06.
  destruct avdPresent.
  - destruct (verifyAdbRunning_logs st6) as (final & Hlog7 & Hfinal & Hhead).
    replace (sdkRoot st6) with (sdkRoot st) in Hhead by (now destruct Hlog06).
    exists smoke, probes3, location, ok, mk, probes5, cmd, cwd, out, [], final.
    cbn [fst snd app].
    split_and!; try assumption.
    + pose proof (logs_trans _ _ _ _ _ Hlog06 Hlog7) as H.
      rewrite <- !List.app_assoc in H. rewrite <- !List.app_assoc. exact H.
    + left. now split_and!.
  - destruct (getBinaryLocation_logs avdmanager true st6) as (probes6 & Hlog7 & Hp6 & _).
    destruct (getBinaryLocation avdmanager true st6) as [avdLocation st6'].
    cbn [fst snd] in *.
    destruct (execBinary_logs avdLocation "avdmanager" (createAvdArgs imp) st6')
      as (cmd' & cwd' & out' & Hlog8 & Hres & _).
    destruct (execBinary avdLocation "avdmanager" (createAvdArgs imp) st6')
      as [avdCreated st7].
    cbn [fst snd] in *.
    destruct (verifyAdbRunning_logs st7) as (final & Hlog9 & Hfinal & Hhead).
    replace (sdkRoot st7) with (sdkRoot st) in Hhead
      by (destruct Hlog06, Hlog7, Hlog8; congruence).
    exists smoke, probes3, location, ok, mk, probes5, cmd, cwd, out,
      (probes6 ++ [EvExec "avdmanager" (createAvdArgs imp) cmd' cwd' out']), final.
    cbn [fst snd].
    split_and!; try assumption.
    + pose proof (logs_trans _ _ _ _ _ Hlog06
                    (logs_trans _ _ _ _ _ (logs_trans _ _ _ _ _ Hlog7 Hlog8) Hlog9))
        as H.
      rewrite <- !List.app_assoc in H. rewrite <- !List.app_assoc. exact H.
    + right. split; [now symmetry|]. exists probes6, cmd', cwd', out'.
      split_and!; [reflexivity | assumption | now subst].
Qed.

Lemma filter_silent (f : Event -> bool) (P : Event -> Prop) (evs : list Event) :
  (forall e, P e -> f e = false) -> Forall P evs -> List.filter f evs = [].
Proof.
  intros Hf Hall. apply filter_none. eapply Forall_impl; [exact Hall | exact Hf].
Qed.

(** The events of [setupAndroid] that a filter can see, when the filter is
    blind to probes, to the smoke test of sdkmanager and to the final adb
    check: the download (if any), the installer call, the directory creation
    (if any), the listing and the creation of the virtual device (if any). *)
Lemma setupAndroid_events setupConfigs r rs (st : State W) :
  let bootstrap :=
    negb (Nat.eqb (length (fst (checkBinariesWorking [sdkmanager] st))) 0) ||
    JS.arr_includes (r :: rs) "avdmanager" in
  let remaining :=
    if bootstrap then
      if (-1 <? JS.indexOf (r :: rs) "avdmanager")%Z
      then JS.splice1 (r :: rs) (JS.indexOf (r :: rs) "avdmanager")
      else r :: rs
    else r :: rs in
  exists location ok mk cmd cwd out creation,
    (forall f : Event -> bool,
       (forall e, isProbe e = true -> f e = false) ->
       (forall e, isExecOf "sdkmanager" "--version" e = true -> f e = false) ->
       (forall e, isExecOf "adb" "devices" e = true -> f e = false) ->
       List.filter f (since st (snd (setupAndroid setupConfigs (r :: rs) st))) =
       List.filter f (if bootstrap then [EvDownload (sdkRoot st) platform] else []) ++
       List.filter f [EvInstall location platform (packagesFor imp remaining) ok] ++
       List.filter f mk ++
       List.filter f [EvExec "avdmanager" "list avd" cmd cwd out] ++
       List.filter f creation) /\
    ((JS.arr_includes remaining "platforms" = true /\
      exists res, mk = [EvMkdir (path_join imp [sdkRoot st; "platforms"]) res]) \/
     (JS.arr_includes remaining "platforms" = false /\ mk = [])) /\
    ((avdListed (try_catch out "") = true /\ creation = [] /\
      fst (setupAndroid setupConfigs (r :: rs) st) = ok) \/
     (avdListed (try_catch out "") = false /\
      exists cmd' cwd' out',
        creation = [EvExec "avdmanager" (createAvdArgs imp) cmd' cwd' out'] /\
        fst (setupAndroid setupConfigs (r :: rs) st) =
          if JS.truthy (try_catch out' "") then ok else false)).
Proof.
  cbn zeta.
  destruct (setupAndroid_passes setupConfigs r rs st)
    as (smoke & probes3 & location & ok & mk & probes5 & cmd & cwd & out & creation &
        final & Hlog & Hsmoke & Hp3 & Hmk & Hp5 & Hcreation & Hfinal & _).
  apply logs_since in Hlog. rewrite Hlog. clear Hlog.
  assert (Hquiet : forall f : Event -> bool,
    (forall e, isProbe e = true -> f e = false) ->
    (forall e, isExecOf "sdkmanager" "--version" e = true -> f e = false) ->
    (forall e, isExecOf "adb" "devices" e = true -> f e = false) ->
    List.filter f smoke = [] /\ List.filter f probes3 = [] /\
    List.filter f probes5 = [] /\ List.filter f final = []).
  { intros f Hprobe Hsdk Hadb. split_and!.
    - eapply filter_silent; [|exact Hsmoke].
      intros e [He|(b & [<-|[]] & He)]; [now apply Hprobe | apply Hsdk; exact He].
    - eapply filter_silent; [|exact Hp3]. exact Hprobe.
    - eapply filter_silent; [|exact Hp5]. exact Hprobe.
    - eapply filter_silent; [|exact Hfinal].
      intros e [He|He]; [now apply Hprobe | now apply Hadb]. }
  destruct Hcreation as [(Hl & -> & Hres)|(Hl & probes6 & cmd' & cwd' & out' & -> & Hp6 & Hres)].
  - exists location, ok, mk, cmd, cwd, out, []. split_and!; [|assumption|now left].
    intros f Hprobe Hsdk Hadb.
    destruct (Hquiet f Hprobe Hsdk Hadb) as (Q1 & Q3 & Q5 & Q7).
    rewrite !List.filter_app, Q1, Q3, Q5, Q7. cbn [app List.filter].
    now rewrite !app_nil_r.
  - exists location, ok, mk, cmd, cwd, out,
      [EvExec "avdmanager" (createAvdArgs imp) cmd' cwd' out'].
    split_and!; [|assumption|right; split; [assumption|]; eauto].
    intros f Hprobe Hsdk Hadb.
    destruct (Hquiet f Hprobe Hsdk Hadb) as (Q1 & Q3 & Q5 & Q7).
    rewrite !List.filter_app, Q1, Q3, Q5, Q7.
    rewrite (filter_silent f _ probes6 Hprobe Hp6). cbn [app].
    now rewrite !app_nil_r.
Qed.

Lemma list_avd_is_not_create :
  String.eqb "list avd" (createAvdArgs imp) = false.
Proof. reflexivity. Qed.

Lemma create_is_not_list_avd :
  String.eqb (createAvdArgs imp) "list avd" = false.
Proof. reflexivity. Qed.

(** A filter that only looks at the kind of an event, or at the binary and
    the arguments of an invocation of avdmanager, is blind to what the
    bookkeeping around the steps logs. *)
Ltac blind :=
  let e := fresh "e" in
  let He := fresh "He" in
  intros e He; destruct e; cbn in He |- *;
  try reflexivity; try discriminate;
  apply andb_true_iff in He as [He _]; apply String.eqb_eq in He; subst;
  reflexivity.

(** C5. For a missing list that is not empty and has no entry twice, when it
    contains avdmanager or the check of sdkmanager fails, [setupAndroid]
    downloads the command-line tools once, and the one installer call gets
    the packages of the other requirements: avdmanager has been taken out of
    the list, so no package is requested for it.  For the empty list
    [setupAndroid] returns true and does nothing. *)
Theorem setupAndroid_bootstrap_supersedes_avdmanager
    setupConfigs missingRequirements (st : State W) :
  setupAndroid setupConfigs [] st = (true, st) /\
  (missingRequirements <> [] ->
   NoDup missingRequirements ->
   In "avdmanager" missingRequirements \/
     fst (checkBinariesWorking [sdkmanager] st) <> [] ->
   let events := since st (snd (setupAndroid setupConfigs missingRequirements st)) in
   let others :=
     List.filter (fun r => negb (String.eqb r "avdmanager")) missingRequirements in
   ~ In "avdmanager" others /\
   List.filter isDownload events = [EvDownload (sdkRoot st) platform] /\
   exists location ok,
     List.filter isInstall events =
     [EvInstall location platform (packagesFor imp others) ok]).
Proof.
  split; [reflexivity|].
  intros Hne Hnd Hcond. cbn zeta.
  destruct missingRequirements as [|r rs]; [congruence|]. clear Hne.
  split.
  { intros Hin. apply filter_In in Hin as [_ Hin]. now rewrite String.eqb_refl in Hin. }
  destruct (setupAndroid_events setupConfigs r rs st)
    as (location & ok & mk & cmd & cwd & out & creation & Hfilter & Hmk & Hcreation).
  assert (Hboot :
    negb (Nat.eqb (length (fst (checkBinariesWorking [sdkmanager] st))) 0) ||
    JS.arr_includes (r :: rs) "avdmanager" = true).
  { destruct Hcond as [Hin|Hsdk].
    - apply arr_includes_In in Hin. rewrite Hin. apply orb_true_r.
    - destruct (fst (checkBinariesWorking [sdkmanager] st)); [congruence|reflexivity]. }
  rewrite Hboot in Hfilter, Hmk. rewrite (splice_indexOf "avdmanager" (r :: rs) Hnd) in *.
  assert (Hmk' : List.filter isDownload mk = [] /\ List.filter isInstall mk = []).
  { destruct Hmk as [[_ [res ->]]|[_ ->]]; now split. }
  assert (Hcr : List.filter isDownload creation = [] /\
                List.filter isInstall creation = []).
  { destruct Hcreation as [(_ & -> & _)|(_ & cmd' & cwd' & out' & -> & _)]; now split. }
  destruct Hmk' as [Hmk1 Hmk2], Hcr as [Hcr1 Hcr2]. split.
  - rewrite (Hfilter isDownload) by blind. now rewrite Hmk1, Hcr1.
  - exists location, ok. rewrite (Hfilter isInstall) by blind. now rewrite Hmk2, Hcr2.
Qed.

Lemma has_key_true (table : gmap string string) key value :
  table !! key = Some value -> has_key table key = true.
Proof. intros H. unfold has_key. apply bool_decide_eq_true_2. eauto. Qed.

Lemma has_key_false (table : gmap string string) key :
  table !! key = None -> has_key table key = false.
Proof.
  intros H. unfold has_key. apply bool_decide_eq_false_2.
  rewrite H. now intros [? ?].
Qed.

(** C3. For the missing list made of the platforms directory and the virtual
    device, [setupAndroid] creates the platforms directory once, calls the
    installer once with one package, the system image that the virtual
    device maps to, lists the virtual devices once, and creates the virtual
    device once if that listing does not show it and not at all if it
    does. *)
Theorem setupAndroid_platforms_and_avd setupConfigs (st : State W) (image : string) :
  NAME <> "avdmanager" ->
  BINARY_TO_PACKAGE_NAME imp !! "platforms" = None ->
  BINARY_TO_PACKAGE_NAME imp !! NAME = Some image ->
  let events := since st (snd (setupAndroid setupConfigs ["platforms"; NAME] st)) in
  exists location ok res cmd cwd out,
    List.filter isInstall events = [EvInstall location platform [image] ok] /\
    List.filter isMkdir events =
      [EvMkdir (path_join imp [sdkRoot st; "platforms"]) res] /\
    List.filter (isExecOf "avdmanager" "list avd") events =
      [EvExec "avdmanager" "list avd" cmd cwd out] /\
    length (List.filter (isExecOf "avdmanager" (createAvdArgs imp)) events) =
      if avdListed (try_catch out "") then 0 else 1.
Proof.
  intros Hname Hplatforms Himage. cbn zeta.
  destruct (setupAndroid_events setupConfigs "platforms" [NAME] st)
    as (location & ok & mk & cmd & cwd & out & creation & Hfilter & Hmk & Hcreation).
  assert (Hsame :
    (if negb (Nat.eqb (length (fst (checkBinariesWorking [sdkmanager] st))) 0) ||
        JS.arr_includes ["platforms"; NAME] "avdmanager"
     then if (-1 <? JS.indexOf ["platforms"; NAME] "avdmanager")%Z
          then JS.splice1 ["platforms"; NAME] (JS.indexOf ["platforms"; NAME] "avdmanager")
          else ["platforms"; NAME]
     else ["platforms"; NAME]) = ["platforms"; NAME]).
  { assert (Hidx : JS.indexOf ["platforms"; NAME] "avdmanager" = (-1)%Z).
    { unfold JS.indexOf. cbn.
      destruct (String.eqb_spec NAME "avdmanager"); [congruence|reflexivity]. }
    rewrite Hidx. cbn. now destruct (_ || _). }
  rewrite Hsame in Hfilter, Hmk. clear Hsame.
  assert (Hpackages : packagesFor imp ["platforms"; NAME] = [image]).
  { unfold packagesFor. cbn [List.filter].
    rewrite (has_key_false _ _ Hplatforms), (has_key_true _ _ _ Himage).
    cbn [map]. now rewrite Himage. }
  rewrite Hpackages in Hfilter.
  destruct Hmk as [[_ [res ->]]|[Hno _]];
    [|cbn in Hno; discriminate].
  exists location, ok, res, cmd, cwd, out.
  rewrite (Hfilter isInstall), (Hfilter isMkdir),
    (Hfilter (isExecOf "avdmanager" "list avd")),
    (Hfilter (isExecOf "avdmanager" (createAvdArgs imp))) by blind.
  clear Hfilter. generalize (negb (Nat.eqb (length (fst (checkBinariesWorking [sdkmanager] st))) 0) ||
            JS.arr_includes ["platforms"; NAME] "avdmanager") as boot.
  intros boot.
  destruct Hcreation as [(-> & -> & _)|(-> & cmd' & cwd' & out' & -> & _)];
    destruct boot;
    repeat (cbn [List.filter isInstall isMkdir isDownload isExecOf app andb length];
            rewrite ?String.eqb_refl, ?list_avd_is_not_create,
              ?create_is_not_list_avd);
    now split_and!.
Qed.

(** C4. [setupAndroid] returns true exactly when no step that its result
    depends on went wrong: the installer did not report failure and, if the
    virtual device had to be created, creating it gave output.  A failure to
    create the platforms directory is ignored.  Whatever the installer
    returns, the listing of virtual devices follows it, and the adb check
    comes after every step that can fail. *)
Theorem setupAndroid_result setupConfigs missingRequirements (st : State W) :
  let events := since st (snd (setupAndroid setupConfigs missingRequirements st)) in
  let adbPath :=
    path_join imp [sdkRoot st; SDK_BINARY_LOCATIONS imp adb;
                   getBinaryNameForOS imp platform "adb"] in
  (fst (setupAndroid setupConfigs missingRequirements st) = true <->
   List.filter (stepFailed imp) events = []) /\
  (missingRequirements <> [] ->
   (exists location packages ok cmd cwd out,
      List.filter (fun e => isInstall e || isExecOf "avdmanager" "list avd" e) events =
      [EvInstall location platform packages ok;
       EvExec "avdmanager" "list avd" cmd cwd out]) /\
   (exists before found after,
      events = before ++ EvExists adbPath found :: after /\
      List.filter (stepFailed imp) (EvExists adbPath found :: after) = [])).
Proof.
  cbn zeta. destruct missingRequirements as [|r rs].
  { split; [|congruence]. cbn. unfold since. now rewrite drop_all. }
  destruct (setupAndroid_events setupConfigs r rs st)
    as (location & ok & mk & cmd & cwd & out & creation & Hfilter & Hmk & Hcreation).
  split; [|intros _; split].
  - rewrite (Hfilter (stepFailed imp)) by blind. clear Hfilter.
    generalize (negb (Nat.eqb (length (fst (checkBinariesWorking [sdkmanager] st))) 0) ||
                JS.arr_includes (r :: rs) "avdmanager") as boot.
    intros boot.
    assert (Hmk' : List.filter (stepFailed imp) mk = []).
    { destruct Hmk as [[_ [res ->]]|[_ ->]]; reflexivity. }
    rewrite Hmk'.
    assert (Hboot : List.filter (stepFailed imp)
                      (if boot then [EvDownload (sdkRoot st) platform] else []) = [])
      by now destruct boot.
    rewrite Hboot.
    cbn [app List.filter stepFailed andb]. rewrite String.eqb_refl, list_avd_is_not_create.
    cbn [andb app].
    destruct Hcreation as [(_ & -> & ->)|(_ & cmd' & cwd' & out' & -> & ->)].
    + destruct ok; cbn; split; congruence.
    + cbn [List.filter stepFailed]. rewrite !String.eqb_refl. cbn [andb].
      destruct ok, (JS.truthy (try_catch out' "")); cbn; split; congruence.
  - exists location, (packagesFor imp
             (if negb (Nat.eqb (length (fst (checkBinariesWorking [sdkmanager] st))) 0) ||
                 JS.arr_includes (r :: rs) "avdmanager"
              then if (-1 <? JS.indexOf (r :: rs) "avdmanager")%Z
                   then JS.splice1 (r :: rs) (JS.indexOf (r :: rs) "avdmanager")
                   else r :: rs
              else r :: rs)), ok, cmd, cwd, out.
    rewrite (Hfilter (fun e => isInstall e || isExecOf "avdmanager" "list avd" e))
      by blind.
    clear Hfilter.
    generalize (negb (Nat.eqb (length (fst (checkBinariesWorking [sdkmanager] st))) 0) ||
                JS.arr_includes (r :: rs) "avdmanager") as boot.
    intros boot.
    destruct Hmk as [[_ [res ->]]|[_ ->]],
             Hcreation as [(_ & -> & _)|(_ & cmd' & cwd' & out' & -> & _)],
             boot;
      repeat (cbn [List.filter isInstall isExecOf app andb orb];
              rewrite ?String.eqb_refl, ?create_is_not_list_avd);
      reflexivity.
  - destruct (setupAndroid_passes setupConfigs r rs st)
      as (smoke & probes3 & location' & ok' & mk' & probes5 & cmd' & cwd' & out' &
          creation' & final & Hlog & _ & _ & _ & _ & _ & Hfinal & found & rest & ->).
    apply logs_since in Hlog. rewrite Hlog.
    eexists _, found, rest. split.
    + rewrite !List.app_assoc. reflexivity.
    + eapply filter_silent; [|exact Hfinal].
      intros e [He|He]; revert e He; blind.
Qed.

(** *** The run *)

Lemma setupAndroid_logs setupConfigs missingRequirements (st : State W) :
  exists evs, logs st (snd (setupAndroid setupConfigs missingRequirements st)) evs.
Proof.
  destruct missingRequirements as [|r rs]; [exists []; apply logs_refl|].
  destruct (setupAndroid_passes setupConfigs r rs st)
    as (? & ? & ? & ? & ? & ? & ? & ? & ? & ? & ? & Hlog & _).
  eauto.
Qed.

Lemma verifySetup_logs setupConfigs (st : State W) :
  exists evs, logs st (snd (verifySetup setupConfigs st)) evs.
Proof.
  destruct (verifySetup_passes setupConfigs st)
    as (? & ? & ? & ? & ? & ? & ? & ? & ? & ? & _ & _ & _ & _ & _ & _ & Hlog & _).
  eauto.
Qed.

(** [run] without the help flag, step by step. *)
Lemma run_unfold (options : Options) (st : State W) :
  help options = false ->
  run host imp options platform st =
  let value := default "" (env_ANDROID_HOME host (world st)) in
  let root := if JS.truthy value then value else "" in
  let st0 := mkState root (binaryLocation st) (world st) (trace st) in
  if String.eqb root "" then (false, st0)
  else
    let (setupConfigs, st1) := ask host (getConfigFromOptions options) st0 in
    let (missingRequirements, st2) := verifySetup setupConfigs st1 in
    if setup options then setupAndroid setupConfigs missingRequirements st2
    else (match missingRequirements with [] => true | _ :: _ => false end, st2).
Proof.
  intros Hhelp. unfold_run. rewrite Hhelp.
  unfold bind, getenv_ANDROID_HOME, assign_sdkRoot, read_sdkRoot. cbn zeta.
  assert (Hroot :
    match env_ANDROID_HOME host (world st) with
    | Some value => if JS.truthy value then ret value else ret ""
    | None => ret ""
    end st =
    (if JS.truthy (default "" (env_ANDROID_HOME host (world st)))
     then default "" (env_ANDROID_HOME host (world st)) else "", st)).
  { destruct (env_ANDROID_HOME host (world st)) as [value|]; [|reflexivity].
    change (default "" (Some value)) with value. now destruct (JS.truthy value). }
  rewrite Hroot. cbn [sdkRoot binaryLocation world trace].
  destruct (String.eqb _ ""); [reflexivity|].
  destruct (ask host (getConfigFromOptions options) _) as [setupConfigs st1].
  destruct (verifySetup setupConfigs st1) as [missingRequirements st2].
  destruct (setup options); [reflexivity|]. now destruct missingRequirements.
Qed.

(** C2. Unless help was asked for, a run in which ANDROID_HOME is unset or
    empty returns false at once: nothing has been probed, started or asked,
    and only the SDK root field has been assigned.  Any other value is
    stored as the SDK root as it is, without a look at the filesystem: the
    first host call is the prompt for the configuration, the checker runs in
    the state whose SDK root is that value, the run is the checker followed,
    with the setup flag, by the remediation, and the SDK root is still that
    value when the run ends.  With the help flag the run returns true and
    does nothing else. *)
Theorem run_needs_sdk_root (options : Options) (st : State W) :
  (help options = true -> run host imp options platform st = (true, st)) /\
  (help options = false ->
   JS.truthy (default "" (env_ANDROID_HOME host (world st))) = false ->
   run host imp options platform st =
   (false, mkState "" (binaryLocation st) (world st) (trace st))) /\
  (help options = false ->
   JS.truthy (default "" (env_ANDROID_HOME host (world st))) = true ->
   let value := default "" (env_ANDROID_HOME host (world st)) in
   let (setupConfigs, st1) :=
     ask host (getConfigFromOptions options)
         (mkState value (binaryLocation st) (world st) (trace st)) in
   let (missingRequirements, st2) := verifySetup setupConfigs st1 in
   sdkRoot st1 = value /\
   since st st1 = [EvPrompt (getConfigFromOptions options) setupConfigs] /\
   run host imp options platform st =
     (if setup options then setupAndroid setupConfigs missingRequirements st2
      else (match missingRequirements with [] => true | _ :: _ => false end, st2)) /\
   sdkRoot (snd (run host imp options platform st)) = value /\
   exists rest,
     since st (snd (run host imp options platform st)) =
     EvPrompt (getConfigFromOptions options) setupConfigs :: rest).
Proof.
  split; [intros Hhelp; unfold_run; now rewrite Hhelp|].
  split; intros Hhelp; rewrite (run_unfold options st Hhelp); cbn zeta;
    set (value := default "" (env_ANDROID_HOME host (world st)));
    intros Hvalue; rewrite Hvalue; [reflexivity|].
  apply truthy_true_iff, String.eqb_neq in Hvalue. rewrite Hvalue.
  set (st0 := mkState value (binaryLocation st) (world st) (trace st)).
  assert (Hlog1 :
    logs st0 (snd (ask host (getConfigFromOptions options) st0))
         [EvPrompt (getConfigFromOptions options)
                   (fst (ask host (getConfigFromOptions options) st0))]).
  { unfold ask.
    destruct (prompt host (world st0) (getConfigFromOptions options)) as [answered w].
    now split. }
  destruct (ask host (getConfigFromOptions options) st0) as [setupConfigs st1].
  cbn [fst snd] in Hlog1.
  destruct (verifySetup_logs setupConfigs st1) as (evs2 & Hlog2).
  destruct (verifySetup setupConfigs st1) as [missingRequirements st2].
  cbn [snd] in Hlog2.
  assert (Hrest : exists evs3,
    logs st2
      (snd (if setup options then setupAndroid setupConfigs missingRequirements st2
            else (match missingRequirements with [] => true | _ :: _ => false end,
                  st2))) evs3).
  { destruct (setup options); [apply setupAndroid_logs|].
    exists []. apply logs_refl. }
  destruct Hrest as (evs3 & Hlog3).
  destruct Hlog1 as [R1 T1], Hlog2 as [R2 T2], Hlog3 as [R3 T3].
  cbn [sdkRoot trace st0] in R1, T1.
  split_and!.
  - exact R1.
  - unfold since. rewrite T1. apply drop_app_length.
  - reflexivity.
  - congruence.
  - exists (evs2 ++ evs3). unfold since. rewrite T3, T2, T1.
    rewrite <- !List.app_assoc. apply drop_app_length.
Qed.

(** *** The configuration from the command line *)

Lemma arr_includes_same_elements (xs ys : list string) (x : string) :
  (forall y, In y xs <-> In y ys) ->
  JS.arr_includes xs x = JS.arr_includes ys x.
Proof.
  intros Hsame. destruct (JS.arr_includes ys x) eqn:E.
  - apply arr_includes_In, Hsame, arr_includes_In, E.
  - destruct (JS.arr_includes xs x) eqn:E'; [|reflexivity].
    apply arr_includes_In, Hsame, arr_includes_In in E'. congruence.
Qed.

(** X1. For options given as arrays, the configuration only depends on which
    values occur: neither their order nor repetitions matter. *)
Theorem getConfigFromOptions_array_order_irrelevant
    (h s : bool) (modes modes' selected selected' : list string) :
  (forall x, In x modes <-> In x modes') ->
  (forall x, In x selected <-> In x selected') ->
  getConfigFromOptions
    {| help := h; setup := s; opt_mode := Some (OptArray modes);
       opt_browsers := Some (OptArray selected) |} =
  getConfigFromOptions
    {| help := h; setup := s; opt_mode := Some (OptArray modes');
       opt_browsers := Some (OptArray selected') |}.
Proof.
  intros Hm Hb. unfold getConfigFromOptions.
  cbn [opt_mode opt_browsers given_value value_includes].
  now rewrite !(arr_includes_same_elements modes modes' _ Hm),
    !(arr_includes_same_elements selected selected' _ Hb).
Qed.

(** X2. A mode given as one string selects by the words that occur in it: a
    string in which both [real] and [emulator] occur, whatever stands around
    them, selects both modes. *)
Theorem getConfigFromOptions_mode_words (opts : Options) (p q r : string) :
  opt_mode opts = Some (OptString (p +:+ "real" +:+ q +:+ "emulator" +:+ r)) ->
  mode (getConfigFromOptions opts) = Some mode_both.
Proof.
  intros Hmode. unfold getConfigFromOptions. rewrite Hmode.
  cbn [given_value mode value_includes].
  assert (Htruthy : JS.truthy (p +:+ "real" +:+ q +:+ "emulator" +:+ r) = true).
  { apply truthy_true_iff. destruct p; discriminate. }
  rewrite Htruthy. cbn [value_includes].
  rewrite (includes_middle p "real" (q +:+ "emulator" +:+ r)).
  assert (Hemu : JS.includes (p +:+ "real" +:+ q +:+ "emulator" +:+ r) "emulator" = true).
  { apply includes_append_r, includes_append_r, includes_append_r.
    apply includes_prefix, prefix_append. }
  now rewrite Hemu.
Qed.

(** X3. Among the browsers, [none] wins: when it occurs in the option, no
    browser is selected, whatever else is named; and an option given as a
    bare flag selects nothing at all. *)
Theorem getConfigFromOptions_none_wins (opts : Options) (selected : list string) (b : bool) :
  (opt_browsers opts = Some (OptArray selected) -> In "none" selected ->
   browsers (getConfigFromOptions opts) = Some br_none) /\
  (opt_browsers opts = Some (OptBool b) ->
   browsers (getConfigFromOptions opts) = None) /\
  (opt_mode opts = Some (OptBool b) ->
   mode (getConfigFromOptions opts) = None).
Proof.
  unfold getConfigFromOptions. split_and!.
  - intros -> Hin. cbn [given_value browsers value_includes].
    apply arr_includes_In in Hin. now rewrite Hin.
  - now intros ->.
  - now intros ->.
Qed.

(** *** Locating a binary *)

(** X4. For a binary other than adb a lookup makes exactly one probe, of the
    binary's place inside the SDK; it returns that path when it exists and
    the empty string when it does not, and it never consults the PATH. *)
Theorem getBinaryLocation_probes_one_place b s (st : State W) :
  b <> adb ->
  let place :=
    path_join imp [sdkRoot st; SDK_BINARY_LOCATIONS imp b;
                   getBinaryNameForOS imp platform (binaryName b)] in
  let found := fs_existsSync host (world st) place in
  since st (snd (getBinaryLocation b s st)) = [EvExists place found] /\
  fst (getBinaryLocation b s st) = if found then place else "".
Proof.
  intros Hb. cbn zeta. unfold_getBinaryLocation. unfold_m. unfold since.
  assert (Hname : String.eqb (binaryName b) "adb" = false)
    by (destruct b; [congruence|reflexivity..]).
  rewrite Hname.
  destruct (fs_existsSync host (world st) _);
    cbn [fst snd trace]; now rewrite drop_app_length.
Qed.

(** X5. For adb the first place that has it wins: its place inside the SDK,
    then the SDK root, then the PATH.  A later place is only looked at when
    the earlier ones do not have it, and a find on the PATH is returned as
    the PATH sentinel. *)
Theorem getBinaryLocation_adb_first_match s (st : State W) :
  let name := getBinaryNameForOS imp platform "adb" in
  let inSdk := path_join imp [sdkRoot st; SDK_BINARY_LOCATIONS imp adb; name] in
  let atRoot := path_join imp [sdkRoot st; name] in
  let onPath := which_sync host (world st) name in
  let events := since st (snd (getBinaryLocation adb s st)) in
  let location := fst (getBinaryLocation adb s st) in
  (fs_existsSync host (world st) inSdk = true ->
   location = inSdk /\ events = [EvExists inSdk true]) /\
  (fs_existsSync host (world st) inSdk = false ->
   fs_existsSync host (world st) atRoot = true ->
   location = atRoot /\ events = [EvExists inSdk false; EvExists atRoot true]) /\
  (fs_existsSync host (world st) inSdk = false ->
   fs_existsSync host (world st) atRoot = false ->
   location = (if JS.truthy (default "" onPath) then "PATH" else "") /\
   events = [EvExists inSdk false; EvExists atRoot false; EvWhich name onPath]).
Proof.
  cbn zeta. unfold_getBinaryLocation. unfold_m. unfold since.
  change (String.eqb (binaryName adb) "adb") with true. cbn [binaryName].
  split_and!.
  - intros ->. cbn [fst snd trace]. now rewrite drop_app_length.
  - intros -> H2. cbn [fst snd trace sdkRoot world]. rewrite H2.
    cbn [fst snd trace]. now rewrite <- List.app_assoc, drop_app_length.
  - intros -> H2. cbn [fst snd trace sdkRoot world]. rewrite H2.
    cbn [fst snd trace sdkRoot world].
    destruct (JS.truthy _); cbn [fst snd trace];
      now rewrite <- !List.app_assoc, drop_app_length.
Qed.

(** X6. A lookup that finds the binary stores what it returns under the
    binary's name; no lookup touches the entry of another name, the SDK root
    or the world. *)
Theorem getBinaryLocation_caches_result b s (st : State W) :
  let st' := snd (getBinaryLocation b s st) in
  (fst (getBinaryLocation b s st) <> "" ->
   binaryLocation st' !! binaryName b = Some (fst (getBinaryLocation b s st))) /\
  (forall name, name <> binaryName b ->
     binaryLocation st' !! name = binaryLocation st !! name) /\
  sdkRoot st' = sdkRoot st /\
  world st' = world st.
Proof.
  cbn zeta.
  destruct (getBinaryLocation_spec b s st)
    as (location & cache & evs & -> & _ & [[-> ->]|[-> _]]);
    cbn [fst snd binaryLocation sdkRoot world]; split_and!; try reflexivity.
  - congruence.
  - intros _. apply lookup_insert_eq.
  - intros name Hname. now apply lookup_insert_ne.
Qed.

Section LookupAgain.

Hypothesis path_join_nonempty : forall segments, path_join imp segments <> "".

(** X7. Looking a binary up again right away gives the same location and
    leaves the cache as the first lookup left it. *)
Theorem getBinaryLocation_again b s s' (st : State W) :
  let first := getBinaryLocation b s st in
  let again := getBinaryLocation b s' (snd first) in
  fst again = fst first /\
  binaryLocation (snd again) = binaryLocation (snd first).
Proof.
  cbn zeta.
  destruct (getBinaryLocation_logs b s st) as (evs & [Hroot _] & _ & Hworld).
  pose proof (getBinaryLocation_same_world b s' s _ _ Hroot Hworld) as Hsame.
  clear evs Hroot Hworld.
  split; [exact Hsame|].
  destruct (getBinaryLocation_spec b s st)
    as (l1 & c1 & e1 & E1 & _ & Hcase1).
  rewrite E1 in *. cbn [fst snd] in *.
  destruct (getBinaryLocation_spec b s'
              (mkState (sdkRoot st) c1 (world st) (trace st ++ e1)))
    as (l2 & c2 & e2 & E2 & _ & Hcase2).
  rewrite E2 in *. cbn [fst snd binaryLocation] in *. subst l2.
  destruct Hcase2 as [[_ ->]|[-> Hl2]]; [reflexivity|].
  destruct Hcase1 as [[-> ->]|[-> _]].
  - destruct Hl2 as [?|[_ [segments Hs]]]; [discriminate|].
    symmetry in Hs. now apply path_join_nonempty in Hs.
  - apply insert_insert_eq.
Qed.

End LookupAgain.

(** *** The two passes over a list of binaries *)

Lemma checkBinariesPresent_loop_filter binaries missingBinaries (st : State W) :
  fst (checkBinariesPresent_loop binaries missingBinaries st) =
  missingBinaries ++
  List.filter (fun b => negb (JS.truthy (fst (getBinaryLocation b false st)))) binaries.
Proof.
  revert missingBinaries st.
  induction binaries as [|b rest IH]; intros missingBinaries st;
    step_checkBinariesPresent_loop; [now rewrite app_nil_r|].
  unfold bind. cbn [List.filter].
  destruct (getBinaryLocation_logs b false st) as (evs & [Hroot _] & _ & Hworld).
  destruct (getBinaryLocation b false st) as [binaryPath st1]. cbn [fst snd] in *.
  rewrite IH.
  assert (Hrest :
    List.filter (fun x => negb (JS.truthy (fst (getBinaryLocation x false st1)))) rest =
    List.filter (fun x => negb (JS.truthy (fst (getBinaryLocation x false st)))) rest).
  { apply filter_ext. intros x.
    now rewrite (getBinaryLocation_same_world x false false st1 st Hroot Hworld). }
  rewrite Hrest. destruct (JS.truthy binaryPath); cbn [negb]; [reflexivity|].
  now rewrite <- List.app_assoc.
Qed.

(** X8. The presence pass returns, in the order given, exactly the binaries
    that a lookup does not find; it starts no program and leaves the world
    as it is. *)
Theorem checkBinariesPresent_reports_unlocated binaries (st : State W) :
  fst (checkBinariesPresent binaries st) =
    List.filter (fun b => negb (JS.truthy (fst (getBinaryLocation b false st))))
                binaries /\
  List.filter isExec (since st (snd (checkBinariesPresent binaries st))) = [] /\
  world (snd (checkBinariesPresent binaries st)) = world st.
Proof.
  split; [apply (checkBinariesPresent_loop_filter binaries [] st)|].
  destruct (checkBinariesPresent_loop_logs binaries [] st)
    as (found & evs & _ & _ & Hlog & Hprobes & Hworld & _).
  fold (checkBinariesPresent binaries st) in *.
  rewrite (logs_since _ _ _ Hlog). split; [|exact Hworld].
  eapply filter_silent; [|exact Hprobes]. now intros [] He.
Qed.

(** X9. The functional pass trusts the cache: for a binary with a cached
    location it probes nothing and runs the smoke test where the cache says,
    whether or not the binary is still there; the binary is reported exactly
    when that run fails or prints nothing. *)
Theorem checkBinariesWorking_uses_cached_location b location (st : State W) :
  binaryLocation st !! binaryName b = Some location ->
  location <> "" ->
  exists cmd cwd out,
    since st (snd (checkBinariesWorking [b] st)) =
      [EvExec (binaryName b) (smokeTest b) cmd cwd out] /\
    out = fst (execSync host (world st) cmd cwd) /\
    (location <> "PATH" -> cwd = Some (path_dirname imp location)) /\
    fst (checkBinariesWorking [b] st) =
      if JS.truthy (try_catch out "") then [] else [b].
Proof.
  intros Hcached Hne. unfold checkBinariesWorking.
  rewrite checkBinariesWorking_loop_cons. cbn zeta. rewrite Hcached.
  change (default "" (Some location)) with location.
  apply truthy_true_iff in Hne. rewrite Hne.
  destruct (execBinary_logs location (binaryName b) (smokeTest b) st)
    as (cmd & cwd & out & Hlog & Hres & Hout & Hcwd).
  destruct (execBinary location (binaryName b) (smokeTest b) st)
    as [binaryWorking st1].
  cbn [fst snd] in *. exists cmd, cwd, out. subst binaryWorking.
  step_checkBinariesWorking_loop. unfold ret. cbn [fst snd app]. rewrite Hne.
  split_and!; [now apply logs_since|assumption..|reflexivity].
Qed.

(** X10. A binary that has no cached location and that a lookup does not
    find is reported by the functional pass without any program being
    started. *)
Theorem checkBinariesWorking_reports_unlocated b (st : State W) :
  JS.truthy (default "" (binaryLocation st !! binaryName b)) = false ->
  fst (getBinaryLocation b false st) = "" ->
  fst (checkBinariesWorking [b] st) = [b] /\
  List.filter isExec (since st (snd (checkBinariesWorking [b] st))) = [].
Proof.
  intros Hcache Hnone. unfold checkBinariesWorking.
  rewrite checkBinariesWorking_loop_cons. cbn zeta. rewrite Hcache.
  destruct (getBinaryLocation_logs b false st) as (evs & Hlog & Hprobes & _).
  destruct (getBinaryLocation b false st) as [binaryPath st1].
  cbn [fst snd] in *. subst binaryPath.
  change (JS.truthy "") with false. cbn iota.
  step_checkBinariesWorking_loop. unfold ret. cbn [fst snd app].
  split; [reflexivity|]. rewrite (logs_since _ _ _ Hlog).
  eapply filter_silent; [|exact Hprobes]. now intros [] He.
Qed.

(** X11. The functional pass reports only binaries it was given, in the
    order given and none more often than given, and the only programs it
    starts are the smoke tests of those binaries. *)
Theorem checkBinariesWorking_reports_given binaries (st : State W) :
  fst (checkBinariesWorking binaries st) `sublist_of` binaries /\
  Forall (fun e => isExec e = true ->
            exists b, In b binaries /\
                      isExecOf (binaryName b) (smokeTest b) e = true)
         (since st (snd (checkBinariesWorking binaries st))).
Proof.
  destruct (checkBinariesWorking_loop_logs binaries [] st)
    as (found & evs & Hres & Hsub & Hlog & Hevs).
  fold (checkBinariesWorking binaries st) in *.
  rewrite Hres, (logs_since _ _ _ Hlog). split; [exact Hsub|].
  eapply Forall_impl; [exact Hevs|].
  intros e [Hprobe|Hsmoke] Hexec; [|exact Hsmoke].
  destruct e; discriminate.
Qed.

(** X12. The adb check starts no program when adb cannot be located, and
    otherwise starts exactly one, [adb devices]; whatever that prints, the
    cache changes only as the lookup of adb changes it. *)
Theorem verifyAdbRunning_runs_adb_devices_once (st : State W) :
  (fst (getBinaryLocation adb true st) = "" ->
   List.filter isExec (since st (snd (verifyAdbRunning st))) = []) /\
  (fst (getBinaryLocation adb true st) <> "" ->
   exists cmd cwd out,
     List.filter isExec (since st (snd (verifyAdbRunning st))) =
     [EvExec "adb" "devices" cmd cwd out]) /\
  binaryLocation (snd (verifyAdbRunning st)) =
  binaryLocation (snd (getBinaryLocation adb true st)).
Proof.
  unfold_verifyAdbRunning; unfold bind.
  destruct (getBinaryLocation_logs adb true st) as (probes & Hlog1 & Hp & _).
  destruct (getBinaryLocation adb true st) as [location st1]. cbn [fst snd] in *.
  assert (Hquiet : List.filter isExec probes = []).
  { eapply filter_silent; [|exact Hp]. now intros [] He. }
  destruct (JS.truthy location) eqn:Hloc.
  - destruct (execBinary_spec location "adb" "devices" st1) as (cmd & cwd & E & _).
    pose proof (execBinary_logs location "adb" "devices" st1)
      as (cmd' & cwd' & out & Hlog2 & _).
    rewrite E in *. unfold ret. cbn [fst snd binaryLocation] in *.
    apply truthy_true_iff in Hloc.
    rewrite (logs_since _ _ _ (logs_trans _ _ _ _ _ Hlog1 Hlog2)).
    rewrite List.filter_app, Hquiet. split_and!; [congruence| |reflexivity].
    intros _. now exists cmd', cwd', out.
  - apply truthy_false_iff in Hloc. unfold ret. cbn [snd].
    rewrite (logs_since _ _ _ Hlog1), Hquiet. split_and!; [reflexivity| |reflexivity].
    congruence.
Qed.

(** *** Reading the listing *)

Lemma prefix_append_l (t x y : string) :
  String.prefix t x = true -> String.prefix t (x +:+ y) = true.
Proof.
  intros H. apply prefix_split in H as [q ->].
  rewrite append_assoc. apply prefix_append.
Qed.

(** The piece under construction is a prefix of the text. *)
Lemma split_from_head_prefix (sep s : string) :
  exists r rs rest, JS.split_from sep s 0 = r :: rs /\ s = r +:+ rest.
Proof.
  induction s as [|c s IH]; [now exists "", [], ""|].
  cbn [JS.split_from]. destruct (String.prefix sep (String c s)).
  - now eexists "", _, (String c s).
  - destruct IH as (r & rs & rest & -> & Hs).
    exists (String c r), rs, rest. split; [reflexivity|]. now rewrite Hs at 1.
Qed.

(** What occurs in a piece of a split occurs in the text. *)
Lemma split_from_piece_includes (sep t s : string) (k : nat) (r : string) :
  In r (JS.split_from sep s k) ->
  JS.includes r t = true -> JS.includes s t = true.
Proof.
  revert k r. induction s as [|c s IH]; intros k r Hin Hr.
  - destruct Hin as [<-|[]]. exact Hr.
  - cbn [JS.split_from] in Hin. cbn [JS.includes]. destruct k as [|k].
    + destruct (String.prefix sep (String c s)).
      * destruct Hin as [<-|Hin].
        -- cbn [JS.includes] in Hr. rewrite orb_false_r in Hr.
           apply prefix_split in Hr as [q Hq]. destruct t; [reflexivity|discriminate].
        -- rewrite (IH _ _ Hin Hr). apply orb_true_r.
      * destruct (split_from_head_prefix sep s) as (r0 & rs & rest & E & Hs).
        rewrite E in Hin. destruct Hin as [<-|Hin].
        -- cbn [JS.includes] in Hr. apply orb_true_iff in Hr as [Hr|Hr].
           ++ rewrite Hs, <- append_cons. now rewrite (prefix_append_l _ _ _ Hr).
           ++ rewrite (IH 0 r0); [apply orb_true_r | rewrite E; now left | exact Hr].
        -- rewrite (IH 0 r); [apply orb_true_r | rewrite E; now right | exact Hr].
    + rewrite (IH _ _ Hin Hr). apply orb_true_r.
Qed.

Lemma avdListed_needs_name (stdout : string) :
  JS.includes stdout NAME = false -> avdListed stdout = false.
Proof.
  intros Hno. destruct (avdListed stdout) eqn:E; [|reflexivity].
  apply avdListed_spec in E as (avd & Hin & _ & Hname).
  rewrite split_nonempty_separator in Hin.
  now rewrite (split_from_piece_includes _ _ _ _ _ Hin Hname) in Hno.
Qed.

(** X13. [verifyAvdPresent] never answers true for a listing in which the
    name of the virtual device does not occur. *)
Theorem verifyAvdPresent_needs_name (st : State W) :
  let (location, st1) := getBinaryLocation avdmanager true st in
  let stdout := fst (execBinary location "avdmanager" "list avd" st1) in
  JS.includes stdout NAME = false -> fst (verifyAvdPresent st) = false.
Proof.
  rewrite verifyAvdPresent_unfold.
  destruct (getBinaryLocation avdmanager true st) as [location st1].
  destruct (execBinary location "avdmanager" "list avd" st1) as [stdout st2].
  cbn [fst]. apply avdListed_needs_name.
Qed.

(** X14. When the listing cannot be run (the call throws), the virtual
    device counts as absent. *)
Theorem verifyAvdPresent_false_on_failure (st : State W) cmd cwd :
  NAME <> "" ->
  In (EvExec "avdmanager" "list avd" cmd cwd Throw)
     (since st (snd (verifyAvdPresent st))) ->
  fst (verifyAvdPresent st) = false.
Proof.
  intros Hname Hin.
  destruct (verifyAvdPresent_logs st)
    as (probes & cmd' & cwd' & out & Hlog & Hp & -> & _).
  rewrite (logs_since _ _ _ Hlog) in Hin.
  apply in_app_or in Hin as [Hin|[Hin|[]]].
  - rewrite Forall_forall in Hp. apply list_elem_of_In in Hin.
    specialize (Hp _ Hin). discriminate.
  - injection Hin as _ _ ->. apply avdListed_needs_name.
    destruct NAME; [congruence|reflexivity].
Qed.

(** *** What the checker reports and what it leaves alone *)

Lemma smokeTest_is_not_create b : String.eqb (smokeTest b) (createAvdArgs imp) = false.
Proof. destruct b; reflexivity. Qed.

Lemma remediation_is_not_probe e : isProbe e = true -> isRemediation imp e = false.
Proof. now destruct e. Qed.

Lemma remediation_is_not_smoke binaries e :
  smokeEvent binaries e -> isRemediation imp e = false.
Proof.
  intros [He|(b & _ & He)]; [now apply remediation_is_not_probe|].
  destruct e; try discriminate. cbn in He |- *.
  apply andb_true_iff in He as [_ Ha]. apply String.eqb_eq in Ha. subst args.
  rewrite smokeTest_is_not_create. apply andb_false_r.
Qed.

Lemma remediation_is_not_adb_check e :
  isProbe e = true \/ isExecOf "adb" "devices" e = true -> isRemediation imp e = false.
Proof.
  intros [He|He]; [now apply remediation_is_not_probe|].
  destruct e; try discriminate. cbn in He |- *.
  apply andb_true_iff in He as [Hn _]. apply String.eqb_eq in Hn. now subst name.
Qed.

Lemma verifySetup_no_remediation setupConfigs (st : State W) :
  List.filter (isRemediation imp) (since st (snd (verifySetup setupConfigs st))) = [].
Proof.
  destruct (verifySetup_passes setupConfigs st)
    as (missingBinaries & structural & nonWorking & probes1 & probes2 & cmd & cwd &
        out & functional & final & _ & _ & _ & _ & _ & _ & Hlog &
        Hp1 & Hp2 & _ & _ & Hfun & Hfin & _).
  rewrite (logs_since _ _ _ Hlog), !List.filter_app.
  rewrite (filter_silent _ _ probes1 remediation_is_not_probe Hp1),
    (filter_silent _ _ probes2 remediation_is_not_probe Hp2),
    (filter_silent _ _ functional (remediation_is_not_smoke _) Hfun),
    (filter_silent _ _ final remediation_is_not_adb_check Hfin).
  cbn [List.filter isRemediation isDownload isInstall isMkdir isExecOf orb app].
  now rewrite String.eqb_refl, list_avd_is_not_create.
Qed.

(** X15. [verifySetup] only checks: it never downloads, installs, creates a
    directory or creates the virtual device.  And it runs [adb devices] only
    when it found nothing missing. *)
Theorem verifySetup_only_checks setupConfigs (st : State W) :
  let events := since st (snd (verifySetup setupConfigs st)) in
  List.filter (isRemediation imp) events = [] /\
  (fst (verifySetup setupConfigs st) <> [] ->
   List.filter (isExecOf "adb" "devices") events = []).
Proof.
  cbn zeta. split; [apply verifySetup_no_remediation|]. intros Hmissing.
  destruct (verifySetup_passes setupConfigs st)
    as (missingBinaries & structural & nonWorking & probes1 & probes2 & cmd & cwd &
        out & functional & final & _ & _ & _ & _ & _ & _ & Hlog &
        Hp1 & Hp2 & _ & _ & Hfun & _ & Hfinal).
  rewrite (Hfinal Hmissing) in Hlog.
  assert (Hprobe : forall e, isProbe e = true -> isExecOf "adb" "devices" e = false)
    by now intros [].
  rewrite (logs_since _ _ _ Hlog), !List.filter_app.
  rewrite (filter_silent _ _ probes1 Hprobe Hp1), (filter_silent _ _ probes2 Hprobe Hp2).
  rewrite (filter_silent (isExecOf "adb" "devices") _ functional) with (2 := Hfun).
  - reflexivity.
  - intros e [He|(b & _ & He)]; [now apply Hprobe|].
    destruct e; try discriminate. cbn in He |- *.
    apply andb_true_iff in He as [_ Ha]. apply String.eqb_eq in Ha. subst args.
    destruct b; cbn; apply andb_false_r.
Qed.

(** X16. Every entry of the missing list is the name of a binary that the
    mode requires, or the platforms directory (only when the emulator is
    required), or the virtual device.  In the mode for real devices it is
    adb or the virtual device. *)
Theorem verifySetup_reports_requirements setupConfigs (st : State W) :
  Forall (fun r =>
            (exists b, In b (requiredBinariesFor setupConfigs) /\ r = binaryName b) \/
            (r = "platforms" /\ In emulator (requiredBinariesFor setupConfigs)) \/
            r = NAME)
         (fst (verifySetup setupConfigs st)) /\
  (mode setupConfigs = Some mode_real ->
   Forall (fun r => r = "adb" \/ r = NAME) (fst (verifySetup setupConfigs st))).
Proof.
  assert (Hgeneral :
    Forall (fun r =>
              (exists b, In b (requiredBinariesFor setupConfigs) /\ r = binaryName b) \/
              (r = "platforms" /\ In emulator (requiredBinariesFor setupConfigs)) \/
              r = NAME)
           (fst (verifySetup setupConfigs st))).
  { rewrite verifySetup_unfold. cbn zeta.
    destruct (checkBinariesPresent_loop_logs (requiredBinariesFor setupConfigs) [] st)
      as (found & evs1 & Hres1 & Hsub1 & _).
    fold (checkBinariesPresent (requiredBinariesFor setupConfigs) st) in *.
    destruct (checkBinariesPresent (requiredBinariesFor setupConfigs) st)
      as [missingBinaries st1].
    cbn [fst snd app] in *. subst found.
    set (Q := fun r =>
        (exists b, In b (requiredBinariesFor setupConfigs) /\ r = binaryName b) \/
        (r = "platforms" /\ In emulator (requiredBinariesFor setupConfigs)) \/
        r = NAME).
    assert (Hbin : forall bs, bs `sublist_of` requiredBinariesFor setupConfigs ->
                              Forall Q (map binaryName bs)).
    { intros bs Hsub. apply Forall_forall. intros r Hr.
      apply list_elem_of_In, in_map_iff in Hr as (b & <- & Hb). left. exists b.
      split; [|reflexivity]. apply list_elem_of_In.
      eapply elem_of_sublist; [|exact Hsub]. now apply list_elem_of_In. }
    assert (Hstage2 : Forall Q
      (fst (if bin_includes (requiredBinariesFor setupConfigs) emulator then
              let (found, st2) :=
                existsSync host (path_join imp [sdkRoot st1; "platforms"]) st1 in
              (if found then map binaryName missingBinaries
               else map binaryName missingBinaries ++ ["platforms"], st2)
            else (map binaryName missingBinaries, st1)))).
    { destruct (bin_includes _ emulator) eqn:Hemu; [|now apply Hbin].
      apply bin_includes_In in Hemu.
      destruct (existsSync host _ st1) as [[] st2]; cbn [fst]; [now apply Hbin|].
      apply Forall_app. split; [now apply Hbin|].
      constructor; [|constructor]. right. left. now split. }
    destruct (if bin_includes (requiredBinariesFor setupConfigs) emulator then _
              else (map binaryName missingBinaries, st1)) as [structural st2].
    cbn [fst] in Hstage2.
    destruct (verifyAvdPresent st2) as [avdPresent st3].
    assert (Hwith : Forall Q (if avdPresent then structural else structural ++ [NAME])).
    { destruct avdPresent; [assumption|]. apply Forall_app. split; [assumption|].
      constructor; [|constructor]. right. now right. }
    destruct (List.filter _ (requiredBinariesFor setupConfigs)) as [|b0 present] eqn:Ep;
      [exact Hwith|].
    destruct (checkBinariesWorking_loop_logs (b0 :: present) [] st3)
      as (found & evs4 & Hres4 & Hsub4 & _).
    fold (checkBinariesWorking (b0 :: present) st3) in *.
    destruct (checkBinariesWorking (b0 :: present) st3) as [nonWorking st4].
    cbn [fst snd app] in *. subst found.
    apply Forall_app. split; [exact Hwith|]. apply Hbin.
    etransitivity; [exact Hsub4|]. rewrite <- Ep. apply filter_sublist. }
  split; [exact Hgeneral|]. intros Hreal.
  eapply Forall_impl; [exact Hgeneral|].
  unfold requiredBinariesFor. rewrite Hreal. cbn.
  intros r [(b & Hb & Hr)|[[_ Hemu]|Hr]].
  - destruct Hb as [Hb|[]]. subst. now left.
  - destruct Hemu as [Hemu|[]]. discriminate.
  - now right.
Qed.

(** *** The run *)

(** X17. Without the setup flag a run changes nothing: it never downloads,
    installs, creates a directory or creates the virtual device, and it
    returns true exactly when the checker found nothing missing. *)
Theorem run_without_setup_only_checks (options : Options) (st : State W) :
  help options = false ->
  setup options = false ->
  JS.truthy (default "" (env_ANDROID_HOME host (world st))) = true ->
  let root := default "" (env_ANDROID_HOME host (world st)) in
  let (setupConfigs, st1) :=
    ask host (getConfigFromOptions options)
        (mkState root (binaryLocation st) (world st) (trace st)) in
  List.filter (isRemediation imp)
              (since st (snd (run host imp options platform st))) = [] /\
  (fst (run host imp options platform st) = true <->
   fst (verifySetup setupConfigs st1) = []).
Proof.
  intros Hhelp Hsetup Hroot. rewrite (run_unfold options st Hhelp). cbn zeta.
  rewrite Hroot, Hsetup.
  apply truthy_true_iff, String.eqb_neq in Hroot. rewrite Hroot.
  set (st0 := mkState _ (binaryLocation st) (world st) (trace st)).
  assert (Hlog1 : exists evs,
    logs st0 (snd (ask host (getConfigFromOptions options) st0)) evs /\
    List.filter (isRemediation imp) evs = []).
  { unfold ask.
    destruct (prompt host (world st0) (getConfigFromOptions options)) as [answered w].
    eexists [_]. split; [now split | reflexivity]. }
  destruct Hlog1 as (evs1 & Hlog1 & Hquiet1).
  destruct (ask host (getConfigFromOptions options) st0) as [setupConfigs st1].
  cbn [snd] in Hlog1.
  pose proof (verifySetup_no_remediation setupConfigs st1) as Hquiet2.
  destruct (verifySetup_logs setupConfigs st1) as (evs2 & Hlog2).
  rewrite (logs_since _ _ _ Hlog2) in Hquiet2.
  destruct (verifySetup setupConfigs st1) as [missingRequirements st2].
  cbn [fst snd] in *. split.
  - unfold since. destruct Hlog1 as [_ T1], Hlog2 as [_ T2].
    rewrite T2, T1. cbn [trace st0]. rewrite <- List.app_assoc, drop_app_length.
    now rewrite List.filter_app, Hquiet1, Hquiet2.
  - destruct missingRequirements; split; congruence.
Qed.

(** *** What the remediation does for any list of requirements *)

Lemma indexOf_from_first (x : string) (pre post : list string) (i : Z) :
  ~ In x pre ->
  JS.indexOf_from (pre ++ x :: post) x i = (i + Z.of_nat (length pre))%Z.
Proof.
  revert i. induction pre as [|y pre IH]; intros i Hnot; cbn [app JS.indexOf_from length].
  - rewrite String.eqb_refl. lia.
  - destruct (String.eqb_spec y x) as [->|Hne]; [exfalso; apply Hnot; now left|].
    rewrite IH; [lia|]. intros Hin. apply Hnot. now right.
Qed.

Lemma indexOf_from_absent (x : string) (xs : list string) (i : Z) :
  ~ In x xs -> JS.indexOf_from xs x i = (-1)%Z.
Proof.
  revert i. induction xs as [|y xs IH]; intros i Hnot; cbn [JS.indexOf_from];
    [reflexivity|].
  destruct (String.eqb_spec y x) as [->|Hne]; [exfalso; apply Hnot; now left|].
  apply IH. intros Hin. apply Hnot. now right.
Qed.

(** [indexOf] followed by [splice] cuts out the first occurrence only. *)
Lemma splice_first (x : string) (pre post : list string) :
  ~ In x pre ->
  (if (-1 <? JS.indexOf (pre ++ x :: post) x)%Z
   then JS.splice1 (pre ++ x :: post) (JS.indexOf (pre ++ x :: post) x)
   else pre ++ x :: post) = pre ++ post.
Proof.
  intros Hnot. unfold JS.indexOf, JS.splice1.
  rewrite (indexOf_from_first x pre post 0 Hnot), Z.add_0_l, Nat2Z.id.
  destruct (Z.ltb_spec (-1) (Z.of_nat (length pre))); [|lia].
  clear. induction pre as [|y pre IH]; [reflexivity|].
  cbn [length app]. change (y :: delete (length pre) (pre ++ x :: post) = y :: pre ++ post).
  now rewrite IH.
Qed.

Lemma splice_absent (x : string) (xs : list string) :
  ~ In x xs ->
  (if (-1 <? JS.indexOf xs x)%Z then JS.splice1 xs (JS.indexOf xs x) else xs) = xs.
Proof.
  intros Hnot. unfold JS.indexOf. now rewrite (indexOf_from_absent x xs 0 Hnot).
Qed.

Lemma first_occurrence (x : string) (xs : list string) :
  In x xs -> exists pre post, xs = pre ++ x :: post /\ ~ In x pre.
Proof.
  induction xs as [|y xs IH]; [intros []|]. intros Hin.
  destruct (String.eqb_spec y x) as [->|Hne].
  - exists [], xs. split; [reflexivity | intros []].
  - destruct Hin as [Heq|Hin]; [congruence|].
    destruct (IH Hin) as (pre & post & -> & Hnot). exists (y :: pre), post.
    split; [reflexivity|]. intros [Heq|Hpre]; [congruence | now apply Hnot].
Qed.

(** The list that [setupAndroid] goes on with after the bootstrap decision:
    the entries of the given list, in order, with at most avdmanager taken
    out. *)
Lemma remaining_requirements (bootstrap : bool) (xs : list string) :
  let remaining :=
    if bootstrap then
      if (-1 <? JS.indexOf xs "avdmanager")%Z
      then JS.splice1 xs (JS.indexOf xs "avdmanager")
      else xs
    else xs in
  (forall r, In r remaining -> In r xs) /\
  (forall r, r <> "avdmanager" -> In r xs -> In r remaining).
Proof.
  cbn zeta. destruct bootstrap; [|now split].
  destruct (in_dec String.string_dec "avdmanager" xs) as [Hin|Hnot].
  - destruct (first_occurrence _ _ Hin) as (pre & post & -> & Hpre).
    rewrite (splice_first _ pre post Hpre). split.
    + intros r Hr. apply in_app_iff in Hr as [Hr|Hr]; apply in_app_iff;
        [now left | right; now right].
    + intros r Hne Hr. apply in_app_iff in Hr as [Hr|[Hr|Hr]]; apply in_app_iff;
        [now left | congruence | now right].
  - rewrite (splice_absent _ xs Hnot). now split.
Qed.

Lemma packagesFor_In (xs : list string) (p : string) :
  In p (packagesFor imp xs) <->
  exists r, In r xs /\ BINARY_TO_PACKAGE_NAME imp !! r = Some p.
Proof.
  unfold packagesFor. rewrite in_map_iff. split.
  - intros (r & Hp & Hr). apply filter_In in Hr as [Hr Hkey]. exists r.
    split; [assumption|]. unfold has_key in Hkey.
    apply bool_decide_eq_true_1 in Hkey as [q Hq]. rewrite Hq in Hp |- *.
    cbn in Hp. now subst.
  - intros (r & Hr & Hp). exists r. split; [now rewrite Hp|].
    apply filter_In. split; [assumption | now apply (has_key_true _ _ p)].
Qed.

(** X18. The packages to install are the table entries of the requirements
    that have one, in the order of the requirements; a requirement without
    an entry contributes nothing, the packages of a list put together from
    two are those of the one followed by those of the other, and an empty
    package name can only come from the table. *)
Theorem packagesFor_table_entries (xs ys : list string) :
  packagesFor imp xs = omap (fun r => BINARY_TO_PACKAGE_NAME imp !! r) xs /\
  packagesFor imp (xs ++ ys) = packagesFor imp xs ++ packagesFor imp ys /\
  (In "" (packagesFor imp xs) ->
   exists r, In r xs /\ BINARY_TO_PACKAGE_NAME imp !! r = Some "").
Proof.
  assert (Homap : forall zs,
    packagesFor imp zs = omap (fun r => BINARY_TO_PACKAGE_NAME imp !! r) zs).
  { induction zs as [|z zs IH]; [reflexivity|]. unfold packagesFor in *.
    cbn [List.filter omap list_omap].
    destruct (BINARY_TO_PACKAGE_NAME imp !! z) as [p|] eqn:Hz.
    - rewrite (has_key_true _ _ _ Hz). cbn [map]. rewrite Hz, IH. reflexivity.
    - rewrite (has_key_false _ _ Hz). exact IH. }
  split_and!; [apply Homap | | apply packagesFor_In].
  unfold packagesFor. now rewrite List.filter_app, map_app.
Qed.

(** X19. For any list that is not empty the installer is called exactly
    once, and every package it is given is the table entry of one of the
    listed requirements. *)
Theorem setupAndroid_one_installer_call
    setupConfigs missingRequirements (st : State W) :
  missingRequirements <> [] ->
  exists location ok packages,
    List.filter isInstall
      (since st (snd (setupAndroid setupConfigs missingRequirements st))) =
      [EvInstall location platform packages ok] /\
    forall p, In p packages ->
      exists r, In r missingRequirements /\
                BINARY_TO_PACKAGE_NAME imp !! r = Some p.
Proof.
  intros Hne. destruct missingRequirements as [|r rs]; [congruence|]. clear Hne.
  destruct (setupAndroid_events setupConfigs r rs st)
    as (location & ok & mk & cmd & cwd & out & creation & Hfilter & Hmk & Hcreation).
  eexists location, ok, _. split.
  - rewrite (Hfilter isInstall) by blind.
    assert (Hmk' : List.filter isInstall mk = [])
      by (destruct Hmk as [[_ [res ->]]|[_ ->]]; reflexivity).
    assert (Hcr : List.filter isInstall creation = [])
      by (destruct Hcreation as [(_ & -> & _)|(_ & cmd' & cwd' & out' & -> & _)];
          reflexivity).
    rewrite Hmk', Hcr.
    assert (Hboot : forall b : bool,
      List.filter isInstall (if b then [EvDownload (sdkRoot st) platform] else []) = [])
      by (now intros []).
    rewrite Hboot. reflexivity.
  - intros p Hp. apply packagesFor_In in Hp as (q & Hq & Hp). exists q.
    split; [|exact Hp].
    eapply (proj1 (remaining_requirements _ (r :: rs))). exact Hq.
Qed.

(** X20. When avdmanager is in the list, the command-line tools are
    downloaded and only the first avdmanager entry is taken out: the
    installer gets the packages of the entries before it and after it. *)
Theorem setupAndroid_cuts_first_avdmanager
    setupConfigs (before after : list string) (st : State W) :
  ~ In "avdmanager" before ->
  let events :=
    since st (snd (setupAndroid setupConfigs (before ++ "avdmanager" :: after) st)) in
  List.filter isDownload events = [EvDownload (sdkRoot st) platform] /\
  exists location ok,
    List.filter isInstall events =
    [EvInstall location platform (packagesFor imp (before ++ after)) ok].
Proof.
  intros Hnot. cbn zeta.
  destruct (before ++ "avdmanager" :: after) as [|r rs] eqn:E;
    [now destruct before|].
  destruct (setupAndroid_events setupConfigs r rs st)
    as (location & ok & mk & cmd & cwd & out & creation & Hfilter & Hmk & Hcreation).
  assert (Hin : JS.arr_includes (r :: rs) "avdmanager" = true).
  { apply arr_includes_In. rewrite <- E. apply in_app_iff. right. now left. }
  rewrite Hin, orb_true_r in Hfilter.
  rewrite <- E in Hfilter |- *.
  rewrite (splice_first "avdmanager" before after Hnot) in Hfilter.
  assert (Hmk' : List.filter isDownload mk = [] /\ List.filter isInstall mk = [])
    by (destruct Hmk as [[_ [res ->]]|[_ ->]]; now split).
  assert (Hcr : List.filter isDownload creation = [] /\
                List.filter isInstall creation = [])
    by (destruct Hcreation as [(_ & -> & _)|(_ & cmd' & cwd' & out' & -> & _)];
        now split).
  destruct Hmk' as [Hmk1 Hmk2], Hcr as [Hcr1 Hcr2]. split.
  - rewrite (Hfilter isDownload) by blind. now rewrite Hmk1, Hcr1.
  - exists location, ok. rewrite (Hfilter isInstall) by blind. now rewrite Hmk2, Hcr2.
Qed.

(** X21. When avdmanager is not in the list and the check of sdkmanager
    passes, nothing is downloaded and the installer gets the packages of the
    list as it was given. *)
Theorem setupAndroid_without_bootstrap
    setupConfigs missingRequirements (st : State W) :
  missingRequirements <> [] ->
  ~ In "avdmanager" missingRequirements ->
  fst (checkBinariesWorking [sdkmanager] st) = [] ->
  let events := since st (snd (setupAndroid setupConfigs missingRequirements st)) in
  List.filter isDownload events = [] /\
  exists location ok,
    List.filter isInstall events =
    [EvInstall location platform (packagesFor imp missingRequirements) ok].
Proof.
  intros Hne Hnot Hworks. cbn zeta.
  destruct missingRequirements as [|r rs]; [congruence|]. clear Hne.
  destruct (setupAndroid_events setupConfigs r rs st)
    as (location & ok & mk & cmd & cwd & out & creation & Hfilter & Hmk & Hcreation).
  assert (Hin : JS.arr_includes (r :: rs) "avdmanager" = false).
  { destruct (JS.arr_includes (r :: rs) "avdmanager") eqn:Hin; [|reflexivity].
    apply arr_includes_In in Hin. contradiction. }
  rewrite Hworks, Hin in Hfilter. cbn [length Nat.eqb negb orb] in Hfilter.
  assert (Hmk' : List.filter isDownload mk = [] /\ List.filter isInstall mk = [])
    by (destruct Hmk as [[_ [res ->]]|[_ ->]]; now split).
  assert (Hcr : List.filter isDownload creation = [] /\
                List.filter isInstall creation = [])
    by (destruct Hcreation as [(_ & -> & _)|(_ & cmd' & cwd' & out' & -> & _)];
        now split).
  destruct Hmk' as [Hmk1 Hmk2], Hcr as [Hcr1 Hcr2]. split.
  - rewrite (Hfilter isDownload) by blind. now rewrite Hmk1, Hcr1.
  - exists location, ok. rewrite (Hfilter isInstall) by blind. now rewrite Hmk2, Hcr2.
Qed.

(** X22. For any list that is not empty, the platforms directory is created
    once, under the SDK root, when the list names it, and not at all when it
    does not; taking avdmanager out of the list does not change that. *)
Theorem setupAndroid_platforms_directory
    setupConfigs missingRequirements (st : State W) :
  missingRequirements <> [] ->
  let events := since st (snd (setupAndroid setupConfigs missingRequirements st)) in
  (In "platforms" missingRequirements ->
   exists res,
     List.filter isMkdir events =
     [EvMkdir (path_join imp [sdkRoot st; "platforms"]) res]) /\
  (~ In "platforms" missingRequirements -> List.filter isMkdir events = []).
Proof.
  intros Hne. cbn zeta.
  destruct missingRequirements as [|r rs]; [congruence|]. clear Hne.
  destruct (setupAndroid_events setupConfigs r rs st)
    as (location & ok & mk & cmd & cwd & out & creation & Hfilter & Hmk & Hcreation).
  rewrite (Hfilter isMkdir) by blind.
  assert (Hcr : List.filter isMkdir creation = [])
    by (destruct Hcreation as [(_ & -> & _)|(_ & cmd' & cwd' & out' & -> & _)];
        reflexivity).
  rewrite Hcr.
  destruct (remaining_requirements
              (negb (Nat.eqb (length (fst (checkBinariesWorking [sdkmanager] st))) 0) ||
               JS.arr_includes (r :: rs) "avdmanager") (r :: rs)) as [Hsub Hkeep].
  cbn zeta in Hsub, Hkeep.
  assert (Hboot : forall b : bool,
    List.filter isMkdir (if b then [EvDownload (sdkRoot st) platform] else []) = [])
    by (now intros []).
  rewrite Hboot. cbn [List.filter isMkdir isInstall app]. rewrite app_nil_r.
  split.
  - intros Hin. destruct Hmk as [[_ [res ->]]|[Hno _]]; [now exists res|].
    exfalso. apply (Hkeep "platforms") in Hin; [|discriminate].
    apply arr_includes_In in Hin. congruence.
  - intros Hnot. destruct Hmk as [[Hyes _]|[_ ->]]; [|reflexivity].
    exfalso. apply Hnot, Hsub. now apply arr_includes_In.
Qed.

(** X23. For any list that is not empty the virtual devices are listed
    once, and whether the virtual device is created depends on that listing
    alone, not on the list of requirements: it is created once when the
    listing does not show it, and not at all when it does. *)
Theorem setupAndroid_creates_by_listing
    setupConfigs missingRequirements (st : State W) :
  missingRequirements <> [] ->
  let events := since st (snd (setupAndroid setupConfigs missingRequirements st)) in
  exists cmd cwd out,
    List.filter (isExecOf "avdmanager" "list avd") events =
      [EvExec "avdmanager" "list avd" cmd cwd out] /\
    (avdListed (try_catch out "") = true ->
     List.filter (isExecOf "avdmanager" (createAvdArgs imp)) events = []) /\
    (avdListed (try_catch out "") = false ->
     exists cmd' cwd' out',
       List.filter (isExecOf "avdmanager" (createAvdArgs imp)) events =
       [EvExec "avdmanager" (createAvdArgs imp) cmd' cwd' out']).
Proof.
  intros Hne. cbn zeta.
  destruct missingRequirements as [|r rs]; [congruence|]. clear Hne.
  destruct (setupAndroid_events setupConfigs r rs st)
    as (location & ok & mk & cmd & cwd & out & creation & Hfilter & Hmk & Hcreation).
  exists cmd, cwd, out.
  rewrite (Hfilter (isExecOf "avdmanager" "list avd")) by blind.
  rewrite (Hfilter (isExecOf "avdmanager" (createAvdArgs imp))) by blind.
  generalize (negb (Nat.eqb (length (fst (checkBinariesWorking [sdkmanager] st))) 0) ||
              JS.arr_includes (r :: rs) "avdmanager") as boot.
  intros boot.
  assert (Hboot : forall f : Event -> bool,
    (forall root p, f (EvDownload root p) = false) ->
    List.filter f (if boot then [EvDownload (sdkRoot st) platform] else []) = []).
  { intros f Hf. destruct boot; [|reflexivity]. cbn [List.filter]. now rewrite Hf. }
  rewrite !Hboot by reflexivity.
  assert (Hmk' : forall name args, List.filter (isExecOf name args) mk = [])
    by (intros; destruct Hmk as [[_ [res ->]]|[_ ->]]; reflexivity).
  rewrite !Hmk'.
  cbn [List.filter isExecOf app andb].
  rewrite ?String.eqb_refl, ?list_avd_is_not_create. cbn [andb app].
  destruct Hcreation as [(Hl & -> & _)|(Hl & cmd' & cwd' & out' & -> & _)].
  - split_and!; [reflexivity | reflexivity | congruence].
  - cbn [List.filter isExecOf andb].
    rewrite ?String.eqb_refl, ?create_is_not_list_avd. cbn [andb].
    split_and!; [reflexivity | congruence | eauto].
Qed.

(** X24. With the setup flag, a run for which the checker finds nothing
    missing returns true and remediates nothing: the empty list stops
    [setupAndroid] before its first step. *)
Theorem run_with_setup_nothing_missing (options : Options) (st : State W) :
  help options = false ->
  setup options = true ->
  JS.truthy (default "" (env_ANDROID_HOME host (world st))) = true ->
  let root := default "" (env_ANDROID_HOME host (world st)) in
  let (setupConfigs, st1) :=
    ask host (getConfigFromOptions options)
        (mkState root (binaryLocation st) (world st) (trace st)) in
  fst (verifySetup setupConfigs st1) = [] ->
  fst (run host imp options platform st) = true /\
  snd (run host imp options platform st) = snd (verifySetup setupConfigs st1) /\
  List.filter (isRemediation imp)
              (since st (snd (run host imp options platform st))) = [].
Proof.
  intros Hhelp Hsetup Hroot. rewrite (run_unfold options st Hhelp). cbn zeta.
  rewrite Hroot, Hsetup.
  apply truthy_true_iff, String.eqb_neq in Hroot. rewrite Hroot.
  set (st0 := mkState _ (binaryLocation st) (world st) (trace st)).
  assert (Hlog1 : exists evs,
    logs st0 (snd (ask host (getConfigFromOptions options) st0)) evs /\
    List.filter (isRemediation imp) evs = []).
  { unfold ask.
    destruct (prompt host (world st0) (getConfigFromOptions options)) as [answered w].
    eexists [_]. split; [now split | reflexivity]. }
  destruct Hlog1 as (evs1 & Hlog1 & Hquiet1).
  destruct (ask host (getConfigFromOptions options) st0) as [setupConfigs st1].
  cbn [snd] in Hlog1. intros Hnothing.
  pose proof (verifySetup_no_remediation setupConfigs st1) as Hquiet2.
  destruct (verifySetup_logs setupConfigs st1) as (evs2 & Hlog2).
  rewrite (logs_since _ _ _ Hlog2) in Hquiet2.
  destruct (verifySetup setupConfigs st1) as [missingRequirements st2].
  cbn [fst snd] in *. subst missingRequirements.
  unfold_setupAndroid. unfold ret. cbn [fst snd].
  split_and!; [reflexivity | reflexivity |].
  unfold since. destruct Hlog1 as [_ T1], Hlog2 as [_ T2].
  rewrite T2, T1. cbn [trace st0]. rewrite <- List.app_assoc, drop_app_length.
  now rewrite List.filter_app, Hquiet1, Hquiet2.
Qed.

End Properties.

(** ** The properties on the concrete instance *)

Section OnTheSample.

Local Abbreviation verifySetup := (verifySetup Sample.host Sample.imports linux).
Local Abbreviation setupAndroid := (setupAndroid Sample.host Sample.imports linux).
Local Abbreviation getBinaryLocation :=
  (getBinaryLocation Sample.host Sample.imports linux).
Local Abbreviation checkBinariesPresent :=
  (checkBinariesPresent Sample.host Sample.imports linux).
Local Abbreviation checkBinariesWorking :=
  (checkBinariesWorking Sample.host Sample.imports linux).
Local Abbreviation verifyAvdPresent :=
  (verifyAvdPresent Sample.host Sample.imports linux).
Local Abbreviation execBinary := (execBinary Sample.host Sample.imports linux).
Local Abbreviation run := (run Sample.host Sample.imports).



(** C2, counterexample.  A value of ANDROID_HOME that names no existing
    directory is accepted: the run asks for the configuration and checks the
    requirements.  With the help flag a run returns true although
    ANDROID_HOME is unset. *)
Lemma run_accepts_nonexistent_sdk_root :
  env_ANDROID_HOME Sample.host Sample.nonexistentRoot = Some "/nonexistent" /\
  fs_existsSync Sample.host Sample.nonexistentRoot "/nonexistent" = false /\
  List.filter isExec
    (trace (snd (run (Sample.flags false false) linux
                     (initial Sample.nonexistentRoot)))) =
    [EvExec "avdmanager" "list avd" "./ list avd" (Some ".") Throw] /\
  env_ANDROID_HOME Sample.host Sample.unsetRoot = None /\
  fst (run (Sample.flags true false) linux (initial Sample.unsetRoot)) = true.
Proof. vm_compute. tauto. Qed.

Lemma run_needs_sdk_root_witness :
  run (Sample.flags false true) linux (initial Sample.unsetRoot) =
    (false, mkState "" ∅ Sample.unsetRoot []) /\
  sdkRoot (snd (run (Sample.flags false false) linux (initial Sample.nonexistentRoot))) =
    "/nonexistent".
Proof.
  split.
  - destruct (run_needs_sdk_root Sample.host Sample.imports linux
                (Sample.flags false true) (initial Sample.unsetRoot))
      as (_ & Hstop & _).
    apply Hstop; reflexivity.
  - destruct (run_needs_sdk_root Sample.host Sample.imports linux
                (Sample.flags false false) (initial Sample.nonexistentRoot))
      as (_ & _ & Hgo).
    specialize (Hgo eq_refl eq_refl). cbv zeta in Hgo.
    destruct (ask _ _ _) as [setupConfigs st1].
    destruct (verifySetup setupConfigs st1) as [missingRequirements st2].
    destruct Hgo as (_ & _ & _ & Hroot & _). exact Hroot.
Defined.

(** C3, counterexample.  When exactly the platforms directory and the
    virtual device are missing, the installer is asked for one package, the
    system image of the virtual device. *)
Lemma setupAndroid_installs_system_image :
  let st := Sample.started Sample.noPlatformsNoAvd in
  fst (verifySetup Sample.emulatorMode st) = ["platforms"; "NIGHTWATCH_AVD"] /\
  List.filter isInstall
    (since st (snd (setupAndroid Sample.emulatorMode
                      ["platforms"; "NIGHTWATCH_AVD"] st))) =
    [EvInstall "/sdk/cmdline-tools/latest/bin/sdkmanager" linux
       ["system-images;android-30;google_apis;x86_64"] true].
Proof. vm_compute. tauto. Qed.

Lemma setupAndroid_platforms_and_avd_witness :
  let st := Sample.started Sample.noPlatformsNoAvd in
  let events :=
    since st (snd (setupAndroid Sample.emulatorMode
                     ["platforms"; "NIGHTWATCH_AVD"] st)) in
  exists location ok res cmd cwd out,
    List.filter isInstall events =
      [EvInstall location linux ["system-images;android-30;google_apis;x86_64"] ok] /\
    List.filter isMkdir events = [EvMkdir "/sdk/platforms" res] /\
    List.filter (isExecOf "avdmanager" "list avd") events =
      [EvExec "avdmanager" "list avd" cmd cwd out] /\
    length (List.filter (isExecOf "avdmanager" (createAvdArgs Sample.imports)) events) =
      if avdListed Sample.imports (try_catch out "") then 0 else 1.
Proof.
  apply (setupAndroid_platforms_and_avd Sample.host Sample.imports linux
           Sample.emulatorMode (Sample.started Sample.noPlatformsNoAvd)
           "system-images;android-30;google_apis;x86_64").
  - discriminate.
  - reflexivity.
  - reflexivity.
Defined.

(** C4, counterexample.  The platforms directory cannot be created, and
    [setupAndroid] returns true. *)
Lemma setupAndroid_ignores_mkdir_failure :
  let st := Sample.started Sample.mkdirFails in
  let r := setupAndroid Sample.emulatorMode ["platforms"; "NIGHTWATCH_AVD"] st in
  List.filter isMkdir (since st (snd r)) = [EvMkdir "/sdk/platforms" Throw] /\
  fst r = true.
Proof. vm_compute. tauto. Qed.

Lemma setupAndroid_result_witness :
  let st := Sample.started Sample.mkdirFails in
  let r := setupAndroid Sample.emulatorMode ["platforms"; "NIGHTWATCH_AVD"] st in
  (fst r = true <-> List.filter (stepFailed Sample.imports) (since st (snd r)) = []) /\
  exists location packages ok cmd cwd out,
    List.filter (fun e => isInstall e || isExecOf "avdmanager" "list avd" e)
                (since st (snd r)) =
    [EvInstall location linux packages ok;
     EvExec "avdmanager" "list avd" cmd cwd out].
Proof.
  destruct (setupAndroid_result Sample.host Sample.imports linux Sample.emulatorMode
              ["platforms"; "NIGHTWATCH_AVD"] (Sample.started Sample.mkdirFails))
    as [Hresult Hsteps].
  split; [exact Hresult|]. apply Hsteps. discriminate.
Defined.

(** C5, counterexample.  Nothing is missing and sdkmanager does not work:
    [setupAndroid] downloads nothing. *)
Lemma setupAndroid_no_bootstrap_when_nothing_missing :
  let st := Sample.started Sample.bare in
  fst (checkBinariesWorking [sdkmanager] st) = [sdkmanager] /\
  List.filter isDownload (since st (snd (setupAndroid Sample.emulatorMode [] st))) = [] /\
  fst (setupAndroid Sample.emulatorMode [] st) = true.
Proof. vm_compute. tauto. Qed.

Lemma setupAndroid_bootstrap_supersedes_avdmanager_witness :
  let st := Sample.started Sample.bare in
  let events :=
    since st (snd (setupAndroid Sample.emulatorMode ["avdmanager"; "emulator"] st)) in
  List.filter isDownload events = [EvDownload "/sdk" linux] /\
  exists location ok,
    List.filter isInstall events =
    [EvInstall location linux (packagesFor Sample.imports ["emulator"]) ok].
Proof.
  destruct (setupAndroid_bootstrap_supersedes_avdmanager Sample.host Sample.imports
              linux Sample.emulatorMode ["avdmanager"; "emulator"]
              (Sample.started Sample.bare)) as [_ Hplan].
  apply Hplan.
  - discriminate.
  - apply NoDup_ListNoDup. repeat constructor; cbn; intuition discriminate.
  - left. cbn. tauto.
Defined.

Lemma verifySetup_twice_same_missing_witness :
  let st := Sample.started Sample.noPlatformsNoAvd in
  fst (verifySetup Sample.emulatorMode (snd (verifySetup Sample.emulatorMode st))) =
  fst (verifySetup Sample.emulatorMode st).
Proof.
  apply (verifySetup_twice_same_missing Sample.host Sample.imports linux
           Sample.emulatorMode (Sample.started Sample.noPlatformsNoAvd)).
  reflexivity.
Defined.

Lemma verifySetup_missing_binary_reported_once_witness :
  let st := Sample.started Sample.bare in
  exists cmd out,
    List.filter (isExecOfBinary "avdmanager")
                (since st (snd (verifySetup Sample.emulatorMode st))) =
    [EvExec "avdmanager" "list avd" cmd (Some (Sample.dirname "")) out].
Proof.
  destruct (verifySetup_missing_binary_reported_once Sample.host Sample.imports linux
              Sample.emulatorMode (Sample.started Sample.bare))
    as (structural & nonWorking & _ & _ & _ & _ & _ & Havd).
  apply Havd. vm_compute. tauto.
Defined.

Lemma verifyAvdPresent_parses_listing_witness :
  let st := Sample.started Sample.complete in
  fst (execBinary (fst (getBinaryLocation avdmanager true st)) "avdmanager" "list avd"
                  (snd (getBinaryLocation avdmanager true st))) = Sample.listing /\
  JS.split Sample.listing "---------" =
    ["..."; "...Error: ..."; "...NIGHTWATCH_AVD..."; ""] /\
  fst (verifyAvdPresent st) = true.
Proof.
  pose proof (verifyAvdPresent_parses_listing Sample.host Sample.imports linux
                (Sample.started Sample.complete)) as H.
  destruct (getBinaryLocation avdmanager true (Sample.started Sample.complete))
    as [location st1] eqn:E.
  vm_compute in E. injection E as <- <-.
  destruct H as [_ H].
  split; [vm_compute; reflexivity|].
  exact (H "..." "..." "..." "..." "..." eq_refl eq_refl eq_refl eq_refl eq_refl).
Defined.

Lemma execBinary_catches_failure_witness :
  fst (execBinary "" "avdmanager" "list avd" (Sample.started Sample.bare)) = "".
Proof.
  destruct (execBinary_catches_failure Sample.host Sample.imports linux
              "" "avdmanager" "list avd" (Sample.started Sample.bare))
    as (cmd & cwd & _ & Hthrow & _).
  apply Hthrow. reflexivity.
Defined.

Lemma sample_join_nonempty (segments : list string) : Sample.join segments <> "".
Proof.
  unfold Sample.join.
  destruct (String.eqb_spec (Sample.join_segments segments) ""); [discriminate|assumption].
Qed.

Lemma binaryLocation_cache_invariant_witness :
  cache_ok Sample.imports linux
    (snd (run (Sample.flags false true) linux (initial Sample.complete))) /\
  binaryLocation (snd (run (Sample.flags false true) linux (initial Sample.complete)))
    !! "adb" = Some "/sdk/platform-tools/adb".
Proof.
  split; [|vm_compute; reflexivity].
  pose proof (binaryLocation_cache_invariant Sample.host Sample.imports linux
                sample_join_nonempty) as H.
  repeat (destruct H as [_ H]). apply H.
Defined.

(** *** Instances of the further properties *)

Lemma getConfigFromOptions_array_order_irrelevant_witness :
  getConfigFromOptions
    {| help := false; setup := true; opt_mode := Some (OptArray ["real"; "emulator"]);
       opt_browsers := Some (OptArray ["chrome"; "firefox"]) |} =
  getConfigFromOptions
    {| help := false; setup := true; opt_mode := Some (OptArray ["emulator"; "real"]);
       opt_browsers := Some (OptArray ["firefox"; "chrome"; "chrome"]) |}.
Proof.
  apply getConfigFromOptions_array_order_irrelevant; intros x; cbn; tauto.
Defined.

Lemma getConfigFromOptions_mode_words_witness :
  mode (getConfigFromOptions
          {| help := false; setup := false;
             opt_mode := Some (OptString "real,emulator"); opt_browsers := None |}) =
  Some mode_both.
Proof.
  apply (getConfigFromOptions_mode_words _ "" "," ""). reflexivity.
Defined.

Lemma getConfigFromOptions_none_wins_witness :
  browsers (getConfigFromOptions
              {| help := false; setup := false; opt_mode := None;
                 opt_browsers := Some (OptArray ["chrome"; "none"]) |}) =
  Some br_none.
Proof.
  destruct (getConfigFromOptions_none_wins
              {| help := false; setup := false; opt_mode := None;
                 opt_browsers := Some (OptArray ["chrome"; "none"]) |}
              ["chrome"; "none"] false) as [Hnone _].
  apply Hnone; [reflexivity | cbn; tauto].
Defined.

Lemma getBinaryLocation_probes_one_place_witness :
  let st := Sample.started Sample.complete in
  since st (snd (getBinaryLocation avdmanager true st)) =
    [EvExists "/sdk/cmdline-tools/latest/bin/avdmanager" true] /\
  fst (getBinaryLocation avdmanager true st) = "/sdk/cmdline-tools/latest/bin/avdmanager".
Proof.
  apply (getBinaryLocation_probes_one_place Sample.host Sample.imports linux
           avdmanager true (Sample.started Sample.complete)).
  discriminate.
Defined.

Lemma getBinaryLocation_adb_first_match_witness :
  let w :=
    {| Sample.android_home := Some "/sdk"; Sample.files := ["/sdk/adb"];
       Sample.on_path := ["adb"]; Sample.output := fun _ => Throw;
       Sample.mkdir_result := Normal tt; Sample.answer := Sample.realMode;
       Sample.install_result := true |} in
  fst (getBinaryLocation adb true (Sample.started w)) = "/sdk/adb" /\
  since (Sample.started w) (snd (getBinaryLocation adb true (Sample.started w))) =
    [EvExists "/sdk/platform-tools/adb" false; EvExists "/sdk/adb" true].
Proof.
  intros w.
  destruct (getBinaryLocation_adb_first_match Sample.host Sample.imports linux
              true (Sample.started w)) as (_ & Hroot & _).
  apply Hroot; reflexivity.
Defined.

Lemma getBinaryLocation_again_witness :
  let first := getBinaryLocation adb false (Sample.started Sample.complete) in
  let again := getBinaryLocation adb true (snd first) in
  fst again = fst first /\
  binaryLocation (snd again) = binaryLocation (snd first).
Proof.
  exact (getBinaryLocation_again Sample.host Sample.imports linux sample_join_nonempty
           adb false true (Sample.started Sample.complete)).
Defined.

Lemma checkBinariesWorking_uses_cached_location_witness :
  let st := snd (getBinaryLocation adb true (Sample.started Sample.complete)) in
  exists cmd cwd out,
    since st (snd (checkBinariesWorking [adb] st)) =
      [EvExec "adb" "--version" cmd cwd out] /\
    out = fst (execSync Sample.host (world st) cmd cwd) /\
    ("/sdk/platform-tools/adb" <> "PATH" ->
     cwd = Some (Sample.dirname "/sdk/platform-tools/adb")) /\
    fst (checkBinariesWorking [adb] st) =
      if JS.truthy (try_catch out "") then [] else [adb].
Proof.
  apply (checkBinariesWorking_uses_cached_location Sample.host Sample.imports linux
           adb "/sdk/platform-tools/adb").
  - vm_compute. reflexivity.
  - discriminate.
Defined.

Lemma checkBinariesWorking_reports_unlocated_witness :
  let st := Sample.started Sample.bare in
  fst (checkBinariesWorking [emulator] st) = [emulator] /\
  List.filter isExec (since st (snd (checkBinariesWorking [emulator] st))) = [].
Proof.
  apply (checkBinariesWorking_reports_unlocated Sample.host Sample.imports linux
           emulator (Sample.started Sample.bare)).
  - vm_compute. reflexivity.
  - vm_compute. reflexivity.
Defined.

Lemma verifyAvdPresent_needs_name_witness :
  fst (verifyAvdPresent (Sample.started Sample.noPlatformsNoAvd)) = false.
Proof.
  pose proof (verifyAvdPresent_needs_name Sample.host Sample.imports linux
                (Sample.started Sample.noPlatformsNoAvd)) as H.
  hnf in H. apply H. vm_compute. reflexivity.
Defined.

Lemma verifyAvdPresent_false_on_failure_witness :
  fst (verifyAvdPresent (Sample.started Sample.bare)) = false.
Proof.
  apply (verifyAvdPresent_false_on_failure Sample.host Sample.imports linux
           (Sample.started Sample.bare) "./ list avd" (Some ".")).
  - discriminate.
  - vm_compute. right. left. reflexivity.
Defined.

Lemma verifySetup_only_checks_witness :
  let st := Sample.started Sample.bare in
  List.filter (isExecOf "adb" "devices")
              (since st (snd (verifySetup Sample.emulatorMode st))) = [].
Proof.
  destruct (verifySetup_only_checks Sample.host Sample.imports linux
              Sample.emulatorMode (Sample.started Sample.bare)) as [_ Hadb].
  apply Hadb. vm_compute. discriminate.
Defined.

Lemma verifySetup_reports_requirements_witness :
  let st := Sample.started Sample.bare in
  Forall (fun r => r = "adb" \/ r = "NIGHTWATCH_AVD")
         (fst (verifySetup Sample.realMode st)).
Proof.
  destruct (verifySetup_reports_requirements Sample.host Sample.imports linux
              Sample.realMode (Sample.started Sample.bare)) as [_ Hreal].
  apply Hreal. reflexivity.
Defined.

Lemma run_without_setup_only_checks_witness :
  let st := initial Sample.complete in
  let st1 :=
    snd (ask Sample.host (getConfigFromOptions (Sample.flags false false))
             (mkState "/sdk" ∅ Sample.complete [])) in
  List.filter (isRemediation Sample.imports)
              (since st (snd (run (Sample.flags false false) linux st))) = [] /\
  (fst (run (Sample.flags false false) linux st) = true <->
   fst (verifySetup Sample.emulatorMode st1) = []).
Proof.
  exact (run_without_setup_only_checks Sample.host Sample.imports linux
           (Sample.flags false false) (initial Sample.complete)
           eq_refl eq_refl eq_refl).
Defined.

Lemma setupAndroid_one_installer_call_witness :
  let st := Sample.started Sample.bare in
  exists location ok packages,
    List.filter isInstall (since st (snd (setupAndroid Sample.emulatorMode ["emulator"] st))) =
      [EvInstall location linux packages ok] /\
    forall p, In p packages ->
      exists r, In r ["emulator"] /\
                BINARY_TO_PACKAGE_NAME Sample.imports !! r = Some p.
Proof.
  apply (setupAndroid_one_installer_call Sample.host Sample.imports linux
           Sample.emulatorMode ["emulator"] (Sample.started Sample.bare)).
  discriminate.
Defined.

Lemma setupAndroid_cuts_first_avdmanager_witness :
  let st := Sample.started Sample.complete in
  let events :=
    since st (snd (setupAndroid Sample.emulatorMode
                     ["emulator"; "avdmanager"; "avdmanager"; "adb"] st)) in
  List.filter isDownload events = [EvDownload "/sdk" linux] /\
  exists location ok,
    List.filter isInstall events =
    [EvInstall location linux
       (packagesFor Sample.imports ["emulator"; "avdmanager"; "adb"]) ok].
Proof.
  apply (setupAndroid_cuts_first_avdmanager Sample.host Sample.imports linux
           Sample.emulatorMode ["emulator"] ["avdmanager"; "adb"]
           (Sample.started Sample.complete)).
  cbn. intuition discriminate.
Defined.

Lemma setupAndroid_without_bootstrap_witness :
  let st := Sample.started Sample.noPlatformsNoAvd in
  let events :=
    since st (snd (setupAndroid Sample.emulatorMode ["platforms"; "NIGHTWATCH_AVD"] st)) in
  List.filter isDownload events = [] /\
  exists location ok,
    List.filter isInstall events =
    [EvInstall location linux
       (packagesFor Sample.imports ["platforms"; "NIGHTWATCH_AVD"]) ok].
Proof.
  apply (setupAndroid_without_bootstrap Sample.host Sample.imports linux
           Sample.emulatorMode ["platforms"; "NIGHTWATCH_AVD"]
           (Sample.started Sample.noPlatformsNoAvd)).
  - discriminate.
  - cbn. intuition discriminate.
  - vm_compute. reflexivity.
Defined.

Lemma setupAndroid_platforms_directory_witness :
  let st := Sample.started Sample.bare in
  exists res,
    List.filter isMkdir
      (since st (snd (setupAndroid Sample.emulatorMode ["avdmanager"; "platforms"] st))) =
    [EvMkdir "/sdk/platforms" res].
Proof.
  destruct (setupAndroid_platforms_directory Sample.host Sample.imports linux
              Sample.emulatorMode ["avdmanager"; "platforms"]
              (Sample.started Sample.bare)) as [Hmk _].
  - discriminate.
  - apply Hmk. cbn. tauto.
Defined.

Lemma setupAndroid_creates_by_listing_witness :
  let st := Sample.started Sample.noPlatformsNoAvd in
  let events := since st (snd (setupAndroid Sample.realMode ["adb"] st)) in
  exists cmd cwd out,
    List.filter (isExecOf "avdmanager" "list avd") events =
      [EvExec "avdmanager" "list avd" cmd cwd out] /\
    (avdListed Sample.imports (try_catch out "") = true ->
     List.filter (isExecOf "avdmanager" (createAvdArgs Sample.imports)) events = []) /\
    (avdListed Sample.imports (try_catch out "") = false ->
     exists cmd' cwd' out',
       List.filter (isExecOf "avdmanager" (createAvdArgs Sample.imports)) events =
       [EvExec "avdmanager" (createAvdArgs Sample.imports) cmd' cwd' out']).
Proof.
  apply (setupAndroid_creates_by_listing Sample.host Sample.imports linux
           Sample.realMode ["adb"] (Sample.started Sample.noPlatformsNoAvd)).
  discriminate.
Defined.

Lemma run_with_setup_nothing_missing_witness :
  let st := initial Sample.complete in
  fst (run (Sample.flags false true) linux st) = true /\
  List.filter (isRemediation Sample.imports)
              (since st (snd (run (Sample.flags false true) linux st))) = [].
Proof.
  pose proof (run_with_setup_nothing_missing Sample.host Sample.imports linux
                (Sample.flags false true) (initial Sample.complete)
                eq_refl eq_refl eq_refl) as H.
  hnf in H.
  destruct H as (Hres & _ & Hquiet); [vm_compute; reflexivity|].
  split; [exact Hres | exact Hquiet].
Defined.

End OnTheSample.
